(** * Notion MCP server: response transformer and error classifier

    A shallow embedding of
      - [src/openapi-mcp-server/mcp/errors.ts]       (the typed errors),
      - [mapNotionErrorToMCPError] of [mcp/proxy.ts] (the classifier),
      - [mcp/transformer.ts]                         (the value normalizer),
    together with the fragment of the JavaScript runtime these three rely
    on: truthiness, [typeof], property reads, [in], [Object.entries],
    assignment to a property, string conversion and [parseInt].  Code that
    can raise an exception is written in an error monad.

    Payloads are JSON data as [JSON.parse] produces them.  An object is the
    list of its own enumerable properties in the order they were created;
    the enumeration order of the runtime follows from it (the names that
    are array indices first, in ascending order, then the others in order
    of creation), so two objects with the same list enumerate alike, and
    where in the list an array index stands is of no consequence.  An
    array has no holes.  Properties found through a prototype ([toString],
    [constructor], ...) are not part of a payload: [in] and property reads
    are modelled on own properties, which is exact for every name the code
    writes out, and for a caller-supplied name as long as it is none of
    [Spec.inherited_names].  String conversion is the one place where the
    prototype is looked at: it calls [toString], and an own member of that
    name hides the inherited function.  A string is the UTF-8 form of the
    JavaScript string; its length and its characters are those of the
    JavaScript string when it is ASCII. *)

From Stdlib Require Import String Ascii List ZArith Bool DecimalString.
Import ListNotations.
Local Open Scope list_scope.
Local Open Scope string_scope.

(* ===================================================================== *)
(** ** The JavaScript fragment *)
(* ===================================================================== *)

Module JS.

(** A JavaScript number.  The code never computes with a number taken from
    a payload: it tests it, prints it and hands it on.  [Int z] is the
    double with the integral value [z], or the one nearest to [z] when [z]
    is no double, as the JSON text [z] is read (-0 is identified with 0);
    [Dbl text] is any other double except NaN (one with a fraction, or an
    infinity), carried by the text [Number.prototype.toString] gives it. *)
Inductive number : Type :=
| Int (z : Z)
| Dbl (text : string)
| NaN.

Unset Elimination Schemes.
Inductive value : Type :=
| VUndefined
| VNull
| VBool (b : bool)
| VNum (n : number)
| VStr (s : string)
| VArr (items : list value)
| VObj (props : list (string * value)).
Set Elimination Schemes.

(** Exceptions: every throw the modelled code can reach is a [TypeError]
    raised by the runtime (a property read on [null] or [undefined], [in]
    applied to a primitive, [Object.entries] of [null] or [undefined], the
    string conversion of an object that has no callable [toString]). *)
Inductive exn : Type := TypeError.

Inductive outcome (A : Type) : Type :=
| Ok (a : A)
| Throw (e : exn).
Arguments Ok {A} a.
Arguments Throw {A} e.

Definition bind {A B : Type} (m : outcome A) (k : A -> outcome B) : outcome B :=
  match m with
  | Ok a => k a
  | Throw e => Throw e
  end.

Notation "x <- m ;; k" := (bind m (fun x => k))
  (at level 61, m at next level, right associativity).

(** [xs.map(f)] for an [f] that may throw: left to right, stopping at the
    first exception. *)
Definition mapM {A B : Type} (f : A -> outcome B) : list A -> outcome (list B) :=
  fix go (xs : list A) : outcome (list B) :=
    match xs with
    | [] => Ok []
    | x :: rest =>
        y <- f x ;;
        ys <- go rest ;;
        Ok (y :: ys)
    end.

(** A [for ... of] loop over [xs] that updates a local variable and may
    throw. *)
Definition foldM {A St : Type} (f : St -> A -> outcome St)
  : list A -> St -> outcome St :=
  fix go (xs : list A) (s : St) : outcome St :=
    match xs with
    | [] => Ok s
    | x :: rest =>
        s' <- f s x ;;
        go rest s'
    end.

(** The same loop over the elements of an array together with their
    index, starting at index [i]. *)
Definition foldM_indexed {A St : Type} (f : St -> nat -> A -> outcome St)
  : nat -> list A -> St -> outcome St :=
  fix go (i : nat) (xs : list A) (s : St) : outcome St :=
    match xs with
    | [] => Ok s
    | x :: rest =>
        s' <- f s i x ;;
        go (S i) rest s'
    end.

Definition number_truthy (n : number) : bool :=
  match n with
  | Int z => negb (z =? 0)%Z
  | Dbl _ => true
  | NaN => false
  end.

(** ToBoolean. *)
Definition truthy (v : value) : bool :=
  match v with
  | VUndefined | VNull => false
  | VBool b => b
  | VNum n => number_truthy n
  | VStr s => negb (s =? "")
  | VArr _ | VObj _ => true
  end.

(** [typeof v === 'object'] *)
Definition typeof_object (v : value) : bool :=
  match v with
  | VNull | VArr _ | VObj _ => true
  | _ => false
  end.

(** [Array.isArray(v)] *)
Definition isArray (v : value) : bool :=
  match v with
  | VArr _ => true
  | _ => false
  end.

Definition is_undefined (v : value) : bool :=
  match v with
  | VUndefined => true
  | _ => false
  end.

(** [x === s] for a string literal [s]. *)
Definition is_string (x : value) (s : string) : bool :=
  match x with
  | VStr t => t =? s
  | _ => false
  end.

Definition nullish (v : value) : bool :=
  match v with
  | VUndefined | VNull => true
  | _ => false
  end.

(** Decimal text of a natural number and of an integer. *)
Definition string_of_nat (n : nat) : string :=
  NilZero.string_of_uint (Nat.to_uint n).

Definition string_of_Z (z : Z) : string :=
  NilZero.string_of_int (Z.to_int z).

Definition two_53 : Z := 9007199254740992.

(** The double nearest to the integer [a >= 0], a tie going to the even
    significand; [None] when that is beyond the largest double.  Below
    2^53 every integer is a double; above, [a] is cut to 53 bits and
    rounded on what is cut off. *)
Definition nearest_double (a : Z) : option Z :=
  if (a <? two_53)%Z then Some a
  else
    let e := (Z.log2 a - 52)%Z in
    let q := Z.shiftr a e in
    let r := (a - Z.shiftl q e)%Z in
    let half := Z.shiftl 1 (e - 1) in
    let q' := if ((half <? r)%Z || ((r =? half)%Z && Z.odd q))%bool
              then (q + 1)%Z else q in
    let x := Z.shiftl q' e in
    if (x <? Z.shiftl 1 1024)%Z then Some x else None.

(** The Number value of the integer [z]. *)
Definition to_double (z : Z) : number :=
  match nearest_double (Z.abs z) with
  | Some x => Int (Z.sgn z * x)
  | None => Dbl (if (z <? 0)%Z then "-Infinity" else "Infinity")
  end.

(** The candidates with [k] significant digits for printing the double
    [x] of [n] decimal digits: the two multiples of 10^(n-k) around [x].
    One that reads back as [x] is taken, the closer one of two, the one
    with the even last digit when they are as close. *)
Definition shortest_with (x : Z) (n k : nat) : option Z :=
  let p := (10 ^ Z.of_nat (n - k))%Z in
  let s := (x / p)%Z in
  let c1 := (s * p)%Z in
  let c2 := ((s + 1) * p)%Z in
  let reads_back c := match nearest_double c with
                      | Some y => (y =? x)%Z
                      | None => false
                      end in
  if (reads_back c1 && reads_back c2)%bool then
    if (x - c1 <? c2 - x)%Z then Some c1
    else if (c2 - x <? x - c1)%Z then Some c2
    else if Z.even s then Some c1 else Some c2
  else if reads_back c1 then Some c1
  else if reads_back c2 then Some c2
  else None.

Fixpoint shortest_from (fuel : nat) (x : Z) (n k : nat) : Z :=
  match fuel with
  | O => x
  | S fuel' =>
      match shortest_with x n k with
      | Some c => c
      | None => shortest_from fuel' x n (S k)
      end
  end.

(** The integer with the fewest significant digits that reads back as the
    double [x >= 0]; seventeen digits always do. *)
Definition shortest (x : Z) : Z :=
  if (x <? two_53)%Z then x
  else shortest_from 17 x (String.length (string_of_Z x)) 1.

Fixpoint strip_zeros (s : string) : string :=
  match s with
  | EmptyString => EmptyString
  | String c rest =>
      let r := strip_zeros rest in
      if ((r =? "") && Ascii.eqb c "0")%bool then EmptyString else String c r
  end.

(** [Number.prototype.toString] on the integer [c >= 0] the digits of a
    double stand for: plain decimal notation below 10^21, and from there
    on the significant digits with a decimal point and an exponent. *)
Definition format_integer (c : Z) : string :=
  let ds := string_of_Z c in
  if (c <? 10 ^ 21)%Z then ds
  else
    match strip_zeros ds with
    | String d rest =>
        String d (if rest =? "" then "" else "." ++ rest)
        ++ "e+" ++ string_of_nat (String.length ds - 1)
    | EmptyString => ds
    end.

Definition number_to_string (n : number) : string :=
  match n with
  | Int z =>
      match nearest_double (Z.abs z) with
      | Some x => (if (z <? 0)%Z then "-" else "") ++ format_integer (shortest x)
      | None => if (z <? 0)%Z then "-Infinity" else "Infinity"
      end
  | Dbl text => text
  | NaN => "NaN"
  end.

(** Own-property lookup in a property list. *)
Fixpoint lookup (k : string) (props : list (string * value)) : option value :=
  match props with
  | [] => None
  | (k', v) :: rest => if k' =? k then Some v else lookup k rest
  end.

(** ToString on JSON data.  An array prints as [join(',')], where [null]
    and [undefined] elements print as the empty string and every other
    element is converted in its turn.  An object is converted by calling
    its [toString]: the inherited one gives [[object Object]]; an own
    member of that name is JSON data, not a function, the inherited
    [valueOf] then gives the object back, and the conversion ends in a
    [TypeError]. *)
Fixpoint to_string (v : value) : outcome string :=
  match v with
  | VUndefined => Ok "undefined"
  | VNull => Ok "null"
  | VBool true => Ok "true"
  | VBool false => Ok "false"
  | VNum n => Ok (number_to_string n)
  | VStr s => Ok s
  | VArr items =>
      parts <- mapM (fun x => if nullish x then Ok "" else to_string x) items ;;
      Ok (String.concat "," parts)
  | VObj props =>
      match lookup "toString" props with
      | Some _ => Throw TypeError
      | None => Ok "[object Object]"
      end
  end.

(** [xs.join(sep)] *)
Definition join (sep : string) (xs : list value) : outcome string :=
  parts <- mapM (fun x => if nullish x then Ok "" else to_string x) xs ;;
  Ok (String.concat sep parts).

(** The keys ["0"], ["1"], ... of an array or string of length [n]. *)
Definition index_keys (n : nat) : list string :=
  map string_of_nat (seq 0 n).

Fixpoint index_of (k : string) (keys : list string) (i : nat) : option nat :=
  match keys with
  | [] => None
  | k' :: rest => if k' =? k then Some i else index_of k rest (S i)
  end.

(** The one-character strings of a string: its bytes, which are its
    characters when the string is ASCII. *)
Fixpoint chars (s : string) : list value :=
  match s with
  | EmptyString => []
  | String c rest => VStr (String c EmptyString) :: chars rest
  end.

(** Own properties of an array-like: the indices and [length]. *)
Definition indexed_lookup (k : string) (items : list value) : option value :=
  if k =? "length" then Some (VNum (Int (Z.of_nat (length items))))
  else match index_of k (index_keys (length items)) 0 with
       | Some i => nth_error items i
       | None => None
       end.

Definition own_property (v : value) (k : string) : option value :=
  match v with
  | VObj props => lookup k props
  | VArr items => indexed_lookup k items
  | VStr s => indexed_lookup k (chars s)
  | _ => None
  end.

(** [v.k] and [v[k]]: a [TypeError] on [null] and [undefined], the own
    property when there is one, [undefined] otherwise. *)
Definition get (v : value) (k : string) : outcome value :=
  if nullish v then Throw TypeError
  else match own_property v k with
       | Some x => Ok x
       | None => Ok VUndefined
       end.

(** [k in v]: a [TypeError] unless [v] is an object or an array. *)
Definition has_property (k : string) (v : value) : outcome bool :=
  match v with
  | VObj _ | VArr _ =>
      Ok (match own_property v k with Some _ => true | None => false end)
  | _ => Throw TypeError
  end.

(** [Object.entries(v)] *)
Definition entries (v : value) : outcome (list (string * value)) :=
  match v with
  | VUndefined | VNull => Throw TypeError
  | VObj props => Ok props
  | VArr items => Ok (combine (index_keys (length items)) items)
  | VStr s => Ok (combine (index_keys (String.length s)) (chars s))
  | VBool _ | VNum _ => Ok []
  end.

(** [result[k] = v] on an object built from [{}]: an existing property is
    overwritten in place, a new one is created after those there are.
    Assigning to [__proto__] runs the inherited setter and creates no own
    property. *)
Fixpoint assign (k : string) (v : value) (props : list (string * value))
  : list (string * value) :=
  match props with
  | [] => [(k, v)]
  | (k', v') :: rest =>
      if k' =? k then (k, v) :: rest else (k', v') :: assign k v rest
  end.

Definition set (k : string) (v : value) (props : list (string * value))
  : list (string * value) :=
  if k =? "__proto__" then props else assign k v props.

Definition is_digit (c : ascii) : bool :=
  (48 <=? nat_of_ascii c)%nat && (nat_of_ascii c <=? 57)%nat.

(** The white space and line terminators of ASCII: tab, line feed,
    vertical tab, form feed, carriage return, space. *)
Definition is_space (c : ascii) : bool :=
  let n := nat_of_ascii c in
  ((9 <=? n)%nat && (n <=? 13)%nat) || (n =? 32)%nat.

(** The white space and line terminators beyond ASCII, in UTF-8: U+00A0
    in two bytes; U+1680, U+2000 to U+200A, U+2028, U+2029, U+202F,
    U+205F, U+3000 and U+FEFF in three. *)
Definition is_space2 (a b : ascii) : bool :=
  ((nat_of_ascii a =? 194) && (nat_of_ascii b =? 160))%nat.

Definition is_space3 (a b c : ascii) : bool :=
  let x := nat_of_ascii a in
  let y := nat_of_ascii b in
  let z := nat_of_ascii c in
  (((x =? 225) && (y =? 154) && (z =? 128))
   || ((x =? 226) && (y =? 128)
       && (((128 <=? z) && (z <=? 138)) || (z =? 168) || (z =? 169)
           || (z =? 175)))
   || ((x =? 226) && (y =? 129) && (z =? 159))
   || ((x =? 227) && (y =? 128) && (z =? 128))
   || ((x =? 239) && (y =? 187) && (z =? 191)))%nat.

(** The string without the white space it starts with: what [parseInt]
    skips, and what [\s*] takes at the start of a string. *)
Fixpoint trim_start (s : string) : string :=
  match s with
  | String a r1 =>
      if is_space a then trim_start r1
      else
        match r1 with
        | String b r2 =>
            if is_space2 a b then trim_start r2
            else
              match r2 with
              | String c r3 => if is_space3 a b c then trim_start r3 else s
              | EmptyString => s
              end
        | EmptyString => s
        end
  | EmptyString => s
  end.

Fixpoint skip_while (p : ascii -> bool) (s : string) : string :=
  match s with
  | EmptyString => EmptyString
  | String c rest => if p c then skip_while p rest else s
  end.

Definition digit_value (c : ascii) : Z := Z.of_nat (nat_of_ascii c - 48).

Fixpoint read_digits (s : string) (acc : option Z) : option Z :=
  match s with
  | EmptyString => acc
  | String c rest =>
      if is_digit c
      then read_digits rest
             (Some (10 * match acc with Some a => a | None => 0 end
                    + digit_value c)%Z)
      else acc
  end.

(** [parseInt(s, 10)] on a string: leading white space, an optional sign,
    the longest run of decimal digits; NaN when there is no digit, and
    otherwise the Number value of the integer read. *)
Definition parseInt (s : string) : number :=
  let s1 := trim_start s in
  let '(negative, s2) :=
    match s1 with
    | String "-" rest => (true, rest)
    | String "+" rest => (false, rest)
    | _ => (false, s1)
    end in
  match read_digits s2 None with
  | Some z => to_double (if negative then - z else z)
  | None => NaN
  end.

Definition isNaN (n : number) : bool :=
  match n with
  | NaN => true
  | _ => false
  end.

(** [needle] is a prefix of [s]. *)
Fixpoint starts_with (needle s : string) : bool :=
  match needle, s with
  | EmptyString, _ => true
  | String a n', String b s' => Ascii.eqb a b && starts_with n' s'
  | String _ _, EmptyString => false
  end.

(** [s.includes(needle)] *)
Fixpoint includes (s needle : string) : bool :=
  starts_with needle s ||
  match s with
  | EmptyString => false
  | String _ rest => includes rest needle
  end.

End JS.

Import JS.

(* ===================================================================== *)
(** ** errors.ts: the typed errors *)
(* ===================================================================== *)

Module Errors.

(** The class an instance was built with: the base class [MCPNotionError]
    itself, which the module exports, or one of its seven subclasses; what
    [instanceof] observes. *)
Inductive ErrorClass : Type :=
| BaseError
| AuthenticationError
| ValidationError
| PermissionError
| NotFoundError
| ConflictError
| RateLimitError
| ServerError.

Record MCPNotionError : Type := mkError {
  class : ErrorClass;
  type : string;
  code : string;
  httpStatus : Z;
  message : string;
  retryable : bool;
  suggestion : option string;
  operation : option string;
  params : option value;
  retryAfter : option number
}.

(** The double quote character, for the texts that quote a name. *)
Definition dquote : string := String (ascii_of_nat 34) EmptyString.

(** [super(message)]: [Error] stores the string conversion of its
    argument, and raises what the conversion raises. *)
Definition error_message (message : value) : outcome string :=
  match message with
  | VUndefined => Ok ""
  | _ => to_string message
  end.

(** [new MCPNotionError(type, code, httpStatus, message, retryable,
    suggestion, operation, params)] *)
Definition new_MCPNotionError (type code : string) (httpStatus : Z)
    (message : value) (retryable : bool) (suggestion : option string)
    (operation : option string) (params : option value)
  : outcome MCPNotionError :=
  m <- error_message message ;;
  Ok (mkError BaseError type code httpStatus m retryable suggestion
        operation params None).

(** The subclasses: the arguments of [super(...)] are evaluated, then the
    base constructor runs. *)
Definition new_AuthenticationError (message : value) (operation : option string)
    (params : option value) (httpStatus : Z) : outcome MCPNotionError :=
  m <- error_message message ;;
  Ok (mkError AuthenticationError "AuthenticationError"
        (if (httpStatus =? 403)%Z then "forbidden" else "unauthorized")
        httpStatus m false
        (Some (if (httpStatus =? 403)%Z
               then "Votre intégration n'a pas accès à cette ressource. Vérifiez les permissions."
               else "Vérifiez que votre token NOTION_TOKEN commence par " ++ dquote
                    ++ "ntn_" ++ dquote ++ " et est valide."))
        operation params None).

Definition new_ValidationError (message : value) (field : value)
    (operation : option string) (params : option value)
  : outcome MCPNotionError :=
  suggestion <- (if truthy field
                 then (f <- to_string field ;;
                       Ok ("Le champ " ++ dquote ++ f ++ dquote
                           ++ " est invalide ou manquant."))
                 else Ok "Vérifiez vos paramètres.") ;;
  m <- error_message message ;;
  Ok (mkError ValidationError "ValidationError" "validation_error" 400
        m false (Some suggestion) operation params None).

Definition new_PermissionError (message : value) (operation : option string)
    (params : option value) : outcome MCPNotionError :=
  m <- error_message message ;;
  Ok (mkError PermissionError "PermissionError" "forbidden" 403
        m false
        (Some "Votre intégration n'a pas les permissions nécessaires. Ajoutez la ressource via les paramètres d'intégration.")
        operation params None).

(** The suggestion of a [NotFoundError] that names a resource type. *)
Definition typed_not_found (resourceType : string) : string :=
  "La ressource de type " ++ dquote ++ resourceType ++ dquote
  ++ " n'existe pas ou n'est pas partagée avec votre intégration.".

Definition new_NotFoundError (message : value) (resourceType : option string)
    (operation : option string) (params : option value)
  : outcome MCPNotionError :=
  m <- error_message message ;;
  Ok (mkError NotFoundError "NotFoundError" "object_not_found" 404
        m false
        (Some (match resourceType with
               | Some t => if t =? "" then "Ressource non trouvée."
                           else typed_not_found t
               | None => "Ressource non trouvée."
               end))
        operation params None).

Definition new_ConflictError (message : value) (operation : option string)
    (params : option value) : outcome MCPNotionError :=
  m <- error_message message ;;
  Ok (mkError ConflictError "ConflictError" "conflict" 409
        m true
        (Some "Un conflit est survenu (modification simultanée). Veuillez réessayer.")
        operation params None).

Definition new_RateLimitError (message : value) (retryAfter : option number)
    (operation : option string) (params : option value)
  : outcome MCPNotionError :=
  m <- error_message message ;;
  Ok (mkError RateLimitError "RateLimitError" "rate_limited" 429
        m true
        (Some (match retryAfter with
               | Some n => if number_truthy n
                           then "Attendez " ++ number_to_string n
                                ++ " seconde(s) avant de réessayer."
                           else "Ralentissez les requêtes."
               | None => "Ralentissez les requêtes."
               end))
        operation params retryAfter).

Definition new_ServerError (message : value) (operation : option string)
    (params : option value) : outcome MCPNotionError :=
  m <- error_message message ;;
  Ok (mkError ServerError "ServerError" "internal_server_error" 500
        m true
        (Some "Une erreur serveur est survenue. Veuillez réessayer dans quelques instants.")
        operation params None).

End Errors.

(* ===================================================================== *)
(** ** proxy.ts: the error classifier *)
(* ===================================================================== *)

Module Proxy.
Import Errors.

(** Modelled from the spec: the [Headers] class of the HTTP client
    ([client/polyfill-headers]) is not among the sources; the spec gives it
    as a case-insensitive header lookup.  A header list, and [get]
    returning the value of the first entry whose name matches without
    regard to case, [null] ([None]) when there is none. *)
Definition Headers : Type := list (string * string).

Definition lower (c : ascii) : ascii :=
  let n := nat_of_ascii c in
  if ((65 <=? n)%nat && (n <=? 90)%nat)%bool then ascii_of_nat (n + 32) else c.

Fixpoint lowercase (s : string) : string :=
  match s with
  | EmptyString => EmptyString
  | String c rest => String (lower c) (lowercase rest)
  end.

Fixpoint headers_get (h : Headers) (name : string) : option string :=
  match h with
  | [] => None
  | (n, v) :: rest =>
      if lowercase n =? lowercase name then Some v else headers_get rest name
  end.

(** The failure the HTTP client raises.  [originalMessage] is its
    [message]; [headers] may be missing. *)
Record HttpClientError : Type := mkHttpClientError {
  status : Z;
  data : value;
  originalMessage : string;
  headers : option Headers
}.

(** [originalMessage.replace(/^\d+\s*/, '')]: a leading run of digits and
    the white space after it are removed. *)
Definition strip_status (s : string) : string :=
  match s with
  | String c _ =>
      if is_digit c then trim_start (skip_while is_digit s) else s
  | EmptyString => s
  end.

(** The local variables [message], [errorCode], [field], [retryAfter]
    after the body has been looked at. *)
Record Extracted : Type := mkExtracted {
  x_message : value;
  x_errorCode : value;
  x_field : value;
  x_retryAfter : option number
}.

(** Lines 107-129 of [mapNotionErrorToMCPError]. *)
Definition extract (error : HttpClientError) : outcome Extracted :=
  let message := VStr (strip_status (originalMessage error)) in
  let data := data error in
  if (typeof_object data && negb (nullish data))%bool then
    m <- get data "message" ;;
    let message := if truthy m then m else message in
    c <- get data "code" ;;
    let errorCode := if truthy c then c else VUndefined in
    f <- get data "field" ;;
    let field := if truthy f then f else VUndefined in
    r <- get data "retry_after" ;;
    retryAfter <- (if negb (is_undefined r)
                   then match r with
                        | VNum n => Ok (Some n)
                        | _ => text <- to_string r ;; Ok (Some (parseInt text))
                        end
                   else Ok None) ;;
    Ok (mkExtracted message errorCode field retryAfter)
  else Ok (mkExtracted message VUndefined VUndefined None).

(** The 404 branch: the resource type read off the operation name. *)
Definition infer_resourceType (operation : option string) : option string :=
  match operation with
  | Some op =>
      if negb (op =? "") then
        if includes op "block" then Some "block"
        else if includes op "page" then Some "page"
        else if (includes op "data_source" || includes op "data-source")%bool
             then Some "database"
        else if includes op "database" then Some "database"
        else if includes op "user" then Some "user"
        else None
      else None
  | None => None
  end.

(** The 429 branch: the [Retry-After] header, when it parses, replaces
    what the body gave. *)
Definition header_retryAfter (error : HttpClientError)
    (retryAfter : option number) : option number :=
  match headers error with
  | Some h =>
      match headers_get h "Retry-After" with
      | Some retryAfterHeader =>
          if negb (retryAfterHeader =? "") then
            let parsed := parseInt retryAfterHeader in
            if negb (isNaN parsed) then Some parsed else retryAfter
          else retryAfter
      | None => retryAfter
      end
  | None => retryAfter
  end.

Definition mapNotionErrorToMCPError (error : HttpClientError)
    (operation : option string) (params : option value)
  : outcome MCPNotionError :=
  x <- extract error ;;
  let message := x_message x in
  let status := status error in
  if (status =? 400)%Z then
    new_ValidationError message (x_field x) operation params
  else if (status =? 401)%Z then
    new_AuthenticationError message operation params 401
  else if (status =? 403)%Z then
    if is_string (x_errorCode x) "permission_required"
    then new_PermissionError message operation params
    else new_AuthenticationError message operation params 403
  else if (status =? 404)%Z then
    new_NotFoundError message (infer_resourceType operation) operation params
  else if (status =? 409)%Z then
    new_ConflictError message operation params
  else if (status =? 429)%Z then
    new_RateLimitError message (header_retryAfter error (x_retryAfter x))
      operation params
  else if ((status =? 500) || (status =? 502) || (status =? 503)
           || (status =? 504))%Z%bool then
    new_ServerError message operation params
  else
    new_ServerError message operation params.

End Proxy.

(* ===================================================================== *)
(** ** transformer.ts: the value normalizer *)
(* ===================================================================== *)

Module Transformer.
Import Proxy.

Inductive OperationType : Type := read | write.

(** [Partial<TransformConfig>]: every field may be missing.  [mode] is
    whatever string the caller or the environment supplied. *)
Record TransformConfig : Type := mkConfig {
  mode : option string;
  fields : option (list string);
  operationType : option OperationType
}.

Definition detectOperationType (data : value) : outcome OperationType :=
  if (negb (truthy data) || negb (typeof_object data))%bool then Ok read
  else
    has_id <- has_property "id" data ;;
    if has_id then
      has_created <- has_property "created_time" data ;;
      if has_created then
        has_edited <- has_property "last_edited_time" data ;;
        if has_edited then
          keys <- entries data ;;
          if (length keys <=? 10)%nat then Ok write else Ok read
        else Ok read
      else Ok read
    else Ok read.

(** [`Successfully processed ${n} item(s)`] *)
Definition processed_message (n : nat) : string :=
  "Successfully processed " ++ string_of_nat n ++ " item(s)".

Definition length_value (items : list value) : value :=
  VNum (Int (Z.of_nat (length items))).

Definition transformSuccessOnly (data : value) (operationType : OperationType)
  : outcome value :=
  if (negb (truthy data) || negb (typeof_object data))%bool
  then Ok (VObj [("success", VBool true)])
  else
    has_id <- has_property "id" data ;;
    if has_id then
      id <- get data "id" ;;
      let result := [("success", VBool true); ("id", id)] in
      has_created <- has_property "created_time" data ;;
      result <- (if has_created
                 then (c <- get data "created_time" ;;
                       Ok (set "created_time" c result))
                 else Ok result) ;;
      has_edited <- has_property "last_edited_time" data ;;
      result <- (if has_edited
                 then (e <- get data "last_edited_time" ;;
                       Ok (set "last_edited_time" e result))
                 else Ok result) ;;
      has_results <- has_property "results" data ;;
      results <- (if has_results then get data "results" else Ok VUndefined) ;;
      match results with
      | VArr items =>
          Ok (VObj (set "message" (VStr (processed_message (length items)))
                      (set "count" (length_value items) result)))
      | _ => Ok (VObj (set "message" (VStr "Operation successful") result))
      end
    else
      match data with
      | VArr items =>
          Ok (VObj [("success", VBool true);
                    ("count", length_value items);
                    ("message", VStr (processed_message (length items)))])
      | _ => Ok (VObj [("success", VBool true)])
      end.

Definition isMetadataField (key : string) : bool :=
  existsb (String.eqb key)
    ["id"; "created_time"; "last_edited_time"; "created_by"; "last_edited_by";
     "archived"; "in_trash"; "url"; "public_url"; "parent"; "object";
     "type"; "has_children"; "next_cursor"; "prev_cursor"].

Definition extractMetadata (obj : value) : outcome (list (string * value)) :=
  foldM (fun metadata key =>
           present <- has_property key obj ;;
           if present
           then (v <- get obj key ;; Ok (set key v metadata))
           else Ok metadata)
    ["next_cursor"; "prev_cursor"; "has_more"; "type"; "object"] [].

(** [x && typeof x === 'object'] *)
Definition is_object (x : value) : bool :=
  (truthy x && typeof_object x)%bool.

(** The [{ id: u.id, name: u.name }] literal of the people and user
    rules. *)
Definition id_and_name (u : value) : outcome value :=
  id <- get u "id" ;;
  name <- get u "name" ;;
  Ok (VObj [("id", id); ("name", name)]).

(** The callback of the [title] / [rich_text] rule. *)
Definition text_content (t : value) : outcome value :=
  ty <- get t "type" ;;
  if is_string ty "text" then
    tx <- get t "text" ;;
    if is_object tx then get tx "content" else Ok VNull
  else Ok VNull.

(** The callback of the [files] rule. *)
Definition file_entry (file : value) : outcome value :=
  ty <- get file "type" ;;
  external <- (if is_string ty "external" then get file "external"
               else Ok VUndefined) ;;
  if (is_string ty "external" && truthy external)%bool then
    url <- get external "url" ;;
    Ok (VObj [("url", url)])
  else
    inner <- (if is_string ty "file" then get file "file" else Ok VUndefined) ;;
    if (is_string ty "file" && truthy inner)%bool then
      url <- get inner "url" ;;
      expiry <- get inner "expiry_time" ;;
      Ok (VObj [("url", url); ("expiry_time", expiry)])
    else Ok VNull.

(** [extractNotionValue]: one rule per [type] tag. *)
Definition extractNotionValue (property : value) : outcome value :=
  if (negb (truthy property) || negb (typeof_object property))%bool
  then Ok property
  else
    type <- get property "type" ;;
    if negb (truthy type) then Ok property
    else
      if (is_string type "title" || is_string type "rich_text")%bool then
          key <- to_string type ;;
          payload <- get property key ;;
          match payload with
          | VArr texts =>
              mapped <- mapM text_content texts ;;
              joined <- join "" (filter truthy mapped) ;;
              let content := VStr joined in
              match texts with
              | first :: _ =>
                  ftext <- get first "text" ;;
                  if is_object ftext then
                    link <- get ftext "link" ;;
                    if is_object link then
                      url <- get link "url" ;;
                      Ok (VObj [("content", content); ("url", url)])
                    else Ok content
                  else Ok content
              | [] => Ok content
              end
          | _ => Ok payload
          end
      else if is_string type "select" then
          select <- get property "select" ;;
          if is_object select then get select "name" else Ok VNull
      else if is_string type "multi_select" then
          multi_select <- get property "multi_select" ;;
          match multi_select with
          | VArr options =>
              names <- mapM (fun s => get s "name") options ;;
              Ok (VArr (filter truthy names))
          | _ => Ok (VArr [])
          end
      else if is_string type "date" then
          date <- get property "date" ;;
          if is_object date then
            e <- get date "end" ;;
            if truthy e then
              start <- get date "start" ;;
              Ok (VObj [("start", start); ("end", e)])
            else get date "start"
          else Ok VNull
      else if is_string type "number" then get property "number"
      else if is_string type "checkbox" then get property "checkbox"
      else if is_string type "url" then get property "url"
      else if is_string type "email" then get property "email"
      else if is_string type "phone_number" then get property "phone_number"
      else if is_string type "files" then
          files <- get property "files" ;;
          match files with
          | VArr items =>
              mapped <- mapM file_entry items ;;
              Ok (VArr (filter truthy mapped))
          | _ => Ok (VArr [])
          end
      else if is_string type "people" then
          people <- get property "people" ;;
          match people with
          | VArr persons =>
              mapped <- mapM id_and_name persons ;;
              Ok (VArr mapped)
          | _ => Ok (VArr [])
          end
      else if is_string type "relation" then
          relation <- get property "relation" ;;
          if isArray relation then Ok relation else Ok (VArr [])
      else if is_string type "formula" then
          formula <- get property "formula" ;;
          if is_object formula then
            has_string <- has_property "string" formula ;;
            if has_string then get formula "string" else
            has_number <- has_property "number" formula ;;
            if has_number then get formula "number" else
            has_boolean <- has_property "boolean" formula ;;
            if has_boolean then get formula "boolean" else
            has_date <- has_property "date" formula ;;
            if has_date then get formula "date" else Ok VNull
          else Ok VNull
      else if is_string type "rollup" then
          rollup <- get property "rollup" ;;
          if is_object rollup then
            has_number <- has_property "number" rollup ;;
            if has_number then get rollup "number" else
            has_date <- has_property "date" rollup ;;
            if has_date then get rollup "date" else
            has_array <- has_property "array" rollup ;;
            if has_array then get rollup "array" else
            has_incomplete <- has_property "incomplete" rollup ;;
            if has_incomplete then Ok VNull else Ok VNull
          else Ok VNull
      else if is_string type "status" then
          status <- get property "status" ;;
          if is_object status then get status "name" else Ok VNull
      else if is_string type "created_time" then get property "created_time"
      else if is_string type "created_by" then
          created_by <- get property "created_by" ;;
          if is_object created_by then id_and_name created_by else Ok VNull
      else if is_string type "last_edited_time" then get property "last_edited_time"
      else if is_string type "last_edited_by" then
          last_edited_by <- get property "last_edited_by" ;;
          if is_object last_edited_by then id_and_name last_edited_by
          else Ok VNull
      else if is_string type "unique_id" then
          uniqueId <- get property "unique_id" ;;
          if is_object uniqueId then
            num <- get uniqueId "number" ;;
            if negb (is_undefined num) then
              prefix <- get uniqueId "prefix" ;;
              if truthy prefix
              then (p <- to_string prefix ;;
                    n <- to_string num ;;
                    Ok (VStr (p ++ "-" ++ n)))
              else Ok num
            else Ok VNull
          else Ok VNull
      else if is_string type "place" then
          place <- get property "place" ;;
          if is_object place then Ok place else Ok VNull
      else Ok property.

(** The [case] labels of the [switch] in [extractNotionValue]. *)
Definition known_tags : list string :=
  ["title"; "rich_text"; "select"; "multi_select"; "date"; "number";
   "checkbox"; "url"; "email"; "phone_number"; "files"; "people";
   "relation"; "formula"; "rollup"; "status"; "created_time"; "created_by";
   "last_edited_time"; "last_edited_by"; "unique_id"; "place"].

Definition transformProperties (properties : value)
  : outcome (list (string * value)) :=
  es <- entries properties ;;
  foldM (fun result '(propName, propValue) =>
           if is_object propValue
           then (v <- extractNotionValue propValue ;;
                 Ok (set propName v result))
           else Ok (set propName propValue result))
    es [].

Section PerField.

(** [this.transformObject(item)], the call without a field list that
    [transformValue] makes. *)
Variable transformObject_rec : value -> outcome value.

(** [transformValue(value, key)]; [key] is not used by the code. *)
Definition transformValue_with (value : value) : outcome JS.value :=
  match value with
  | VNull | VUndefined => Ok value
  | VArr items =>
      mapped <- mapM (fun item =>
                        if is_object item then transformObject_rec item
                        else Ok item) items ;;
      Ok (VArr mapped)
  | VObj _ => transformObject_rec value
  | _ => Ok value
  end.

(** The body of the loop of the pass over all fields: what is stored
    under [key]. *)
Definition field_rule_with (key : string) (value : value) : outcome JS.value :=
  if isMetadataField key then Ok value
  else if ((key =? "properties") && typeof_object value
           && negb (nullish value))%bool
  then (p <- transformProperties value ;; Ok (VObj p))
  else transformValue_with value.

Definition loop_step (result : list (string * value)) (entry : string * value)
  : outcome (list (string * JS.value)) :=
  let '(key, value) := entry in
  v <- field_rule_with key value ;;
  Ok (set key v result).

End PerField.

(** [transformObject(obj)] without a field list: the pass over
    [Object.entries(obj)].  The entries of an object are its properties and
    those of an array its elements under their indices; the entries of a
    string are one-character strings under non-metadata keys, which the
    loop stores as they are. *)
Fixpoint transformObject_all (obj : value) : outcome value :=
  match obj with
  | VUndefined | VNull => Throw TypeError
  | VObj props =>
      result <- foldM (loop_step transformObject_all) props [] ;;
      Ok (VObj result)
  | VArr items =>
      result <- foldM_indexed
                  (fun result i item =>
                     loop_step transformObject_all result (string_of_nat i, item))
                  0 items [] ;;
      Ok (VObj result)
  | VStr s =>
      result <- foldM (loop_step (fun x => Ok x))
                  (combine (index_keys (String.length s)) (chars s)) [] ;;
      Ok (VObj result)
  | VBool _ | VNum _ => Ok (VObj [])
  end.

Definition transformValue (value : value) : outcome JS.value :=
  transformValue_with transformObject_all value.

Definition field_rule (key : string) (value : value) : outcome JS.value :=
  field_rule_with transformObject_all key value.

(** The body of the loop over the field list. *)
Definition keep_field (obj : value) (result : list (string * value))
    (field : string) : outcome (list (string * JS.value)) :=
  present <- has_property field obj ;;
  if present
  then (x <- get obj field ;;
        v <- transformValue x ;;
        Ok (set field v result))
  else Ok result.

(** [transformObject(obj, fields)] *)
Definition transformObject (obj : value) (fields : option (list string))
  : outcome value :=
  match fields with
  | Some ((_ :: _) as names) =>
      result <- foldM (keep_field obj) names [] ;;
      Ok (VObj result)
  | _ => transformObject_all obj
  end.

Fixpoint transformReduced (data : value) (fields : option (list string))
  : outcome value :=
  match data with
  | VNull | VUndefined => Ok data
  | VArr items =>
      mapped <- mapM (fun item => transformReduced item fields) items ;;
      Ok (VArr mapped)
  | VObj _ =>
      has_results <- has_property "results" data ;;
      results <- (if has_results then get data "results" else Ok VUndefined) ;;
      match results with
      | VArr items =>
          metadata <- extractMetadata data ;;
          mapped <- mapM (fun item => transformObject item fields) items ;;
          Ok (VObj (assign "results" (VArr mapped) metadata))
      | _ => transformObject data fields
      end
  | _ => Ok data
  end.

(** [transform(data, config)] of a transformer whose default mode is
    [defaultMode]. *)
Definition transform (defaultMode : string) (data : value)
    (config : TransformConfig) : outcome value :=
  let mode := match mode config with
              | Some m => m
              | None => defaultMode
              end in
  operationType <- match operationType config with
                   | Some t => Ok t
                   | None => detectOperationType data
                   end ;;
  if mode =? "full" then Ok data
  else if mode =? "success_only" then transformSuccessOnly data operationType
  else if mode =? "reduced" then transformReduced data (fields config)
  else Ok data.

End Transformer.

(* ===================================================================== *)
(** ** The specification's vocabulary *)
(* ===================================================================== *)

Module Spec.
Import Errors Proxy Transformer.

(** The optional field [k] of a failure body: the body's own property
    when the body is a JSON object (or array), absent otherwise. *)
Definition body_field (body : value) (k : string) : value :=
  if (typeof_object body && negb (nullish body))%bool then
    match own_property body k with
    | Some v => v
    | None => VUndefined
    end
  else VUndefined.

(** What the classifier takes for the message: the body's [message] when
    that is truthy, the transport's message without its status code
    otherwise; and for the field: the body's [field] when that is truthy. *)
Definition message_value (error : HttpClientError) : value :=
  if truthy (body_field (data error) "message")
  then body_field (data error) "message"
  else VStr (strip_status (originalMessage error)).

Definition field_value (error : HttpClientError) : value :=
  if truthy (body_field (data error) "field")
  then body_field (data error) "field"
  else VUndefined.

(** The status-to-kind table of the specification.  [remote_code] is the
    body's [code]. *)
Definition kind_of_status (status : Z) (remote_code : value) : ErrorClass :=
  if (status =? 400)%Z then ValidationError
  else if (status =? 401)%Z then AuthenticationError
  else if (status =? 403)%Z then
    if is_string remote_code "permission_required" then PermissionError
    else AuthenticationError
  else if (status =? 404)%Z then NotFoundError
  else if (status =? 409)%Z then ConflictError
  else if (status =? 429)%Z then RateLimitError
  else ServerError.

(** Retry eligibility as the specification gives it: the kinds that can
    be retried, and those that cannot. *)
Definition retryable_kinds : list ErrorClass :=
  [ConflictError; RateLimitError; ServerError].

Definition final_kinds : list ErrorClass :=
  [AuthenticationError; ValidationError; PermissionError; NotFoundError].

(** The substring markers of resource-type inference in their priority
    order, each with the resource type it stands for. *)
Definition resource_markers : list (string * string) :=
  [("block", "block"); ("page", "page"); ("data_source", "database");
   ("data-source", "database"); ("database", "database"); ("user", "user")].

(** The resource type of the first marker found in [operationId]. *)
Definition first_marker (operationId : string) : option string :=
  option_map snd
    (find (fun m => includes operationId (fst m)) resource_markers).

(** The value of the [Retry-After] response header, when there is one. *)
Definition retry_after_header (error : HttpClientError) : option string :=
  match headers error with
  | Some h => headers_get h "Retry-After"
  | None => None
  end.

(** What the body's [retry_after] gives: a number as it is, anything else
    through its string form and [parseInt]; nothing when the field is
    absent. *)
Definition body_retry_after (body : value) : outcome (option number) :=
  match body_field body "retry_after" with
  | VUndefined => Ok None
  | VNum n => Ok (Some n)
  | v => text <- to_string v ;; Ok (Some (parseInt text))
  end.

(** The mode a call runs in: [config.mode ?? this.defaultMode]. *)
Definition effective_mode (defaultMode : string) (config : TransformConfig)
  : string :=
  match mode config with
  | Some m => m
  | None => defaultMode
  end.

(** The property names every object inherits from [Object.prototype].
    [in] finds them on any object, so a field list that names one of them
    is outside what the own-property reading of [in] describes. *)
Definition inherited_names : list string :=
  ["constructor"; "hasOwnProperty"; "isPrototypeOf"; "propertyIsEnumerable";
   "toLocaleString"; "toString"; "valueOf"; "__proto__";
   "__defineGetter__"; "__defineSetter__"; "__lookupGetter__";
   "__lookupSetter__"].

(** The scalar tags, as the [switch] spells them. *)
Definition scalar_tags : list string :=
  ["number"; "checkbox"; "url"; "email"; "phone_number"].

(** The same-named nested payload of a Property Value. *)
Definition payload (props : list (string * value)) (tag : string) : value :=
  match lookup tag props with
  | Some v => v
  | None => VUndefined
  end.

(** The [type] discriminator of a Property Value. *)
Definition discriminator (props : list (string * value)) : value :=
  payload props "type".

End Spec.

(* ===================================================================== *)
(** ** Sample failures and payloads *)
(* ===================================================================== *)

Module Examples.
Import Proxy Transformer.

(** A 404 without a body. *)
Definition block_not_found : HttpClientError :=
  mkHttpClientError 404 VUndefined "404 Not Found" None.

(** Scenario A of the specification: the body carries retry_after as the
    string "15"; there is no Retry-After header. *)
Definition rate_limited_15 : HttpClientError :=
  mkHttpClientError 429
    (VObj [("message", VStr "Rate limited"); ("retry_after", VStr "15")])
    "429 Too Many Requests" (Some []).

(** retry_after = 15 in the body, Retry-After: 30 in the headers. *)
Definition rate_limited_body_and_header : HttpClientError :=
  mkHttpClientError 429
    (VObj [("message", VStr "Rate limited"); ("retry_after", VNum (Int 15))])
    "429 Too Many Requests" (Some [("Retry-After", "30")]).

(** retry_after = 15 in the body, a Retry-After header that is no
    number. *)
Definition rate_limited_bad_header : HttpClientError :=
  mkHttpClientError 429
    (VObj [("message", VStr "Rate limited"); ("retry_after", VNum (Int 15))])
    "429 Too Many Requests" (Some [("Retry-After", "soon")]).

(** A page with one select property. *)
Definition status_page : list (string * value) :=
  [("object", VStr "page"); ("id", VStr "p1");
   ("properties",
    VObj [("Status",
           VObj [("type", VStr "select");
                 ("select", VObj [("name", VStr "Done")])])])].

Definition sample_page : value := VObj status_page.

(** A page whose parent carries property values. *)
Definition workspace_page : list (string * value) :=
  [("id", VStr "p2");
   ("parent",
    VObj [("type", VStr "workspace");
          ("properties",
           VObj [("Open",
                  VObj [("type", VStr "checkbox"); ("checkbox", VBool true)])])])].

(** A paginated list of three items, without an id. *)
Definition list_envelope : list (string * value) :=
  [("object", VStr "list");
   ("results", VArr [VNum (Int 1); VNum (Int 2); VNum (Int 3)]);
   ("has_more", VBool false)].

(** A Property Value of a type the [switch] does not list. *)
Definition verification_property : list (string * value) :=
  [("id", VStr "a%3Ab"); ("type", VStr "verification");
   ("verification", VObj [("state", VStr "unverified")])].

Definition phone_number_property : list (string * value) :=
  [("id", VStr "x"); ("type", VStr "phone_number");
   ("phone_number", VStr "+33 1 23 45 67 89")].

(** A failure whose body carries an object as its message, with a member
    named toString. *)
Definition unprintable_message : HttpClientError :=
  mkHttpClientError 500
    (VObj [("object", VStr "error");
           ("message", VObj [("toString", VStr "x")])])
    "500 Internal Server Error" None.

(** A page whose title holds a [null] fragment. *)
Definition page_with_null_fragment : value :=
  VObj [("object", VStr "page"); ("id", VStr "p1");
        ("properties",
         VObj [("Name",
                VObj [("type", VStr "title"); ("title", VArr [VNull])])])].

End Examples.

(* ===================================================================== *)
(** ** errors.ts and error-formatter.ts: what the client is sent *)
(* ===================================================================== *)

Module Report.
Import Errors.

(** [toJSON()] of [MCPNotionError], and its override in [RateLimitError]
    that adds [retryAfter].  A spread of a falsy value adds nothing. *)
Definition toJSON (e : MCPNotionError) : list (string * value) :=
  ([("type", VStr (type e));
    ("code", VStr (code e));
    ("httpStatus", VNum (Int (httpStatus e)));
    ("message", VStr (message e));
    ("retryable", VBool (retryable e));
    ("suggestion", match suggestion e with
                   | Some s => VStr s
                   | None => VUndefined
                   end)]
   ++ match operation e with
      | Some op => if op =? "" then [] else [("operation", VStr op)]
      | None => []
      end
   ++ match params e with
      | Some p => if truthy p then [("params", p)] else []
      | None => []
      end
   ++ match class e with
      | RateLimitError =>
          match retryAfter e with
          | Some n => [("retryAfter", VNum n)]
          | None => []
          end
      | _ => []
      end)%list.

(** The line feed of the templates. *)
Definition newline : string := String (ascii_of_nat 10) EmptyString.

(** [`${error.suggestion}`] *)
Definition suggestion_text (e : MCPNotionError) : string :=
  match suggestion e with
  | Some s => s
  | None => "undefined"
  end.

(** The common shape of the templates of the seven subclasses. *)
Definition template (heading label : string) (e : MCPNotionError) : string :=
  heading ++ newline ++ newline ++ message e ++ newline ++ newline
  ++ "**" ++ label ++ "** : " ++ suggestion_text e.

(** [formatUserMessage(error)].  The seven subclasses do not extend one
    another, so the chain of [instanceof] tests is a case distinction on
    the class; its last line serves the instances of the base class. *)
Definition formatUserMessage (error : MCPNotionError) : string :=
  match class error with
  | AuthenticationError =>
      template "🔑 **Erreur d'authentification**" "Solution" error
  | ValidationError =>
      template "⚠️ **Erreur de validation**" "Solution" error
  | PermissionError =>
      template "🔒 **Erreur de permission**" "Solution" error
  | NotFoundError =>
      template "🔍 **Ressource non trouvée**" "Détails" error
  | ConflictError =>
      template "⚡ **Conflit détecté**" "Action" error
  | RateLimitError =>
      template "⏱️ **Limite de requêtes atteinte**" "Action" error
  | ServerError =>
      template "🔴 **Erreur serveur**" "Action" error
  | BaseError => "❌ **Erreur** : " ++ message error
  end.

End Report.

(* ===================================================================== *)
(** ** proxy.ts and transformer.ts: the server around the two components *)
(* ===================================================================== *)

Module Server.
Import Errors Proxy Transformer Report.

(** The transformer object: its one field. *)
Record ResponseTransformer : Type := mkTransformer {
  defaultMode : string
}.

Definition getDefaultMode (t : ResponseTransformer) : string := defaultMode t.

Definition setDefaultMode (t : ResponseTransformer) (mode : string)
  : ResponseTransformer :=
  mkTransformer mode.

(** [createTransformerFromEnv()]; [env] is the value of
    [NOTION_MCP_OUTPUT_MODE], when it is set. *)
Definition createTransformerFromEnv (env : option string) : ResponseTransformer :=
  mkTransformer (match env with
                 | Some m => if m =? "" then "full" else m
                 | None => "full"
                 end).

(** [const { _output, _fields, ...apiParams } = deserializedParams] *)
Definition apiParams (deserializedParams : list (string * value))
  : list (string * value) :=
  filter (fun kv => negb (fst kv =? "_output") && negb (fst kv =? "_fields"))%bool
    deserializedParams.

(** The [catch] branch of the tool call for an [HttpClientError]: the
    object that is serialized into the response, next to [isError: true].
    [operationId] is [operation.operationId ?? undefined]. *)
Definition error_response (error : HttpClientError)
    (operationId : option string)
    (deserializedParams : list (string * value)) : outcome value :=
  let api := apiParams deserializedParams in
  mcpError <- mapNotionErrorToMCPError error operationId
                (if (0 <? length api)%nat then Some (VObj api) else None) ;;
  Ok (VObj [("message", VStr (formatUserMessage mcpError));
            ("error", VObj (toJSON mcpError))]).

(** [truncateToolName(name)]; the length and the cut are those of the
    code when the name is ASCII. *)
Definition truncateToolName (name : string) : string :=
  if (String.length name <=? 64)%nat then name else substring 0 64 name.

Definition is_upper (c : ascii) : bool :=
  (65 <=? nat_of_ascii c)%nat && (nat_of_ascii c <=? 90)%nat.

Definition is_lower (c : ascii) : bool :=
  (97 <=? nat_of_ascii c)%nat && (nat_of_ascii c <=? 122)%nat.

(** [c.toUpperCase()] on ASCII. *)
Definition upper (c : ascii) : ascii :=
  if is_lower c then ascii_of_nat (nat_of_ascii c - 32) else c.

(** [s.replace(/([a-z])([A-Z])/g, '$1 $2')]: a match takes two
    characters and the search goes on behind it. *)
Fixpoint split_camel (s : string) : string :=
  match s with
  | EmptyString => EmptyString
  | String a rest =>
      match rest with
      | String b rest' =>
          if (is_lower a && is_upper b)%bool
          then String a (String " " (String b (split_camel rest')))
          else String a (split_camel rest)
      | EmptyString => String a EmptyString
      end
  end.

(** The run of upper-case letters a string starts with, and the rest. *)
Fixpoint upper_run (s : string) : string * string :=
  match s with
  | EmptyString => (EmptyString, EmptyString)
  | String c rest =>
      if is_upper c
      then let '(run, after) := upper_run rest in (String c run, after)
      else (EmptyString, s)
  end.

(** A non-empty string without its last character, and that character. *)
Fixpoint but_last (s : string) : string :=
  match s with
  | EmptyString => EmptyString
  | String c EmptyString => EmptyString
  | String c rest => String c (but_last rest)
  end.

Fixpoint last_char (s : string) : string :=
  match s with
  | EmptyString => EmptyString
  | String c EmptyString => String c EmptyString
  | String _ rest => last_char rest
  end.

(** A match of [/([A-Z]+)([A-Z][a-z])/] at the start of [s]: the two
    groups and what is left.  [[A-Z]+] first takes the whole upper-case
    run; group 2 needs an upper-case letter and then a lower-case one, so
    the only way to match is to give back the last letter of the run, and
    the run must be followed by a lower-case letter. *)
Definition match_acronym (s : string) : option (string * string * string) :=
  let '(run, after) := upper_run s in
  match after with
  | String c rest =>
      if (is_lower c && (2 <=? String.length run)%nat)%bool
      then Some (but_last run, last_char run ++ String c EmptyString, rest)
      else None
  | EmptyString => None
  end.

(** [s.replace(/([A-Z]+)([A-Z][a-z])/g, '$1 $2')]: the leftmost match is
    replaced and the search goes on behind it.  [fuel] bounds the number
    of steps; each step takes at least one character. *)
Fixpoint split_acronyms_from (fuel : nat) (s : string) : string :=
  match fuel with
  | O => s
  | S fuel' =>
      match match_acronym s with
      | Some (g1, g2, rest) => g1 ++ " " ++ g2 ++ split_acronyms_from fuel' rest
      | None =>
          match s with
          | EmptyString => EmptyString
          | String c rest => String c (split_acronyms_from fuel' rest)
          end
      end
  end.

Definition split_acronyms (s : string) : string :=
  split_acronyms_from (String.length s) s.

(** The separators of [/[\s_-]+/] in ASCII. *)
Definition is_separator (c : ascii) : bool :=
  (is_space c || Ascii.eqb c "_" || Ascii.eqb c "-")%bool.

(** [s.split(/[\s_-]+/)]: [word] is the piece being read, [in_run] says
    that the last character was a separator.  A run of separators ends
    the piece before it; the piece after the last run is always there,
    empty or not. *)
Fixpoint split_words_from (word : string) (in_run : bool) (s : string)
  : list string :=
  match s with
  | EmptyString => [word]
  | String c rest =>
      if is_separator c then
        if in_run then split_words_from EmptyString true rest
        else word :: split_words_from EmptyString true rest
      else split_words_from (word ++ String c EmptyString) false rest
  end.

Definition split_words (s : string) : list string :=
  split_words_from EmptyString false s.

(** [word.charAt(0).toUpperCase() + word.slice(1)] *)
Definition capitalize (word : string) : string :=
  match word with
  | EmptyString => EmptyString
  | String c rest => String (upper c) rest
  end.

(** [operationIdToTitle(operationId)], on ASCII names. *)
Definition operationIdToTitle (operationId : string) : string :=
  String.concat " "
    (map capitalize (split_words (split_acronyms (split_camel operationId)))).

End Server.

(* ===================================================================== *)
(** ** Shapes of payloads *)
(* ===================================================================== *)

Module Shapes.

(** No array inside [v], at any depth, holds [null] or [undefined]. *)
Fixpoint null_free (v : value) : bool :=
  match v with
  | VArr items => forallb (fun x => negb (nullish x) && null_free x)%bool items
  | VObj props => forallb (fun kv => null_free (snd kv)) props
  | _ => true
  end.

(** No object inside [v], [v] included, has a member named [toString]:
    every value inside [v] has a string form. *)
Fixpoint convertible (v : value) : bool :=
  match v with
  | VArr items => forallb convertible items
  | VObj props =>
      (match lookup "toString" props with
       | Some _ => false
       | None => true
       end
       && forallb (fun kv => convertible (snd kv)) props)%bool
  | _ => true
  end.

(** Both: the payloads on which the normalizer meets nothing it cannot
    read or convert. *)
Definition regular (v : value) : bool := (null_free v && convertible v)%bool.

(** A text fragment of a title or rich text, as the API sends it when the
    text carries no link. *)
Definition plain_fragment (content : string) : value :=
  VObj [("type", VStr "text");
        ("text", VObj [("content", VStr content); ("link", VNull)]);
        ("plain_text", VStr content)].

(** The tags whose rule runs a callback over the elements of the payload
    array. *)
Definition mapped_tags : list string :=
  ["title"; "rich_text"; "multi_select"; "files"; "people"].

(** Every character of [s] satisfies [p]. *)
Fixpoint all_chars (p : ascii -> bool) (s : string) : bool :=
  match s with
  | EmptyString => true
  | String c rest => (p c && all_chars p rest)%bool
  end.

(** [s] starts with a character that satisfies [p]. *)
Definition first_char (p : ascii -> bool) (s : string) : bool :=
  match s with
  | EmptyString => false
  | String c _ => p c
  end.

(** A text fragment that carries a link. *)
Definition linked_fragment (content url : string) : value :=
  VObj [("type", VStr "text");
        ("text", VObj [("content", VStr content);
                       ("link", VObj [("url", VStr url)])]);
        ("plain_text", VStr content);
        ("href", VStr url)].

(** The character is one of ASCII; on these, the classes [\d] and [\s]
    and [toUpperCase] are what [is_digit], [is_space] and [Server.upper]
    say. *)
Definition is_ascii (c : ascii) : bool := (nat_of_ascii c <? 128)%nat.

(** A word of a kebab-case name: not empty, of ASCII characters, without
    upper-case letters and without separators. *)
Definition kebab_char (c : ascii) : bool :=
  (is_ascii c && negb (Server.is_upper c) && negb (Server.is_separator c))%bool.

Definition kebab_word (w : string) : Prop :=
  w <> "" /\ all_chars kebab_char w = true.

(** A word of a camelCase name: two or more lower-case letters. *)
Definition lower_word (w : string) : Prop :=
  2 <= String.length w /\ all_chars Server.is_lower w = true.

(** No two upper-case letters stand side by side. *)
Fixpoint no_upper_pair (s : string) : bool :=
  match s with
  | String a (String b _ as rest) =>
      (negb (Server.is_upper a && Server.is_upper b) && no_upper_pair rest)%bool
  | _ => true
  end.

(** No key is [__proto__] and no key occurs twice: what [JSON.parse]
    gives for any text that does not spell out a [__proto__] member. *)
Definition plain_keys (props : list (string * value)) : Prop :=
  NoDup (map fst props) /\ ~ In "__proto__" (map fst props).

End Shapes.

(* ===================================================================== *)
(** ** More sample failures and payloads *)
(* ===================================================================== *)

Module Samples.
Import Proxy Transformer Shapes.

(** A 404 whose body is a plain string. *)
Definition not_found_plain : HttpClientError :=
  mkHttpClientError 404 (VStr "Plain string error") "404 Not Found" None.

(** A paginated list of two pages, as a query returns it. *)
Definition page_list : list (string * value) :=
  [("object", VStr "list");
   ("results", VArr [VObj Examples.status_page; VObj Examples.workspace_page]);
   ("next_cursor", VNull) ; ("has_more", VBool false);
   ("request_id", VStr "r1")].

End Samples.

(* ===================================================================== *)
(** ** Facts about the JavaScript fragment *)
(* ===================================================================== *)

Module JSFacts.
Import Shapes.

Lemma bind_ok {A B : Type} (m : outcome A) (k : A -> outcome B) (b : B) :
  bind m k = Ok b -> exists a, m = Ok a /\ k a = Ok b.
Proof.
  destruct m as [a | e]; simpl; intros H; [eauto | discriminate].
Qed.

Lemma get_defined (v : value) (k : string) :
  nullish v = false ->
  get v k = Ok (match own_property v k with
                | Some x => x
                | None => VUndefined
                end).
Proof.
  intros Hv. unfold get. rewrite Hv.
  destruct (own_property v k); reflexivity.
Qed.

Lemma get_object (props : list (string * value)) (k : string) :
  get (VObj props) k = Ok (match lookup k props with
                           | Some x => x
                           | None => VUndefined
                           end).
Proof. apply get_defined. reflexivity. Qed.

Lemma has_property_object (props : list (string * value)) (k : string) :
  has_property k (VObj props)
  = Ok (match lookup k props with Some _ => true | None => false end).
Proof. reflexivity. Qed.

Lemma is_string_eq (x : value) (s : string) :
  is_string x s = true <-> x = VStr s.
Proof.
  destruct x; simpl; try (split; [discriminate | intros H; discriminate H]).
  rewrite String.eqb_eq. split; [intros -> | intros [= ->]]; reflexivity.
Qed.

Lemma starts_with_app (t s : string) : starts_with t (t ++ s) = true.
Proof.
  induction t as [| c t IH]; simpl; [reflexivity |].
  rewrite Ascii.eqb_refl. exact IH.
Qed.

Lemma includes_starts_with (s t : string) :
  starts_with t s = true -> includes s t = true.
Proof.
  intros H. destruct s; simpl in *; rewrite H; reflexivity.
Qed.

Lemma includes_prepend (a s t : string) :
  includes s t = true -> includes (a ++ s) t = true.
Proof.
  intros H. induction a as [| c a IH]; simpl.
  - exact H.
  - rewrite IH. apply orb_true_r.
Qed.

(** A string that is built around [t] includes [t]. *)
Lemma includes_app (a t b : string) : includes (a ++ t ++ b) t = true.
Proof.
  apply includes_prepend, includes_starts_with, starts_with_app.
Qed.

Lemma lookup_in_keys (k : string) (props : list (string * value)) :
  In k (map fst props) <-> lookup k props <> None.
Proof.
  induction props as [| [k' v] rest IH]; simpl.
  - split; [intros [] | intros H; now apply H].
  - destruct (String.eqb_spec k' k) as [-> | Hne].
    + split; [discriminate | auto].
    + rewrite <- IH. split; [intros [H | H]; [contradiction | exact H] | auto].
Qed.

Lemma lookup_assign (k k' : string) (v : value) (props : list (string * value)) :
  lookup k' (assign k v props)
  = if k =? k' then Some v else lookup k' props.
Proof.
  induction props as [| [k0 v0] rest IH]; simpl.
  - reflexivity.
  - destruct (String.eqb_spec k0 k) as [-> | Hne]; simpl.
    + destruct (k =? k'); reflexivity.
    + rewrite IH. destruct (String.eqb_spec k k') as [<- | Hkk'].
      * apply String.eqb_neq in Hne. rewrite Hne. reflexivity.
      * reflexivity.
Qed.

Lemma keys_assign (k k' : string) (v : value) (props : list (string * value)) :
  In k' (map fst (assign k v props)) <-> k' = k \/ In k' (map fst props).
Proof.
  rewrite !lookup_in_keys, lookup_assign.
  destruct (String.eqb_spec k k') as [<- | Hne].
  - split; [auto | discriminate].
  - split; [auto | intros [-> | H]; [contradiction | exact H]].
Qed.

Lemma append_empty (s : string) : s ++ "" = s.
Proof. induction s as [| c s IH]; simpl; [reflexivity | now rewrite IH]. Qed.

Lemma concat_empty_sep (x : string) (xs : list string) :
  String.concat "" (x :: xs) = x ++ String.concat "" xs.
Proof.
  destruct xs; cbn [String.concat]; [now rewrite append_empty | reflexivity].
Qed.

(** *** Loops that may throw *)

Lemma mapM_Forall2 {A B : Type} (f : A -> outcome B) (xs : list A) :
  forall ys, mapM f xs = Ok ys <-> Forall2 (fun x y => f x = Ok y) xs ys.
Proof.
  induction xs as [| x xs IH]; intros ys; cbn [mapM].
  - split.
    + intros [= <-]. constructor.
    + intros H. inversion H. reflexivity.
  - split.
    + intros H. apply bind_ok in H. destruct H as (y & Hy & H).
      apply bind_ok in H. destruct H as (ys' & Hys & [= <-]).
      constructor; [exact Hy | now apply IH].
    + intros H. inversion H as [| x' y xs' ys' Hy Hys]; subst.
      rewrite Hy. cbn [bind]. apply IH in Hys. rewrite Hys. reflexivity.
Qed.


Lemma mapM_returns {A B : Type} (f : A -> outcome B) (xs : list A) :
  Forall (fun x => exists y, f x = Ok y) xs -> exists ys, mapM f xs = Ok ys.
Proof.
  induction 1 as [| x xs (y & Hy) _ (ys & Hys)]; cbn [mapM].
  - eauto.
  - rewrite Hy. cbn [bind]. rewrite Hys. cbn [bind]. eauto.
Qed.

Lemma mapM_throws {A B : Type} (f : A -> outcome B) (xs : list A) :
  Exists (fun x => f x = Throw TypeError) xs -> mapM f xs = Throw TypeError.
Proof.
  induction 1 as [x xs Hx | x xs _ IH]; cbn [mapM].
  - rewrite Hx. reflexivity.
  - destruct (f x) as [y | []]; cbn [bind]; [| reflexivity].
    rewrite IH. reflexivity.
Qed.

Lemma foldM_returns {A St : Type} (f : St -> A -> outcome St) (xs : list A) :
  Forall (fun x => forall s, exists s', f s x = Ok s') xs ->
  forall s, exists s', foldM f xs s = Ok s'.
Proof.
  induction 1 as [| x xs Hx _ IH]; intros s; cbn [foldM].
  - eauto.
  - destruct (Hx s) as [s' ->]. cbn [bind]. apply IH.
Qed.

(** Induction on a value, with the hypothesis for every element of an
    array and every member of an object. *)
Lemma value_induction (P : value -> Prop) :
  P VUndefined -> P VNull ->
  (forall b, P (VBool b)) -> (forall n, P (VNum n)) -> (forall s, P (VStr s)) ->
  (forall items, Forall P items -> P (VArr items)) ->
  (forall props, Forall (fun kv => P (snd kv)) props -> P (VObj props)) ->
  forall v, P v.
Proof.
  intros Hu Hn Hb Hnum Hs Harr Hobj.
  fix IH 1.
  intros [| | b | n | s | items | props];
    [exact Hu | exact Hn | apply Hb | apply Hnum | apply Hs | | ].
  - apply Harr. induction items as [| x xs IHxs]; constructor;
      [apply IH | exact IHxs].
  - apply Hobj. induction props as [| [k x] ps IHps]; constructor;
      [apply IH | exact IHps].
Qed.

Lemma lookup_In (k : string) (v : value) (props : list (string * value)) :
  lookup k props = Some v -> In v (map snd props).
Proof.
  induction props as [| [k' v'] props IH]; simpl; [discriminate |].
  destruct (k' =? k); [intros [= ->]; now left | auto].
Qed.

(** *** Values with a string form *)

Lemma convertible_element (items : list value) (x : value) :
  convertible (VArr items) = true -> In x items -> convertible x = true.
Proof.
  cbn [convertible]. rewrite forallb_forall. auto.
Qed.

Lemma convertible_member (props : list (string * value)) (x : value) :
  convertible (VObj props) = true -> In x (map snd props) ->
  convertible x = true.
Proof.
  cbn [convertible]. intros H Hin. apply andb_prop in H. destruct H as [_ H].
  rewrite forallb_forall in H.
  apply in_map_iff in Hin. destruct Hin as (kv & <- & Hkv). now apply H.
Qed.

Lemma convertible_chars (s : string) (x : value) :
  In x (chars s) -> convertible x = true.
Proof.
  induction s as [| c s IH]; [intros [] |].
  intros [<- | Hin]; [reflexivity | now apply IH].
Qed.

Lemma convertible_indexed (k : string) (items : list value) (x : value) :
  (forall y, In y items -> convertible y = true) ->
  indexed_lookup k items = Some x -> convertible x = true.
Proof.
  intros Hitems. unfold indexed_lookup.
  destruct (k =? "length"); [intros [= <-]; reflexivity |].
  destruct (index_of k (index_keys (length items)) 0) as [i |];
    [| discriminate].
  intros Hnth. apply nth_error_In in Hnth. now apply Hitems.
Qed.

(** What a property read finds inside a convertible value is
    convertible. *)
Lemma convertible_own_property (v : value) (k : string) (x : value) :
  convertible v = true -> own_property v k = Some x -> convertible x = true.
Proof.
  intros Hv. destruct v as [| | b | n | s | items | props]; cbn [own_property];
    try discriminate.
  - apply convertible_indexed. apply convertible_chars.
  - apply convertible_indexed. intros y. now apply convertible_element.
  - intros Hl. apply lookup_In in Hl. now apply (convertible_member props).
Qed.

Lemma convertible_get (v : value) (k : string) (x : value) :
  convertible v = true -> get v k = Ok x -> convertible x = true.
Proof.
  intros Hv. unfold get. destruct (nullish v); [discriminate |].
  destruct (own_property v k) as [y |] eqn:Hy; intros [= <-];
    [exact (convertible_own_property _ _ _ Hv Hy) | reflexivity].
Qed.

Lemma convertible_to_string (v : value) :
  convertible v = true -> exists text, to_string v = Ok text.
Proof.
  induction v as [| | b | n | s | items IH | props IH] using value_induction;
    intros Hv; cbn [to_string]; eauto.
  - destruct b; eauto.
  - destruct (mapM_returns
                (fun x => if nullish x then Ok "" else to_string x) items)
      as [parts ->]; [| cbn [bind]; eauto].
    rewrite Forall_forall in *. intros x Hin.
    destruct (nullish x); [eauto |].
    apply (IH x Hin). now apply (convertible_element items).
  - cbn [convertible] in Hv. apply andb_prop in Hv. destruct Hv as [Hv _].
    destruct (lookup "toString" props); [discriminate Hv | eauto].
Qed.

Lemma convertible_join (sep : string) (xs : list value) :
  Forall (fun x => convertible x = true) xs ->
  exists text, join sep xs = Ok text.
Proof.
  intros Hxs. unfold join.
  destruct (mapM_returns
              (fun x => if nullish x then Ok "" else to_string x) xs)
    as [parts ->]; [| cbn [bind]; eauto].
  eapply Forall_impl; [| exact Hxs]. intros x Hx.
  destruct (nullish x); [eauto | now apply convertible_to_string].
Qed.

End JSFacts.

(* ===================================================================== *)
(** ** The error classifier *)
(* ===================================================================== *)

Module ClassifierFacts.
Import Errors Proxy Spec Shapes Examples JSFacts.

(** What the extraction step leaves in the four local variables, when the
    body's retry_after has a string form. *)
Lemma extract_spec (error : HttpClientError) :
  extract error
  = (r <- body_retry_after (data error) ;;
     Ok (mkExtracted
           (message_value error)
           (if truthy (body_field (data error) "code")
            then body_field (data error) "code"
            else VUndefined)
           (field_value error)
           r)).
Proof.
  unfold extract, body_retry_after, message_value, field_value, body_field.
  destruct (typeof_object (data error) && negb (nullish (data error)))%bool
    eqn:Hobj.
  - assert (Hn : nullish (data error) = false).
    { apply andb_prop in Hobj. destruct Hobj as [_ Hn].
      now apply negb_true_iff in Hn. }
    rewrite !(get_defined _ _ Hn). cbn [bind].
    destruct (own_property (data error) "retry_after") as [[]|]; reflexivity.
  - reflexivity.
Qed.

Lemma is_string_truthy (c : value) :
  is_string (if truthy c then c else VUndefined) "permission_required"
  = is_string c "permission_required".
Proof.
  destruct (truthy c) eqn:Ht; [reflexivity |].
  destruct (is_string c "permission_required") eqn:Hs; [| reflexivity].
  apply is_string_eq in Hs. subst c. discriminate Ht.
Qed.

Ltac by_status error :=
  destruct (status error =? 400)%Z eqn:H400;
  [| destruct (status error =? 401)%Z eqn:H401;
     [| destruct (status error =? 403)%Z eqn:H403;
        [| destruct (status error =? 404)%Z eqn:H404;
           [| destruct (status error =? 409)%Z eqn:H409;
              [| destruct (status error =? 429)%Z eqn:H429 ]]]]].

(** The constructor a branch ends in, opened up: the conversions it makes
    either raise, or leave the record it builds. *)
Ltac construct :=
  unfold new_ValidationError, new_AuthenticationError, new_PermissionError,
    new_NotFoundError, new_ConflictError, new_RateLimitError, new_ServerError;
  repeat match goal with
         | |- context [if truthy ?f then _ else _] => destruct (truthy f) eqn:?
         | |- context [bind (to_string ?v) _] =>
             let E := fresh "Htext" in
             destruct (to_string v) as [? | []] eqn:E; cbn [bind]
         | |- context [bind (error_message ?v) _] =>
             let E := fresh "Hmessage" in
             destruct (error_message v) as [? | []] eqn:E; cbn [bind]
         | _ => progress cbn [bind]
         end.

(** From [mapNotionErrorToMCPError error operation params = Ok e -> G] to
    the cases of [G], one for each branch that returns, with [e] the record
    that branch builds. *)
Ltac classified error :=
  unfold mapNotionErrorToMCPError; rewrite extract_spec;
  let r := fresh "retry" in
  let E := fresh "Hretry" in
  destruct (body_retry_after (data error)) as [r | []] eqn:E; cbn [bind];
  [| discriminate];
  cbn [x_message x_errorCode x_field x_retryAfter];
  rewrite ?is_string_truthy;
  by_status error;
  repeat match goal with
         | |- context [if is_string ?a ?b then _ else _] =>
             destruct (is_string a b) eqn:?
         | |- context [if (?a || ?b)%bool then _ else _] =>
             destruct (a || b)%bool
         end;
  construct;
  try discriminate;
  intros [= <-].

(** On a body in which no object has a member named toString every
    conversion the classifier makes succeeds, and it returns. *)
Lemma classify_returns (error : HttpClientError) (operation : option string)
    (params : option value) :
  convertible (data error) = true ->
  exists e, mapNotionErrorToMCPError error operation params = Ok e.
Proof.
  intros Hbody.
  assert (Hfield : forall k, exists text,
             to_string (body_field (data error) k) = Ok text).
  { intros k. apply convertible_to_string. unfold body_field.
    destruct (typeof_object (data error) && negb (nullish (data error)))%bool;
      [| reflexivity].
    destruct (own_property (data error) k) as [x |] eqn:Hx; [| reflexivity].
    exact (convertible_own_property _ _ _ Hbody Hx). }
  assert (Hretry : exists r, body_retry_after (data error) = Ok r).
  { unfold body_retry_after. destruct (Hfield "retry_after") as [text Htext].
    destruct (body_field (data error) "retry_after");
      try rewrite Htext; cbn [bind]; eauto. }
  assert (Hmessage : exists m, error_message (message_value error) = Ok m).
  { unfold message_value. destruct (Hfield "message") as [text Htext].
    destruct (truthy (body_field (data error) "message")); [| cbn; eauto].
    unfold error_message.
    destruct (body_field (data error) "message"); eauto. }
  assert (Hsuggest : forall text, exists f,
             (if truthy (field_value error)
              then (f <- to_string (field_value error) ;;
                    Ok ("Le champ " ++ dquote ++ f ++ dquote ++ text))
              else Ok "Vérifiez vos paramètres.") = Ok f).
  { intros text. destruct (truthy (field_value error)) eqn:Ht; [| eauto].
    unfold field_value in *. destruct (Hfield "field") as [f Hf].
    destruct (truthy (body_field (data error) "field"));
      [| discriminate Ht].
    rewrite Hf. cbn [bind]. eauto. }
  destruct Hretry as [r Hr]. destruct Hmessage as [m Hm].
  unfold mapNotionErrorToMCPError.
  rewrite extract_spec, Hr. cbn [bind x_message x_errorCode x_field x_retryAfter].
  unfold new_ValidationError, new_AuthenticationError, new_PermissionError,
    new_NotFoundError, new_ConflictError, new_RateLimitError, new_ServerError.
  rewrite Hm. cbn [bind].
  destruct (Hsuggest " est invalide ou manquant.") as [f ->]. cbn [bind].
  repeat match goal with
         | |- context [if ?b then _ else _] => destruct b
         end;
    eauto.
Qed.

(** What every classified error carries: the kind the status table gives,
    and the operation name and params of the call. *)
Lemma classified_record (error : HttpClientError) (operation : option string)
    (params : option value) (e : MCPNotionError) :
  mapNotionErrorToMCPError error operation params = Ok e ->
  class e = kind_of_status (status error) (body_field (data error) "code") /\
  Errors.operation e = operation /\ Errors.params e = params.
Proof.
  classified error; cbn [class Errors.operation Errors.params];
    unfold kind_of_status;
    repeat match goal with
           | H : _ = true |- _ => rewrite H
           | H : _ = false |- _ => rewrite H
           end;
    repeat split.
Qed.

(** C4 fails on the code.  When the body's message is an object with a
    member named toString, the classifier raises a TypeError for every
    status, header set, operation and params: the constructor of the typed
    error converts the message to a string, and the conversion raises. *)
Theorem classify_throws :
  forall (error : HttpClientError) (operation : option string)
         (params : option value) (inner : list (string * value)),
  body_field (data error) "message" = VObj inner ->
  lookup "toString" inner <> None ->
  mapNotionErrorToMCPError error operation params = Throw TypeError.
Proof.
  intros error operation params inner Hbody Hown.
  assert (Hmessage : error_message (message_value error) = Throw TypeError).
  { unfold message_value. rewrite Hbody. cbn [truthy error_message to_string].
    destruct (lookup "toString" inner); [reflexivity | contradiction]. }
  unfold mapNotionErrorToMCPError. rewrite extract_spec.
  destruct (body_retry_after (data error)) as [r | []]; cbn [bind];
    [| reflexivity].
  cbn [x_message x_errorCode x_field x_retryAfter].
  by_status error;
    repeat match goal with
           | |- context [if is_string ?a ?b then _ else _] =>
               destruct (is_string a b)
           | |- context [if (?a || ?b)%bool then _ else _] =>
               destruct (a || b)%bool
           end;
    unfold new_ValidationError, new_AuthenticationError, new_PermissionError,
      new_NotFoundError, new_ConflictError, new_RateLimitError, new_ServerError;
    rewrite Hmessage;
    repeat match goal with
           | |- context [if truthy ?f then _ else _] => destruct (truthy f)
           | |- context [bind (to_string ?v) _] =>
               destruct (to_string v) as [? | []]
           | _ => progress cbn [bind]
           end;
    reflexivity.
Qed.

(** A 500 whose body is {object: "error", message: {toString: "x"}}. *)
Lemma classify_throws_witness :
  mapNotionErrorToMCPError unprintable_message (Some "retrieve-a-page") None
  = Throw TypeError.
Proof.
  apply (classify_throws unprintable_message (Some "retrieve-a-page") None
           [("toString", VStr "x")]).
  - reflexivity.
  - discriminate.
Defined.

(** C5.  The retryable flag of a classified error goes with its kind:
    every error the classifier returns is of kind Conflict, RateLimit or
    Server and retryable, or of kind Authentication, Validation,
    Permission or NotFound and not retryable, whatever the status, body,
    headers, operation and params. *)
Theorem retryable_by_kind :
  forall (error : HttpClientError) (operation : option string)
         (params : option value) (e : MCPNotionError),
  mapNotionErrorToMCPError error operation params = Ok e ->
  (In (class e) retryable_kinds /\ retryable e = true) \/
  (In (class e) final_kinds /\ retryable e = false).
Proof.
  intros error operation params e.
  classified error; cbn [class retryable retryable_kinds final_kinds In];
    tauto.
Qed.

(** Scenario A of the specification: a RateLimit error, retryable. *)
Lemma retryable_by_kind_witness :
  exists e,
    mapNotionErrorToMCPError rate_limited_15 None None = Ok e /\
    class e = RateLimitError /\ retryable e = true.
Proof.
  destruct (mapNotionErrorToMCPError rate_limited_15 None None) as [e |] eqn:He;
    [| discriminate He].
  exists e. split; [reflexivity |].
  pose proof (retryable_by_kind rate_limited_15 None None e He) as Hkind.
  vm_compute in He. injection He as <-. split; reflexivity.
Defined.

(** The [if] chain of the 404 branch picks the first marker of the
    priority list. *)
Lemma infer_first_marker (operationId : string) :
  infer_resourceType (Some operationId) = first_marker operationId.
Proof.
  unfold infer_resourceType, first_marker, resource_markers.
  destruct (String.eqb_spec operationId "") as [-> | Hne]; [reflexivity |].
  cbn [negb find fst snd option_map].
  destruct (includes operationId "block"); [reflexivity |].
  destruct (includes operationId "page"); [reflexivity |].
  destruct (includes operationId "data_source"); [reflexivity |].
  destruct (includes operationId "data-source"); [reflexivity |].
  destruct (includes operationId "database"); [reflexivity |].
  destruct (includes operationId "user"); reflexivity.
Qed.

Lemma first_marker_nonempty (operationId t : string) :
  first_marker operationId = Some t -> t <> "".
Proof.
  unfold first_marker, resource_markers. cbn [find fst snd option_map].
  repeat match goal with
         | |- context [if ?b then _ else _] => destruct b
         end;
    cbn [option_map snd]; intros [= <-]; discriminate.
Qed.

(** C8.  On status 404 with an operation name supplied, the classifier
    returns (on every body in which no object has a member named toString,
    at the least), and the error it returns is a NotFound error whose code
    is object_not_found and whose retryable flag is false whatever the
    name; its suggestion names the resource type of the first marker the
    name contains, in the order block, page, data_source, data-source,
    database, user (that text then contains the resource type), and is the
    generic text when the name contains no marker. *)
Theorem not_found_resource_type :
  forall (error : HttpClientError) (operationId : string)
         (params : option value),
  status error = 404%Z ->
  (convertible (data error) = true ->
   exists e, mapNotionErrorToMCPError error (Some operationId) params = Ok e) /\
  (forall e : MCPNotionError,
     mapNotionErrorToMCPError error (Some operationId) params = Ok e ->
     class e = NotFoundError /\
     code e = "object_not_found" /\
     retryable e = false /\
     suggestion e
     = Some (match first_marker operationId with
             | Some t => typed_not_found t
             | None => "Ressource non trouvée."
             end) /\
     (forall t, first_marker operationId = Some t ->
                exists text, suggestion e = Some text /\ includes text t = true)).
Proof.
  intros error operationId params Hstatus.
  split; [apply classify_returns |].
  intros e.
  unfold mapNotionErrorToMCPError. rewrite extract_spec.
  destruct (body_retry_after (data error)) as [r | []]; cbn [bind];
    [| discriminate].
  cbn [x_message x_errorCode x_field x_retryAfter].
  rewrite Hstatus. cbn [Z.eqb Pos.eqb].
  rewrite infer_first_marker. construct; [| discriminate].
  intros [= <-]. cbn [class code retryable suggestion].
  assert (Hs : Some (match first_marker operationId with
                     | Some t => if t =? "" then "Ressource non trouvée."
                                 else typed_not_found t
                     | None => "Ressource non trouvée."
                     end)
               = Some (match first_marker operationId with
                       | Some t => typed_not_found t
                       | None => "Ressource non trouvée."
                       end)).
  { destruct (first_marker operationId) as [t |] eqn:Hm; [| reflexivity].
    apply first_marker_nonempty in Hm. apply String.eqb_neq in Hm.
    rewrite Hm. reflexivity. }
  rewrite Hs. repeat split.
  intros t Ht. rewrite Ht. eexists. split; [reflexivity |].
  unfold typed_not_found.
  apply includes_prepend, includes_app.
Qed.

(** Scenario C: operation [retrieve-a-block]. *)
Lemma not_found_resource_type_witness :
  status block_not_found = 404%Z /\
  exists e text,
    mapNotionErrorToMCPError block_not_found (Some "retrieve-a-block") None
    = Ok e /\
    code e = "object_not_found" /\ retryable e = false /\
    suggestion e = Some text /\ includes text "block" = true.
Proof.
  split; [reflexivity |].
  destruct (not_found_resource_type block_not_found "retrieve-a-block" None
              eq_refl) as [Hreturns Hresult].
  destruct (Hreturns eq_refl) as [e He].
  destruct (Hresult e He) as (_ & Hcode & Hretry & _ & Htext).
  destruct (Htext "block" eq_refl) as (text & Hs & Hi).
  exists e, text. repeat split; assumption.
Defined.

Lemma parseInt_cases (s : string) :
  parseInt s = NaN \/ isNaN (parseInt s) = false.
Proof.
  unfold parseInt.
  destruct (match trim_start s with
            | String "-" rest => (true, rest)
            | String "+" rest => (false, rest)
            | _ => (false, trim_start s)
            end) as [negative s2].
  destruct (read_digits s2 None); [right | left; reflexivity].
  unfold to_double. destruct (nearest_double _); reflexivity.
Qed.

(** C1, as the code has it.  On status 429 the classifier returns (on
    every body in which no object has a member named toString, at the
    least), and the error it returns is a RateLimit error.  When the
    failure carries a Retry-After header that parses to a number,
    retryAfter is that number, whether or not the body has a retry_after
    field.  When there is no such header, or its value does not parse,
    retryAfter is what the body gives: its retry_after as it is when that
    is a number, the integer reading of its string form when it is
    anything else, nothing when the body has no such field. *)
Theorem rate_limit_retry_after :
  forall (error : HttpClientError) (operation : option string)
         (params : option value),
  status error = 429%Z ->
  (convertible (data error) = true ->
   exists e, mapNotionErrorToMCPError error operation params = Ok e) /\
  (forall e : MCPNotionError,
     mapNotionErrorToMCPError error operation params = Ok e ->
     class e = RateLimitError /\
     (forall s, retry_after_header error = Some s -> parseInt s <> NaN ->
                retryAfter e = Some (parseInt s)) /\
     (retry_after_header error = None \/
      (exists s, retry_after_header error = Some s /\ parseInt s = NaN) ->
      body_retry_after (data error) = Ok (retryAfter e))).
Proof.
  intros error operation params Hstatus.
  split; [apply classify_returns |].
  intros e.
  unfold mapNotionErrorToMCPError. rewrite extract_spec.
  destruct (body_retry_after (data error)) as [r | []]; cbn [bind];
    [| discriminate].
  cbn [x_message x_errorCode x_field x_retryAfter].
  rewrite Hstatus. cbn [Z.eqb Pos.eqb].
  construct; [| discriminate].
  intros [= <-]. cbn [class retryAfter].
  split; [reflexivity |].
  unfold header_retryAfter, retry_after_header.
  destruct (headers error) as [h |].
  - destruct (headers_get h "Retry-After") as [hv |].
    + split.
      * intros s [= <-] Hs.
        destruct (String.eqb_spec hv "") as [-> | _];
          [exfalso; now apply Hs |].
        cbn [negb]. destruct (parseInt_cases hv) as [Hnan | Hnum];
          [contradiction | now rewrite Hnum].
      * intros [H | (s & [= <-] & Hs)]; [discriminate H |].
        rewrite Hs. destruct (hv =? ""); reflexivity.
    + split; [intros s H; discriminate H | reflexivity].
  - split; [intros s H; discriminate H | reflexivity].
Qed.

(** Scenario A: the body's retry_after is the string "15", no header. *)
Lemma rate_limit_retry_after_witness :
  status rate_limited_15 = 429%Z /\
  exists e,
    mapNotionErrorToMCPError rate_limited_15 None None = Ok e /\
    class e = RateLimitError /\ retryAfter e = Some (Int 15).
Proof.
  split; [reflexivity |].
  destruct (rate_limit_retry_after rate_limited_15 None None eq_refl)
    as [Hreturns Hresult].
  destruct (Hreturns eq_refl) as [e He].
  destruct (Hresult e He) as (Hc & _ & Hbody).
  exists e. split; [exact He |]. split; [exact Hc |].
  specialize (Hbody (or_introl eq_refl)).
  assert (Hfifteen : body_retry_after (data rate_limited_15)
                     = Ok (Some (Int 15))) by reflexivity.
  rewrite Hfifteen in Hbody. injection Hbody as Hsame. now rewrite <- Hsame.
Defined.

(** C1 as stated fails.  With retry_after = 15 in the body and
    Retry-After: 30 in the headers the header is read although the body
    has the field, and retryAfter is 30; with the malformed header value
    "soon" retryAfter is not left unset but stays 15. *)
Lemma header_read_despite_body :
  body_retry_after (data rate_limited_body_and_header) = Ok (Some (Int 15)) /\
  (exists e,
     mapNotionErrorToMCPError rate_limited_body_and_header None None = Ok e /\
     retryAfter e = Some (Int 30) /\
     Ok (retryAfter e) <> body_retry_after (data rate_limited_body_and_header)) /\
  (exists e,
     mapNotionErrorToMCPError rate_limited_bad_header None None = Ok e /\
     retryAfter e = Some (Int 15) /\ retryAfter e <> None).
Proof.
  split; [reflexivity |].
  split; eexists; (split; [reflexivity |]); split;
    solve [reflexivity | discriminate].
Qed.

(** X20.  On a body in which no object has a member named toString the
    classifier returns a typed error and raises nothing, for every status,
    header set, operation and params; the kind of that error is the one
    the status table gives, and a status outside 400, 401, 403, 404, 409,
    429 gives the Server kind. *)
Theorem classify_total :
  forall (error : HttpClientError) (operation : option string)
         (params : option value),
  convertible (data error) = true ->
  exists e,
    mapNotionErrorToMCPError error operation params = Ok e /\
    class e = kind_of_status (status error) (body_field (data error) "code") /\
    (In (status error) [400; 401; 403; 404; 409; 429]%Z \/ class e = ServerError).
Proof.
  intros error operation params Hbody.
  destruct (classify_returns error operation params Hbody) as [e He].
  exists e. split; [exact He |].
  destruct (classified_record _ _ _ _ He) as (Hclass & _).
  split; [exact Hclass |].
  rewrite Hclass. unfold kind_of_status.
  by_status error;
    repeat match goal with
           | H : (_ =? _)%Z = true |- _ => apply Z.eqb_eq in H
           end;
    try (match goal with H : status error = _ |- _ => rewrite H end;
         left; simpl; tauto).
  right. reflexivity.
Qed.

(** The failure of scenario A, whose body holds strings only. *)
Lemma classify_total_witness :
  exists e,
    mapNotionErrorToMCPError rate_limited_15 (Some "query-a-database") None
    = Ok e /\
    class e = RateLimitError.
Proof.
  destruct (classify_total rate_limited_15 (Some "query-a-database") None
              eq_refl) as (e & He & Hclass & _).
  exists e. split; [exact He | exact Hclass].
Defined.

End ClassifierFacts.

(* ===================================================================== *)
(** ** The value normalizer *)
(* ===================================================================== *)

Module NormalizerFacts.
Import Proxy Transformer Spec Examples JSFacts.

(** *** The pass over all fields, as the source writes it *)

Lemma foldM_indexed_entries (rec : value -> outcome value)
    (items : list value) :
  forall (i : nat) (acc : list (string * value)),
  foldM_indexed
    (fun result i item => loop_step rec result (string_of_nat i, item))
    i items acc
  = foldM (loop_step rec)
      (combine (map string_of_nat (seq i (length items))) items) acc.
Proof.
  induction items as [| item items IH]; intros i acc; simpl.
  - reflexivity.
  - destruct (field_rule_with rec (string_of_nat i) item); simpl;
      [apply IH | reflexivity].
Qed.

(** A string is stored as it is, whatever the recursive call would do. *)
Lemma loop_step_string (f g : value -> outcome value)
    (result : list (string * value)) (k s : string) :
  loop_step f result (k, VStr s) = loop_step g result (k, VStr s).
Proof.
  unfold loop_step, field_rule_with. cbn [typeof_object andb].
  rewrite andb_false_r. reflexivity.
Qed.

Lemma foldM_chars (f g : value -> outcome value) (s : string) :
  forall (keys : list string) (acc : list (string * value)),
  foldM (loop_step f) (combine keys (chars s)) acc
  = foldM (loop_step g) (combine keys (chars s)) acc.
Proof.
  induction s as [| c s IH]; intros keys acc; destruct keys as [| k keys];
    try reflexivity.
  cbn [chars combine foldM]. rewrite (loop_step_string f g).
  destruct (loop_step g acc (k, VStr (String c ""))); simpl;
    [apply IH | reflexivity].
Qed.

(** [transformObject(obj)] is the loop over [Object.entries(obj)] that
    stores under each key what the rule for that key gives. *)
Lemma transformObject_all_entries (obj : value) :
  transformObject_all obj
  = (es <- entries obj ;;
     result <- foldM (loop_step transformObject_all) es [] ;;
     Ok (VObj result)).
Proof.
  destruct obj as [| | b | n | s | items | props]; try reflexivity.
  - cbn [transformObject_all entries bind].
    rewrite (foldM_chars (fun x => Ok x) transformObject_all). reflexivity.
  - cbn [transformObject_all entries bind].
    rewrite foldM_indexed_entries. reflexivity.
Qed.

(** [transformValue(value, key)], with the recursive call written as the
    source has it. *)
Lemma transformValue_cases (value : value) :
  transformValue value
  = match value with
    | VNull | VUndefined => Ok value
    | VArr items =>
        mapped <- mapM (fun item =>
                          if is_object item then transformObject item None
                          else Ok item) items ;;
        Ok (VArr mapped)
    | VObj _ => transformObject value None
    | _ => Ok value
    end.
Proof. destruct value; reflexivity. Qed.

(** Looking at the shape of the response raises nothing. *)
Lemma detectOperationType_ok (data : value) :
  exists t, detectOperationType data = Ok t.
Proof.
  unfold detectOperationType.
  destruct (typeof_object data) eqn:Hobj;
    [| cbn [negb]; rewrite orb_true_r; eauto].
  destruct data; try discriminate Hobj; simpl; eauto;
    repeat match goal with
           | |- context [match ?x with _ => _ end] => destruct x; simpl
           end; eauto.
Qed.

(** Mode success_only raises nothing either. *)
Lemma transformSuccessOnly_ok (data : value) (operationType : OperationType) :
  exists v, transformSuccessOnly data operationType = Ok v.
Proof.
  unfold transformSuccessOnly.
  destruct (negb (truthy data) || negb (typeof_object data))%bool eqn:Hprim;
    [eauto |].
  apply orb_false_elim in Hprim. destruct Hprim as [Ht Ho].
  apply negb_false_iff in Ht, Ho.
  assert (Hn : nullish data = false) by (destruct data; easy).
  assert (Hin : forall k,
             has_property k data
             = Ok (match own_property data k with
                   | Some _ => true
                   | None => false
                   end)) by (destruct data; easy).
  rewrite !Hin, !(get_defined _ _ Hn). cbn [bind].
  destruct (own_property data "id"); cbn [bind].
  - destruct (own_property data "created_time");
      destruct (own_property data "last_edited_time"); cbn [bind];
      (destruct (own_property data "results") as [[] |]; cbn [bind]; eauto).
  - destruct data; eauto.
Qed.

(** C7.  In mode full, and in any mode that is none of full, reduced and
    success_only, transform returns its input unchanged; transforming the
    result again changes nothing. *)
Theorem full_is_identity :
  forall (defaultMode : string) (data : value) (config : TransformConfig),
  effective_mode defaultMode config = "full" \/
  ~ In (effective_mode defaultMode config) ["full"; "reduced"; "success_only"] ->
  transform defaultMode data config = Ok data /\
  (x <- transform defaultMode data config ;; transform defaultMode x config)
  = Ok data.
Proof.
  intros defaultMode data config Hmode.
  assert (Hid : forall d, transform defaultMode d config = Ok d).
  { intros d. unfold transform. fold (effective_mode defaultMode config).
    assert (Hop : exists t,
               match operationType config with
               | Some t => Ok t
               | None => detectOperationType d
               end = Ok t).
    { destruct (operationType config); [eauto | apply detectOperationType_ok]. }
    destruct Hop as [t ->]. cbn [bind].
    destruct Hmode as [-> | Hother]; [reflexivity |].
    destruct (String.eqb_spec (effective_mode defaultMode config) "full");
      [reflexivity |].
    destruct (String.eqb_spec (effective_mode defaultMode config) "success_only")
      as [He | _]; [exfalso; apply Hother; rewrite He; simpl; tauto |].
    destruct (String.eqb_spec (effective_mode defaultMode config) "reduced")
      as [He | _]; [exfalso; apply Hother; rewrite He; simpl; tauto |].
    reflexivity. }
  split; [apply Hid |]. rewrite Hid. cbn [bind]. apply Hid.
Qed.

(** Mode full, and the unknown mode compact, on a page. *)
Lemma full_is_identity_witness :
  transform "reduced" sample_page (mkConfig (Some "full") None None)
  = Ok sample_page /\
  transform "compact" sample_page (mkConfig None None None) = Ok sample_page.
Proof.
  split.
  - apply (full_is_identity "reduced" sample_page
             (mkConfig (Some "full") None None)).
    left. reflexivity.
  - apply (full_is_identity "compact" sample_page (mkConfig None None None)).
    right. simpl. intros [H | [H | [H | []]]]; discriminate H.
Defined.

(** C10.  In mode success_only an object without an id field becomes
    exactly [{success: true}], whether or not it carries a results array;
    the count and the "Successfully processed N item(s)" message are there
    when the object has both an id field and a results array. *)
Theorem success_only_without_id :
  forall (defaultMode : string) (props : list (string * value))
         (config : TransformConfig),
  effective_mode defaultMode config = "success_only" ->
  (lookup "id" props = None ->
   transform defaultMode (VObj props) config
   = Ok (VObj [("success", VBool true)])) /\
  (forall id items,
     lookup "id" props = Some id ->
     lookup "results" props = Some (VArr items) ->
     exists out,
       transform defaultMode (VObj props) config = Ok (VObj out) /\
       lookup "count" out = Some (length_value items) /\
       lookup "message" out
       = Some (VStr (processed_message (length items)))).
Proof.
  intros defaultMode props config Hmode.
  assert (Hop : exists t,
             match operationType config with
             | Some t => Ok t
             | None => detectOperationType (VObj props)
             end = Ok t).
  { destruct (operationType config); [eauto | apply detectOperationType_ok]. }
  destruct Hop as [t Ht].
  unfold transform. fold (effective_mode defaultMode config).
  rewrite Ht, Hmode. cbn [bind String.eqb Ascii.eqb Bool.eqb].
  unfold transformSuccessOnly.
  cbn [truthy typeof_object negb orb].
  rewrite has_property_object.
  split.
  - intros Hid. rewrite Hid. reflexivity.
  - intros id items Hid Hres.
    rewrite Hid. cbn [bind]. rewrite !get_object, !has_property_object.
    rewrite Hid, Hres. cbn [bind].
    destruct (lookup "created_time" props);
      destruct (lookup "last_edited_time" props); cbn [bind];
      (eexists; split; [reflexivity | split; reflexivity]).
Qed.

(** A paginated list of three items, without an id. *)
Lemma success_only_without_id_witness :
  lookup "results" list_envelope
  = Some (VArr [VNum (Int 1); VNum (Int 2); VNum (Int 3)]) /\
  transform "full" (VObj list_envelope)
    (mkConfig (Some "success_only") None None)
  = Ok (VObj [("success", VBool true)]).
Proof.
  split; [reflexivity |].
  apply (success_only_without_id "full" list_envelope
           (mkConfig (Some "success_only") None None));
    reflexivity.
Defined.

Ltac not_this_tag Hunknown :=
  match goal with
  | |- context [is_string ?x ?s] =>
      let E := fresh "E" in
      destruct (is_string x s) eqn:E;
      [ apply is_string_eq in E; exfalso; apply (Hunknown s);
        [ simpl; tauto | exact E ]
      | ]
  end.

(** C6.  A Property Value object whose [type] is none of the known tags
    (a string the [switch] does not list, a value that is no string, or no
    [type] at all) is returned by the extraction as it is. *)
Theorem unknown_tag_unchanged :
  forall props : list (string * value),
  (forall tag, In tag known_tags -> discriminator props <> VStr tag) ->
  extractNotionValue (VObj props) = Ok (VObj props).
Proof.
  intros props Hunknown.
  unfold extractNotionValue. cbn [truthy typeof_object negb orb].
  rewrite get_object. fold (payload props "type"). fold (discriminator props).
  cbn [bind].
  destruct (truthy (discriminator props)); cbn [negb]; [| reflexivity].
  repeat not_this_tag Hunknown.
  reflexivity.
Qed.

(** A tag the [switch] does not know. *)
Lemma unknown_tag_unchanged_witness :
  extractNotionValue (VObj verification_property)
  = Ok (VObj verification_property).
Proof.
  apply (unknown_tag_unchanged verification_property).
  intros tag Hin Heq. injection Heq as <-.
  simpl in Hin.
  repeat (destruct Hin as [Hin | Hin]; [discriminate Hin |]).
  exact Hin.
Defined.

(** C9.  For a Property Value whose [type] is one of the scalar tags,
    number, checkbox, url, email or that of a phone number (spelled
    phone_number), the extraction returns the same-named nested payload
    as it is. *)
Theorem scalar_payload_unchanged :
  forall (props : list (string * value)) (tag : string),
  In tag scalar_tags ->
  discriminator props = VStr tag ->
  extractNotionValue (VObj props) = Ok (payload props tag).
Proof.
  intros props tag Hin Htype.
  unfold extractNotionValue. cbn [truthy typeof_object negb orb].
  rewrite get_object. fold (payload props "type"). fold (discriminator props).
  rewrite Htype. cbn [bind].
  simpl in Hin.
  destruct Hin as [<- | [<- | [<- | [<- | [<- | []]]]]];
    cbn [truthy negb is_string String.eqb Ascii.eqb Bool.eqb orb];
    apply get_object.
Qed.

Lemma scalar_payload_unchanged_witness :
  extractNotionValue (VObj phone_number_property)
  = Ok (VStr "+33 1 23 45 67 89").
Proof.
  apply (scalar_payload_unchanged phone_number_property "phone_number").
  - simpl. tauto.
  - reflexivity.
Defined.

(** C2 fails on the code.  A title whose fragment array holds [null]
    makes the extraction read [t.type] on [null]: the extraction, and with
    it transform in mode reduced, raises a TypeError. *)
Theorem null_fragment_throws :
  extractNotionValue (VObj [("type", VStr "title"); ("title", VArr [VNull])])
  = Throw TypeError /\
  transform "full" page_with_null_fragment
    (mkConfig (Some "reduced") None None)
  = Throw TypeError.
Proof. split; reflexivity. Qed.

(** The same unguarded read is in the callbacks of the multi_select,
    files and people rules, and in the loop over the results of a
    paginated list. *)
Lemma unguarded_elements_throw :
  extractNotionValue
    (VObj [("type", VStr "multi_select"); ("multi_select", VArr [VNull])])
  = Throw TypeError /\
  extractNotionValue (VObj [("type", VStr "files"); ("files", VArr [VNull])])
  = Throw TypeError /\
  extractNotionValue (VObj [("type", VStr "people"); ("people", VArr [VNull])])
  = Throw TypeError /\
  transform "full" (VObj [("results", VArr [VNull])])
    (mkConfig (Some "reduced") None None)
  = Throw TypeError.
Proof. repeat split. Qed.

Section Whitelist.

(** The loop over the field list, on the object with properties
    [props]. *)
Variable props : list (string * value).

Lemma keep_step (acc s' : list (string * value)) (n : string) :
  n <> "__proto__" ->
  keep_field (VObj props) acc n = Ok s' ->
  match lookup n props with
  | Some x => exists v, transformValue x = Ok v /\ s' = assign n v acc
  | None => s' = acc
  end.
Proof.
  intros Hn. unfold keep_field.
  rewrite has_property_object, get_object.
  cbn [bind]. destruct (lookup n props) as [x |].
  - cbn [bind]. destruct (transformValue x) as [v | e]; cbn [bind].
    + unfold set. apply String.eqb_neq in Hn. rewrite Hn.
      intros [= <-]. eauto.
    + discriminate.
  - intros [= <-]. reflexivity.
Qed.

Lemma keep_returns (acc : list (string * value)) (n : string) :
  (forall x, lookup n props = Some x -> exists v, transformValue x = Ok v) ->
  exists s', keep_field (VObj props) acc n = Ok s'.
Proof.
  intros Hok. unfold keep_field.
  rewrite has_property_object, get_object.
  cbn [bind]. destruct (lookup n props) as [x |]; [| eauto].
  destruct (Hok x eq_refl) as [v Hv]. cbn [bind]. rewrite Hv. cbn [bind].
  eauto.
Qed.

Lemma not_inherited_proto (n : string) :
  ~ In n inherited_names -> n <> "__proto__".
Proof. intros Hn ->. apply Hn. simpl. tauto. Qed.

(** What the loop leaves in [result]: the fields it did not name or did
    not find are as they were, each named field it found holds its
    transformed value. *)
Lemma keep_loop (names : list string) :
  Forall (fun n => ~ In n inherited_names) names ->
  forall acc result,
  foldM (keep_field (VObj props)) names acc = Ok result ->
  (forall k, ~ In k names \/ lookup k props = None ->
             lookup k result = lookup k acc) /\
  (forall k x, In k names -> lookup k props = Some x ->
               exists v, transformValue x = Ok v /\ lookup k result = Some v).
Proof.
  induction 1 as [| n names Hn Hnames IH]; intros acc result Hrun.
  - simpl in Hrun. injection Hrun as <-.
    split; [reflexivity | intros k x []].
  - cbn [foldM] in Hrun. apply bind_ok in Hrun.
    destruct Hrun as (s' & Hstep & Hrest).
    apply keep_step in Hstep; [| now apply not_inherited_proto].
    destruct (IH _ _ Hrest) as [Hsame Hfound].
    assert (Hacc : forall k, k <> n \/ lookup k props = None ->
                             lookup k s' = lookup k acc).
    { intros k Hk. destruct (lookup n props) as [x |] eqn:Hx.
      - destruct Hstep as (v & _ & ->). rewrite lookup_assign.
        destruct (String.eqb_spec n k) as [<- | _]; [| reflexivity].
        destruct Hk as [Hk | Hk]; [contradiction | congruence].
      - now subst s'. }
    split.
    + intros k Hk. destruct (in_dec string_dec k names) as [Hin | Hout].
      * destruct Hk as [Hk | Hk]; [exfalso; apply Hk; now right |].
        rewrite (Hsame k (or_intror Hk)). apply Hacc. now right.
      * rewrite (Hsame k (or_introl Hout)). apply Hacc.
        destruct Hk as [Hk | Hk]; [left | now right].
        intros ->. apply Hk. now left.
    + intros k x Hin Hx.
      destruct (in_dec string_dec k names) as [Hin' | Hout].
      * exact (Hfound k x Hin' Hx).
      * destruct Hin as [<- | Hin]; [| contradiction].
        rewrite Hx in Hstep. destruct Hstep as (v & Hv & ->).
        exists v. split; [exact Hv |].
        rewrite (Hsame n (or_introl Hout)), lookup_assign, String.eqb_refl.
        reflexivity.
Qed.

Lemma keep_loop_returns (names : list string) :
  (forall n x, In n names -> lookup n props = Some x ->
               exists v, transformValue x = Ok v) ->
  forall acc, exists result, foldM (keep_field (VObj props)) names acc = Ok result.
Proof.
  induction names as [| n names IH]; intros Hok acc; cbn [foldM].
  - eauto.
  - destruct (keep_returns acc n) as [s' Hs'].
    { intros x Hx. apply (Hok n x); [now left | exact Hx]. }
    rewrite Hs'. cbn [bind]. apply IH.
    intros m x Hm. apply Hok. now right.
Qed.

Lemma transformObject_fields (n : string) (names : list string) :
  transformObject (VObj props) (Some (n :: names))
  = (result <- foldM (keep_field (VObj props)) (n :: names) [] ;; Ok (VObj result)).
Proof. reflexivity. Qed.

End Whitelist.

(** In mode reduced an object without a results array is handed to
    [transformObject] together with the field list. *)
Lemma reduced_single_resource (defaultMode : string)
    (props : list (string * value)) (config : TransformConfig) :
  effective_mode defaultMode config = "reduced" ->
  (forall items, lookup "results" props <> Some (VArr items)) ->
  transform defaultMode (VObj props) config
  = transformObject (VObj props) (fields config).
Proof.
  intros Hmode Hsingle.
  assert (Hop : exists t,
             match operationType config with
             | Some t => Ok t
             | None => detectOperationType (VObj props)
             end = Ok t).
  { destruct (operationType config); [eauto | apply detectOperationType_ok]. }
  destruct Hop as [t Ht].
  unfold transform. fold (effective_mode defaultMode config).
  rewrite Ht, Hmode. cbn [bind String.eqb Ascii.eqb Bool.eqb].
  cbn [transformReduced]. rewrite has_property_object, get_object.
  cbn [bind].
  destruct (lookup "results" props) as [[] |] eqn:Hres; cbn [bind];
    try reflexivity.
  exfalso. exact (Hsingle _ eq_refl).
Qed.

(** X21.  In mode reduced with a non-empty field list, on a single
    resource object (no results array), when the names are own property
    names (none of those every object inherits) and the generic value
    transform returns on every named field the object has: the output
    object has exactly the named fields that are present on the input
    (absent ones are left out, not set to null), and each of them holds the
    result of that generic value transform ([transformValue]) on the
    field's value, whatever the field's name. *)
Theorem whitelist_fields :
  forall (defaultMode : string) (props : list (string * value))
         (names : list string) (config : TransformConfig),
  effective_mode defaultMode config = "reduced" ->
  fields config = Some names ->
  names <> [] ->
  Forall (fun n => ~ In n inherited_names) names ->
  (forall items, lookup "results" props <> Some (VArr items)) ->
  (forall n x, In n names -> lookup n props = Some x ->
               exists v, transformValue x = Ok v) ->
  exists result,
    transform defaultMode (VObj props) config = Ok (VObj result) /\
    (forall k, In k (map fst result) <-> In k names /\ In k (map fst props)) /\
    (forall k x, In k names -> lookup k props = Some x ->
                 exists v, transformValue x = Ok v /\ lookup k result = Some v).
Proof.
  intros defaultMode props names config Hmode Hfields Hne Hown Hsingle Hok.
  rewrite (reduced_single_resource _ _ _ Hmode Hsingle), Hfields.
  destruct names as [| n names]; [contradiction |].
  rewrite transformObject_fields.
  destruct (keep_loop_returns props (n :: names) Hok []) as [result Hrun].
  rewrite Hrun. cbn [bind]. exists result. split; [reflexivity |].
  destruct (keep_loop props (n :: names) Hown [] result Hrun)
    as [Hsame Hfound].
  split; [| exact Hfound].
  intros k. rewrite !lookup_in_keys. split.
  - intros Hk. destruct (in_dec string_dec k (n :: names)) as [Hin | Hout].
    + split; [exact Hin |]. intros Hnone. apply Hk.
      now rewrite (Hsame k (or_intror Hnone)).
    + exfalso. apply Hk. now rewrite (Hsame k (or_introl Hout)).
  - intros [Hin Hk]. destruct (lookup k props) as [x |] eqn:Hx;
      [| contradiction].
    destruct (Hfound k x Hin Hx) as (v & _ & ->). discriminate.
Qed.

(** The fields id, properties and cover of a page that has no cover. *)
Lemma whitelist_fields_witness :
  exists result,
    transform "full" (VObj status_page)
      (mkConfig (Some "reduced") (Some ["id"; "properties"; "cover"]) None)
    = Ok (VObj result) /\
    map fst result = ["id"; "properties"] /\
    lookup "id" result = Some (VStr "p1").
Proof.
  destruct (whitelist_fields "full" status_page ["id"; "properties"; "cover"]
              (mkConfig (Some "reduced") (Some ["id"; "properties"; "cover"])
                 None))
    as (result & Hrun & _ & _).
  - reflexivity.
  - reflexivity.
  - discriminate.
  - repeat constructor; simpl; intros H;
      repeat (destruct H as [H | H]; [discriminate H |]); exact H.
  - intros items H. discriminate H.
  - intros n x Hin Hx. simpl in Hin.
    destruct Hin as [<- | [<- | [<- | []]]]; simpl in Hx;
      injection Hx as <- || discriminate Hx; eexists; reflexivity.
  - exists result. split; [exact Hrun |].
    cbv in Hrun. injection Hrun as <-. split; reflexivity.
Defined.

(** C3 fails on the code.  Named in the field list, the properties field
    does not get Property Value extraction (the rule of the pass over all
    fields gives Status = "Done", the field list leaves the Property Value
    with its type and select members), and the metadata field parent is not
    copied as it is but transformed. *)
Theorem whitelist_skips_per_field_rule :
  (exists out v,
     transform "full" (VObj status_page)
       (mkConfig (Some "reduced") (Some ["properties"]) None)
     = Ok (VObj out) /\
     field_rule "properties" (payload status_page "properties") = Ok v /\
     v = VObj [("Status", VStr "Done")] /\
     lookup "properties" out
     = Some (VObj [("Status",
                    VObj [("type", VStr "select");
                          ("select", VObj [("name", VStr "Done")])])]) /\
     lookup "properties" out <> Some v) /\
  (exists out v,
     transform "full" (VObj workspace_page)
       (mkConfig (Some "reduced") (Some ["parent"]) None)
     = Ok (VObj out) /\
     field_rule "parent" (payload workspace_page "parent") = Ok v /\
     v = payload workspace_page "parent" /\
     lookup "parent" out
     = Some (VObj [("type", VStr "workspace");
                   ("properties", VObj [("Open", VBool true)])]) /\
     lookup "parent" out <> Some v).
Proof.
  split; do 2 eexists;
    (split; [reflexivity |]); (split; [reflexivity |]);
    (split; [reflexivity |]); (split; [reflexivity |]);
    discriminate.
Qed.

End NormalizerFacts.

(* ===================================================================== *)
(** ** More on the classifier and on what the client is sent *)
(* ===================================================================== *)

Module ReportFacts.
Import Errors Proxy Spec Report Server Shapes Examples Samples JSFacts.
Import ClassifierFacts.

(** X1.  The httpStatus of a classified error is the status of the
    failure for 400, 401, 403, 404, 409 and 429; for every other status,
    502, 503 and 504 among them, it is 500 and the code is
    internal_server_error. *)
Theorem http_status_of_classified :
  forall (error : HttpClientError) (operation : option string)
         (params : option value) (e : MCPNotionError),
  mapNotionErrorToMCPError error operation params = Ok e ->
  (In (status error) [400; 401; 403; 404; 409; 429]%Z ->
   httpStatus e = status error) /\
  (~ In (status error) [400; 401; 403; 404; 409; 429]%Z ->
   httpStatus e = 500%Z /\ code e = "internal_server_error").
Proof.
  intros error operation params e.
  classified error;
    repeat match goal with
           | H : (_ =? _)%Z = true |- _ => apply Z.eqb_eq in H
           | H : (_ =? _)%Z = false |- _ => apply Z.eqb_neq in H
           end;
    cbn [httpStatus code];
    (split; [intros Hin | intros Hout]);
    try (symmetry; assumption);
    try (exfalso; apply Hout; simpl;
         match goal with H : status error = _ |- _ => rewrite H end; tauto);
    try (simpl in Hin; exfalso; intuition congruence);
    try (split; reflexivity).
Qed.

(** A 404 keeps its status. *)
Lemma http_status_of_classified_witness :
  exists e,
    mapNotionErrorToMCPError block_not_found None None = Ok e /\
    httpStatus e = 404%Z.
Proof.
  destruct (mapNotionErrorToMCPError block_not_found None None) as [e |] eqn:He;
    [| discriminate He].
  exists e. split; [reflexivity |].
  apply (http_status_of_classified block_not_found None None e He).
  simpl. tauto.
Defined.

(** X2.  The operation name and the params handed to the classifier are
    in the typed error it returns as they were given, for every status and
    body. *)
Theorem context_kept :
  forall (error : HttpClientError) (operation : option string)
         (params : option value) (e : MCPNotionError),
  mapNotionErrorToMCPError error operation params = Ok e ->
  Errors.operation e = operation /\ Errors.params e = params.
Proof.
  intros error operation params e He.
  exact (proj2 (classified_record error operation params e He)).
Qed.

Lemma context_kept_witness :
  exists e,
    mapNotionErrorToMCPError rate_limited_15 (Some "query-a-database")
      (Some (VObj [("page_size", VNum (Int 10))]))
    = Ok e /\
    Errors.operation e = Some "query-a-database" /\
    Errors.params e = Some (VObj [("page_size", VNum (Int 10))]).
Proof.
  destruct (mapNotionErrorToMCPError rate_limited_15 (Some "query-a-database")
              (Some (VObj [("page_size", VNum (Int 10))])))
    as [e |] eqn:He; [| discriminate He].
  exists e. split; [reflexivity |].
  exact (context_kept _ _ _ e He).
Defined.

Lemma skip_while_all (p : ascii -> bool) (a b : string) :
  all_chars p a = true -> skip_while p (a ++ b) = skip_while p b.
Proof.
  induction a as [| c a IH]; simpl; [reflexivity |].
  intros H. apply andb_prop in H. destruct H as [-> Ha]. auto.
Qed.

Lemma skip_while_stop (p : ascii -> bool) (s : string) :
  first_char p s = false -> skip_while p s = s.
Proof. destruct s as [| c s]; simpl; [reflexivity | intros ->; reflexivity]. Qed.

Lemma trim_start_spaces (a b : string) :
  all_chars is_space a = true -> trim_start (a ++ b) = trim_start b.
Proof.
  induction a as [| c a IH]; [reflexivity |].
  cbn [all_chars String.append]. intros H. apply andb_prop in H.
  destruct H as [Hc Ha]. cbn [trim_start]. rewrite Hc. auto.
Qed.

(** An ASCII character starts none of the longer forms of white space. *)
Lemma trim_start_stop (s : string) :
  first_char is_space s = false ->
  first_char (fun c => negb (is_ascii c)) s = false ->
  trim_start s = s.
Proof.
  destruct s as [| a r1]; [reflexivity |].
  cbn [first_char trim_start]. intros -> Ha.
  apply negb_false_iff in Ha. unfold is_ascii in Ha. apply Nat.ltb_lt in Ha.
  assert (Hne : forall n, 128 <= n -> (nat_of_ascii a =? n)%nat = false).
  { intros n Hn. apply Nat.eqb_neq. intros Heq. rewrite Heq in Ha.
    exact (Nat.lt_irrefl _ (Nat.lt_le_trans _ _ _ Ha Hn)). }
  destruct r1 as [| b r2]; [reflexivity |].
  unfold is_space2. rewrite (Hne 194) by (repeat constructor).
  cbn [andb].
  destruct r2 as [| c r3]; [reflexivity |].
  unfold is_space3.
  rewrite (Hne 225), (Hne 226), (Hne 227), (Hne 239)
    by (apply Nat.leb_le; reflexivity).
  reflexivity.
Qed.

(** The status line of the transport: a status code, white space, a
    reason.  The code and the white space go, the reason stays. *)
Lemma strip_status_line (digits spaces reason : string) :
  digits <> "" ->
  all_chars is_digit digits = true ->
  all_chars is_space spaces = true ->
  first_char is_space reason = false ->
  first_char (fun c => negb (is_ascii c)) reason = false ->
  first_char is_digit (spaces ++ reason) = false ->
  strip_status (digits ++ spaces ++ reason) = reason.
Proof.
  intros Hne Hd Hs Hr Hascii Hsr. unfold strip_status.
  destruct digits as [| c digits]; [contradiction |].
  simpl in Hd. apply andb_prop in Hd. destruct Hd as [Hc Hd].
  cbn [String.append]. rewrite Hc.
  change (String c (digits ++ spaces ++ reason))
    with (String c digits ++ spaces ++ reason).
  rewrite (skip_while_all is_digit (String c digits));
    [| simpl; now rewrite Hc, Hd].
  rewrite (skip_while_stop is_digit _ Hsr).
  rewrite (trim_start_spaces spaces _ Hs).
  now apply trim_start_stop.
Qed.

Lemma message_text (error : HttpClientError) (m : string) :
  error_message (message_value error) = Ok m ->
  (truthy (body_field (data error) "message") = true ->
   to_string (body_field (data error) "message") = Ok m) /\
  (truthy (body_field (data error) "message") = false ->
   (first_char is_digit (originalMessage error) = false ->
    m = originalMessage error) /\
   (forall digits spaces reason,
      originalMessage error = digits ++ spaces ++ reason ->
      digits <> "" ->
      all_chars is_digit digits = true ->
      all_chars is_space spaces = true ->
      first_char is_space reason = false ->
      first_char (fun c => negb (is_ascii c)) reason = false ->
      first_char is_digit (spaces ++ reason) = false ->
      m = reason)).
Proof.
  unfold message_value. intros Hm. split.
  - intros Ht. rewrite Ht in Hm.
    destruct (body_field (data error) "message"); try exact Hm.
    discriminate Ht.
  - intros Hf. rewrite Hf in Hm. cbn [error_message to_string] in Hm.
    injection Hm as <-. split.
    + intros Hd. unfold strip_status.
      destruct (originalMessage error) as [| c s]; [reflexivity |].
      simpl in Hd. rewrite Hd. reflexivity.
    + intros digits spaces reason -> Hne Hd Hs Hr Hascii Hsr.
      now apply strip_status_line.
Qed.

(** X3.  The message of a classified error is the string form of the
    body's message when the body is an object with a truthy message, and
    otherwise the transport's message without its leading status code:
    from "<digits><white space><reason>", where the reason is empty or
    starts with an ASCII character that is not white space, the reason is
    kept, and a message that does not start with a digit is kept whole. *)
Theorem message_of_classified :
  forall (error : HttpClientError) (operation : option string)
         (params : option value) (e : MCPNotionError),
  mapNotionErrorToMCPError error operation params = Ok e ->
  (truthy (body_field (data error) "message") = true ->
   to_string (body_field (data error) "message") = Ok (message e)) /\
  (truthy (body_field (data error) "message") = false ->
   (first_char is_digit (originalMessage error) = false ->
    message e = originalMessage error) /\
   (forall digits spaces reason,
      originalMessage error = digits ++ spaces ++ reason ->
      digits <> "" ->
      all_chars is_digit digits = true ->
      all_chars is_space spaces = true ->
      first_char is_space reason = false ->
      first_char (fun c => negb (is_ascii c)) reason = false ->
      first_char is_digit (spaces ++ reason) = false ->
      message e = reason)).
Proof.
  intros error operation params e.
  classified error; cbn [message]; apply message_text; assumption.
Qed.

(** A 404 whose body is a string: the message is "Not Found". *)
Lemma message_of_classified_witness :
  exists e,
    mapNotionErrorToMCPError not_found_plain None None = Ok e /\
    message e = "Not Found".
Proof.
  destruct (mapNotionErrorToMCPError not_found_plain None None) as [e |] eqn:He;
    [| discriminate He].
  exists e. split; [reflexivity |].
  destruct (message_of_classified not_found_plain None None e He)
    as (_ & Hplain).
  destruct (Hplain eq_refl) as [_ Hline].
  apply (Hline "404" " " "Not Found"); reflexivity || discriminate.
Defined.

Lemma starts_with_refl (t : string) : starts_with t t = true.
Proof.
  induction t as [| c t IH]; simpl; [reflexivity |].
  rewrite Ascii.eqb_refl. exact IH.
Qed.

Lemma includes_refl (t : string) : includes t t = true.
Proof. apply includes_starts_with, starts_with_refl. Qed.

(** X4.  Whatever the error, the text [formatUserMessage] renders
    contains the error's message and the markdown bold marker.  For an
    instance of one of the seven subclasses it also contains the
    suggestion; for an instance of the base class it is the one line
    "❌ **Erreur** : " and the message, without the suggestion. *)
Theorem user_message_contents :
  forall e : MCPNotionError,
  includes (formatUserMessage e) (message e) = true /\
  includes (formatUserMessage e) "**" = true /\
  (class e <> BaseError ->
   includes (formatUserMessage e) (suggestion_text e) = true) /\
  (class e = BaseError ->
   formatUserMessage e = "❌ **Erreur** : " ++ message e).
Proof.
  intros e.
  assert (Ht : forall heading label,
             includes (template heading label e) (message e) = true /\
             includes (template heading label e) "**" = true /\
             includes (template heading label e) (suggestion_text e) = true).
  { intros heading label. unfold template. repeat split.
    - do 3 apply includes_prepend. apply includes_starts_with, starts_with_app.
    - do 6 apply includes_prepend. apply includes_starts_with, starts_with_app.
    - do 9 apply includes_prepend. apply includes_refl. }
  unfold formatUserMessage.
  destruct (class e) eqn:Hclass;
    try (match goal with
         | |- context [template ?h ?l e] =>
             destruct (Ht h l) as (Hm & Hb & Hs)
         end;
         split; [exact Hm | split; [exact Hb | split]];
         [intros _; exact Hs | intros H; discriminate H]).
  split; [| split; [| split]].
  - apply includes_prepend, includes_refl.
  - exact (includes_app "❌ " "**" ("Erreur** : " ++ message e)).
  - intros H. now contradiction H.
  - reflexivity.
Qed.

(** X5.  The JSON form of an error starts with type, code, httpStatus,
    message, retryable and suggestion.  It has an operation member exactly
    when the error has a non-empty operation name, a params member exactly
    when it has truthy params, and a retryAfter member exactly when it is
    a RateLimit error whose retryAfter is set (0 and NaN included). *)
Theorem toJSON_members :
  forall e : MCPNotionError,
  firstn 6 (map fst (toJSON e))
  = ["type"; "code"; "httpStatus"; "message"; "retryable"; "suggestion"] /\
  (In "operation" (map fst (toJSON e)) <->
   exists op, operation e = Some op /\ op <> "") /\
  (In "params" (map fst (toJSON e)) <->
   exists p, params e = Some p /\ truthy p = true) /\
  (In "retryAfter" (map fst (toJSON e)) <->
   class e = RateLimitError /\ retryAfter e <> None).
Proof.
  intros [cls ty cd st msg rt sg op ps ra].
  unfold toJSON.
  cbn [class type code httpStatus message retryable suggestion operation
       params retryAfter].
  split; [reflexivity |].
  assert (HA : forall k,
             In k (map fst
                     match op with
                     | Some o => if o =? "" then [] else [("operation", VStr o)]
                     | None => []
                     end)
             <-> k = "operation" /\ exists o, op = Some o /\ o <> "").
  { intros k. destruct op as [o |]; [destruct (String.eqb_spec o "") |];
      simpl; split;
      try solve [ intros []
                | intros [_ (x & H & Hx)]; try discriminate H;
                  injection H as <-; contradiction
                | intros [<- | []]; eauto
                | intros [-> _]; now left ]. }
  assert (HB : forall k,
             In k (map fst
                     match ps with
                     | Some p => if truthy p then [("params", p)] else []
                     | None => []
                     end)
             <-> k = "params" /\ exists p, ps = Some p /\ truthy p = true).
  { intros k. destruct ps as [p |]; [destruct (truthy p) eqn:Hp |];
      simpl; split;
      try solve [ intros []
                | intros [_ (x & H & Hx)]; try discriminate H;
                  injection H as <-; congruence
                | intros [<- | []]; eauto
                | intros [-> _]; now left ]. }
  assert (HC : forall k,
             In k (map fst
                     match cls with
                     | RateLimitError =>
                         match ra with
                         | Some n => [("retryAfter", VNum n)]
                         | None => []
                         end
                     | _ => []
                     end)
             <-> k = "retryAfter" /\ cls = RateLimitError /\ ra <> None).
  { intros k. destruct cls; destruct ra as [n |]; simpl; split;
      try solve [ intros []
                | intros [_ [H1 H2]]; try discriminate H1; congruence
                | intros [<- | []]; repeat split; discriminate
                | intros [-> _]; now left ]. }
  split; [| split];
    rewrite !map_app, !in_app_iff, HA, HB, HC; cbn [map fst In];
    (split;
     [ intros H;
       repeat (destruct H as [H | H]; try discriminate H);
       try contradiction;
       destruct H as [H1 H2]; try discriminate H1; assumption
     | intros H; right; auto ]).
Qed.

(** X7.  When a tool call fails with an [HttpClientError] and the
    classifier returns, the response is the object with the members
    message and error, both made from the one typed error the classifier
    gives for the failure, whose kind is that of the status table.  The
    error's JSON has a params member exactly when the deserialized
    arguments hold one that is not [_output] or [_fields], and then it
    holds these arguments; it has an operation member exactly when the
    operation has a non-empty id. *)
Theorem error_response_members :
  forall (error : HttpClientError) (operationId : option string)
         (deserializedParams : list (string * value)) (out : value),
  error_response error operationId deserializedParams = Ok out ->
  exists e,
    out = VObj [("message", VStr (formatUserMessage e));
                ("error", VObj (toJSON e))] /\
    class e = kind_of_status (status error) (body_field (data error) "code") /\
    lookup "params" (toJSON e)
    = match apiParams deserializedParams with
      | [] => None
      | _ :: _ => Some (VObj (apiParams deserializedParams))
      end /\
    lookup "operation" (toJSON e)
    = match operationId with
      | Some op => if op =? "" then None else Some (VStr op)
      | None => None
      end.
Proof.
  intros error operationId dp out.
  unfold error_response.
  destruct (mapNotionErrorToMCPError error operationId
              (if (0 <? length (apiParams dp))%nat
               then Some (VObj (apiParams dp)) else None))
    as [e | []] eqn:He; cbn [bind]; [| discriminate].
  intros [= <-]. exists e. split; [reflexivity |].
  destruct (classified_record _ _ _ _ He) as (Hclass & Hop & Hparams).
  split; [exact Hclass |].
  clear He Hclass. destruct e as [cls ty cd st msg rt sg op ps ra].
  cbn in Hop, Hparams. subst op ps. unfold toJSON.
  cbn [class type code httpStatus message retryable suggestion
       Errors.operation Errors.params retryAfter].
  destruct (apiParams dp) as [| kv api];
    (destruct operationId as [op |]; [destruct (op =? "") |]);
    destruct cls; destruct ra; split; reflexivity.
Qed.

(** A 404 on a block lookup with one argument left. *)
Lemma error_response_members_witness :
  exists out e,
    error_response block_not_found (Some "retrieve-a-block")
      [("block_id", VStr "b1"); ("_output", VStr "reduced")]
    = Ok out /\
    out = VObj [("message", VStr (formatUserMessage e));
                ("error", VObj (toJSON e))] /\
    class e = NotFoundError /\
    lookup "params" (toJSON e) = Some (VObj [("block_id", VStr "b1")]).
Proof.
  destruct (error_response block_not_found (Some "retrieve-a-block")
              [("block_id", VStr "b1"); ("_output", VStr "reduced")])
    as [out |] eqn:Hout; [| discriminate Hout].
  destruct (error_response_members _ _ _ out Hout)
    as (e & Hshape & Hclass & Hparams & _).
  exists out, e. split; [reflexivity |]. split; [exact Hshape |].
  split; [exact Hclass | exact Hparams].
Defined.

End ReportFacts.

(* ===================================================================== *)
(** ** More on the value normalizer *)
(* ===================================================================== *)

Module NormalizerExtras.
Import Proxy Transformer Spec Server Shapes Examples Samples JSFacts.

(** *** The operation type *)

(** X8.  The operation type, given in the configuration or detected from
    the shape of the response, has no effect on what transform returns. *)
Theorem operation_type_is_unused :
  forall (defaultMode : string) (data : value) (mode : option string)
         (fields : option (list string)) (t1 t2 : option OperationType),
  transform defaultMode data (mkConfig mode fields t1)
  = transform defaultMode data (mkConfig mode fields t2).
Proof.
  intros defaultMode data mode fields t1 t2.
  assert (H : forall t,
             transform defaultMode data (mkConfig mode fields t)
             = transform defaultMode data (mkConfig mode fields (Some read))).
  { intros t. unfold transform.
    cbn [Transformer.mode Transformer.fields Transformer.operationType bind].
    destruct t as [[] |]; try reflexivity.
    destruct (NormalizerFacts.detectOperationType_ok data) as [[] ->];
      reflexivity. }
  rewrite (H t1), (H t2). reflexivity.
Qed.

(** *** Mode success_only *)

(** X9.  In mode success_only transform always returns an object whose
    success member is true, and which has no member other than success,
    id, created_time, last_edited_time, count and message: nothing else
    of the response gets through. *)
Theorem success_only_shape :
  forall (defaultMode : string) (data : value) (config : TransformConfig),
  effective_mode defaultMode config = "success_only" ->
  exists out,
    transform defaultMode data config = Ok (VObj out) /\
    lookup "success" out = Some (VBool true) /\
    (forall k, In k (map fst out) ->
               In k ["success"; "id"; "created_time"; "last_edited_time";
                     "count"; "message"]).
Proof.
  intros defaultMode data config Hmode.
  assert (Hop : exists t,
             match operationType config with
             | Some t => Ok t
             | None => detectOperationType data
             end = Ok t).
  { destruct (operationType config);
      [eauto | apply NormalizerFacts.detectOperationType_ok]. }
  destruct Hop as [t Ht].
  unfold transform. fold (effective_mode defaultMode config).
  rewrite Ht, Hmode. cbn [bind String.eqb Ascii.eqb Bool.eqb].
  unfold transformSuccessOnly.
  destruct (negb (truthy data) || negb (typeof_object data))%bool eqn:Hprim.
  { eexists. split; [reflexivity |]. split; [reflexivity |].
    simpl. tauto. }
  apply orb_false_elim in Hprim. destruct Hprim as [Ht' Ho].
  apply negb_false_iff in Ht', Ho.
  assert (Hn : nullish data = false) by (destruct data; easy).
  assert (Hin : forall k,
             has_property k data
             = Ok (match own_property data k with
                   | Some _ => true
                   | None => false
                   end)) by (destruct data; easy).
  rewrite !Hin, !(get_defined _ _ Hn). cbn [bind].
  destruct (own_property data "id"); cbn [bind].
  - destruct (own_property data "created_time");
      destruct (own_property data "last_edited_time"); cbn [bind];
      rewrite ?Hin, ?(get_defined _ _ Hn); cbn [bind];
      (destruct (own_property data "results") as [[] |]; cbn [bind];
       eexists; (split; [reflexivity |]); (split; [reflexivity |]);
       simpl; tauto).
  - destruct data; (eexists; split; [reflexivity |]);
      (split; [reflexivity | simpl; tauto]).
Qed.

(** A page with a parent, in mode success_only: the parent does not get
    through. *)
Lemma success_only_shape_witness :
  exists out,
    transform "success_only" (VObj workspace_page) (mkConfig None None None)
    = Ok (VObj out) /\
    lookup "success" out = Some (VBool true) /\
    ~ In "parent" (map fst out).
Proof.
  destruct (success_only_shape "success_only" (VObj workspace_page)
              (mkConfig None None None) eq_refl)
    as (out & Hrun & Hs & Hkeys).
  exists out. repeat split; try assumption.
  intros Hin. apply Hkeys in Hin. simpl in Hin.
  repeat (destruct Hin as [Hin | Hin]; [discriminate Hin |]). exact Hin.
Defined.

(** *** The default mode from the environment *)

(** X10.  A transformer made from the environment passes responses
    through unchanged when the call names no mode, unless
    NOTION_MCP_OUTPUT_MODE is reduced or success_only: so it does when the
    variable is unset, empty, full, or any other text. *)
Theorem env_default_is_identity :
  forall (env : option string) (data : value)
         (fields : option (list string)) (t : option OperationType),
  env <> Some "reduced" ->
  env <> Some "success_only" ->
  transform (getDefaultMode (createTransformerFromEnv env)) data
    (mkConfig None fields t)
  = Ok data.
Proof.
  intros env data fields t Hr Hs.
  unfold transform.
  cbn [Transformer.mode Transformer.fields Transformer.operationType
       getDefaultMode createTransformerFromEnv defaultMode].
  assert (Hop : exists t',
             match t with
             | Some t => Ok t
             | None => detectOperationType data
             end = Ok t').
  { destruct t; [eauto | apply NormalizerFacts.detectOperationType_ok]. }
  destruct Hop as [t' ->]. cbn [bind].
  destruct env as [m |]; [| reflexivity].
  destruct (String.eqb_spec m "") as [-> | _]; [reflexivity |].
  destruct (m =? "full"); [reflexivity |].
  destruct (String.eqb_spec m "success_only") as [-> | _]; [congruence |].
  destruct (String.eqb_spec m "reduced") as [-> | _]; [congruence |].
  reflexivity.
Qed.

Lemma env_default_is_identity_witness :
  transform (getDefaultMode (createTransformerFromEnv None)) sample_page
    (mkConfig None None None) = Ok sample_page /\
  transform (getDefaultMode (createTransformerFromEnv (Some "compact")))
    sample_page (mkConfig None None None) = Ok sample_page.
Proof.
  split; apply env_default_is_identity; discriminate.
Defined.

(** *** The pass over all fields is a map over the entries *)

Lemma assign_fresh (k : string) (v : value) (acc : list (string * value)) :
  ~ In k (map fst acc) -> assign k v acc = (acc ++ [(k, v)])%list.
Proof.
  induction acc as [| [k' v'] acc IH]; simpl; [reflexivity |].
  intros Hk. destruct (String.eqb_spec k' k) as [-> | _].
  - exfalso. apply Hk. now left.
  - rewrite IH; [reflexivity |]. intros H. apply Hk. now right.
Qed.

(** A loop that stores, under each key, what [g] gives for the entry: on
    distinct keys, none of them [__proto__], it appends the new entries in
    order. *)
Lemma foldM_set_map (f : list (string * value) -> string * value ->
                        outcome (list (string * value)))
    (g : string -> value -> outcome value) :
  (forall r k v, f r (k, v) = (x <- g k v ;; Ok (set k x r))) ->
  forall es acc,
  NoDup (map fst acc ++ map fst es) ->
  ~ In "__proto__" (map fst es) ->
  foldM f es acc
  = (added <- mapM (fun kv => x <- g (fst kv) (snd kv) ;; Ok (fst kv, x))
                es ;;
     Ok (acc ++ added)%list).
Proof.
  intros Hf. induction es as [| [k v] es IH]; intros acc Hnd Hp;
    cbn [foldM mapM bind fst snd].
  - now rewrite app_nil_r.
  - rewrite Hf. destruct (g k v) as [x | e]; cbn [bind]; [| reflexivity].
    assert (Hk : k <> "__proto__") by (intros ->; apply Hp; now left).
    unfold set. apply String.eqb_neq in Hk. rewrite Hk.
    cbn [map fst] in Hnd.
    rewrite assign_fresh.
    2:{ apply NoDup_remove_2 in Hnd. intros H. apply Hnd.
        apply in_or_app. now left. }
    rewrite IH.
    + destruct (mapM _ es) as [added | e]; cbn [bind]; [| reflexivity].
      now rewrite <- app_assoc.
    + rewrite map_app, <- app_assoc. exact Hnd.
    + intros H. apply Hp. now right.
Qed.

(** What a map over the es leaves: the keys, and under each key the
    value [g] gives. *)
Lemma mapM_entries (g : string -> value -> outcome value)
    (es res : list (string * value)) :
  mapM (fun kv => x <- g (fst kv) (snd kv) ;; Ok (fst kv, x)) es = Ok res ->
  map fst res = map fst es /\
  (forall k v, lookup k es = Some v ->
               exists x, g k v = Ok x /\ lookup k res = Some x).
Proof.
  revert res. induction es as [| [k0 v0] es IH]; intros res H.
  - injection H as <-. split; [reflexivity | intros k v H; discriminate H].
  - cbn [mapM fst snd] in H. apply bind_ok in H. destruct H as ([k1 x1] & H1 & H).
    apply bind_ok in H1. destruct H1 as (x & Hx & [= <- <-]).
    apply bind_ok in H. destruct H as (res' & Hres & [= <-]).
    destruct (IH _ Hres) as [Hkeys Hvals]. split.
    + simpl. now rewrite Hkeys.
    + intros k v. simpl. destruct (String.eqb_spec k0 k) as [-> | _].
      * intros [= <-]. eauto.
      * apply Hvals.
Qed.

Lemma transformObject_all_map (props : list (string * value)) :
  plain_keys props ->
  transformObject_all (VObj props)
  = (res <- mapM (fun kv => x <- field_rule (fst kv) (snd kv) ;; Ok (fst kv, x))
              props ;;
     Ok (VObj res)).
Proof.
  intros [Hnd Hp]. cbn [transformObject_all].
  rewrite (foldM_set_map _ field_rule); try assumption.
  - destruct (mapM _ props); reflexivity.
  - intros r k v. reflexivity.
Qed.

Lemma transformProperties_map (ps : list (string * value)) :
  plain_keys ps ->
  transformProperties (VObj ps)
  = mapM (fun kv => x <- (if is_object (snd kv)
                          then extractNotionValue (snd kv)
                          else Ok (snd kv)) ;;
                    Ok (fst kv, x)) ps.
Proof.
  intros [Hnd Hp]. unfold transformProperties. cbn [entries bind].
  rewrite (foldM_set_map _ (fun _ v => if is_object v
                                       then extractNotionValue v
                                       else Ok v)); try assumption.
  - destruct (mapM _ ps); reflexivity.
  - intros r k v. destruct (is_object v); reflexivity.
Qed.

Lemma isMetadataField_properties : isMetadataField "properties" = false.
Proof. reflexivity. Qed.

(** X11.  In mode reduced without a field list, a single resource object
    (distinct keys, none of them __proto__, no results array) keeps every
    one of its fields, under the same names and in the same order; a
    metadata field keeps its value as it is, and every field holds what
    the rule for its name gives. *)
Theorem reduced_keeps_fields :
  forall (defaultMode : string) (props : list (string * value))
         (config : TransformConfig) (out : value),
  effective_mode defaultMode config = "reduced" ->
  fields config = None ->
  plain_keys props ->
  (forall items, lookup "results" props <> Some (VArr items)) ->
  transform defaultMode (VObj props) config = Ok out ->
  exists res,
    out = VObj res /\
    map fst res = map fst props /\
    (forall k v, isMetadataField k = true -> lookup k props = Some v ->
                 lookup k res = Some v) /\
    (forall k v, lookup k props = Some v ->
                 exists x, field_rule k v = Ok x /\ lookup k res = Some x).
Proof.
  intros defaultMode props config out Hmode Hfields Hplain Hsingle Hrun.
  rewrite (NormalizerFacts.reduced_single_resource _ _ _ Hmode Hsingle),
    Hfields in Hrun.
  cbn [transformObject] in Hrun.
  rewrite (transformObject_all_map _ Hplain) in Hrun.
  apply bind_ok in Hrun. destruct Hrun as (res & Hres & [= <-]).
  apply mapM_entries in Hres. destruct Hres as [Hkeys Hvals].
  exists res. repeat split; try assumption.
  intros k v Hmeta Hk. destruct (Hvals k v Hk) as (x & Hx & Hlk).
  unfold field_rule, field_rule_with in Hx. rewrite Hmeta in Hx.
  injection Hx as <-. exact Hlk.
Qed.

(** The sample page: three fields in, the same three out. *)
Lemma reduced_keeps_fields_witness :
  exists res,
    transform "reduced" (VObj status_page) (mkConfig None None None)
    = Ok (VObj res) /\
    map fst res = ["object"; "id"; "properties"] /\
    lookup "id" res = Some (VStr "p1").
Proof.
  assert (Hrun : transform "reduced" (VObj status_page)
                   (mkConfig None None None)
                 = Ok (VObj [("object", VStr "page"); ("id", VStr "p1");
                             ("properties", VObj [("Status", VStr "Done")])]))
    by reflexivity.
  assert (Hplain : plain_keys status_page).
  { split; [repeat constructor; simpl; intuition discriminate
           | simpl; intuition discriminate]. }
  assert (Hsingle : forall items,
             lookup "results" status_page <> Some (VArr items))
    by (intros items H; discriminate H).
  destruct (reduced_keeps_fields "reduced" status_page
              (mkConfig None None None) _ eq_refl eq_refl Hplain Hsingle Hrun)
    as (res & Hres & Hkeys & Hmeta & _).
  exists res. rewrite <- Hres. repeat split; try assumption.
  apply Hmeta; reflexivity.
Defined.

(** X12.  In mode reduced without a field list, the properties of a
    single resource are reduced entry by entry, when the resource and its
    properties have distinct keys, none of them __proto__: the output has
    the same property names in the same order; each property that is an
    object holds what the extraction gives for it, and any other value is
    kept. *)
Theorem reduced_extracts_properties :
  forall (defaultMode : string) (props ps : list (string * value))
         (config : TransformConfig) (out : list (string * value)),
  effective_mode defaultMode config = "reduced" ->
  fields config = None ->
  plain_keys props ->
  plain_keys ps ->
  (forall items, lookup "results" props <> Some (VArr items)) ->
  lookup "properties" props = Some (VObj ps) ->
  transform defaultMode (VObj props) config = Ok (VObj out) ->
  exists reduced,
    lookup "properties" out = Some (VObj reduced) /\
    map fst reduced = map fst ps /\
    (forall name pv,
       lookup name ps = Some pv ->
       exists x,
         (if is_object pv then extractNotionValue pv else Ok pv) = Ok x /\
         lookup name reduced = Some x).
Proof.
  intros defaultMode props ps config out Hmode Hfields Hplain Hps Hsingle
    Hprops Hrun.
  rewrite (NormalizerFacts.reduced_single_resource _ _ _ Hmode Hsingle),
    Hfields in Hrun.
  cbn [transformObject] in Hrun.
  rewrite (transformObject_all_map _ Hplain) in Hrun.
  apply bind_ok in Hrun. destruct Hrun as (res & Hres & [= <-]).
  apply mapM_entries in Hres. destruct Hres as [_ Hvals].
  destruct (Hvals _ _ Hprops) as (x & Hx & Hlk).
  unfold field_rule, field_rule_with in Hx.
  rewrite isMetadataField_properties in Hx.
  cbn [String.eqb Ascii.eqb Bool.eqb typeof_object nullish negb andb] in Hx.
  rewrite (transformProperties_map _ Hps) in Hx.
  apply bind_ok in Hx. destruct Hx as (reduced & Hred & [= <-]).
  apply (mapM_entries
           (fun _ v => if is_object v then extractNotionValue v else Ok v))
    in Hred.
  destruct Hred as [Hkeys Hrule].
  exists reduced. repeat split; assumption.
Qed.

(** Scenario D of the specification: Status = select "Done". *)
Lemma reduced_extracts_properties_witness :
  exists out reduced,
    transform "reduced" (VObj status_page) (mkConfig None None None)
    = Ok (VObj out) /\
    lookup "properties" out = Some (VObj reduced) /\
    lookup "Status" reduced = Some (VStr "Done").
Proof.
  assert (Hrun : transform "reduced" (VObj status_page)
                   (mkConfig None None None)
                 = Ok (VObj [("object", VStr "page"); ("id", VStr "p1");
                             ("properties", VObj [("Status", VStr "Done")])]))
    by reflexivity.
  assert (Hplain : plain_keys status_page).
  { split; [repeat constructor; simpl; intuition discriminate
           | simpl; intuition discriminate]. }
  assert (Hps : plain_keys
                  [("Status",
                    VObj [("type", VStr "select");
                          ("select", VObj [("name", VStr "Done")])])]).
  { split; [repeat constructor; simpl; intuition discriminate
           | simpl; intuition discriminate]. }
  assert (Hsingle : forall items,
             lookup "results" status_page <> Some (VArr items))
    by (intros items H; discriminate H).
  destruct (reduced_extracts_properties "reduced" status_page _
              (mkConfig None None None) _ eq_refl eq_refl Hplain Hps Hsingle
              eq_refl Hrun)
    as (reduced & Hlk & _ & Hrule).
  eexists. exists reduced. split; [exact Hrun |]. split; [exact Hlk |].
  destruct (Hrule "Status" _ eq_refl) as (x & Hx & Hs).
  cbv in Hx. injection Hx as <-. exact Hs.
Defined.

(** *** Paginated lists *)

Lemma reduced_mode (defaultMode : string) (data : value)
    (config : TransformConfig) :
  effective_mode defaultMode config = "reduced" ->
  transform defaultMode data config = transformReduced data (fields config).
Proof.
  intros Hmode.
  assert (Hop : exists t,
             match operationType config with
             | Some t => Ok t
             | None => detectOperationType data
             end = Ok t).
  { destruct (operationType config);
      [eauto | apply NormalizerFacts.detectOperationType_ok]. }
  destruct Hop as [t Ht].
  unfold transform. fold (effective_mode defaultMode config).
  rewrite Ht, Hmode. reflexivity.
Qed.

(** The pagination and metadata fields an envelope has, with their
    values, in the order the code asks for them. *)
Lemma extractMetadata_object (props : list (string * value)) :
  extractMetadata (VObj props)
  = Ok (flat_map (fun k => match lookup k props with
                           | Some v => [(k, v)]
                           | None => []
                           end)
          ["next_cursor"; "prev_cursor"; "has_more"; "type"; "object"]).
Proof.
  unfold extractMetadata. cbn [foldM flat_map].
  rewrite !has_property_object, !get_object.
  destruct (lookup "next_cursor" props); destruct (lookup "prev_cursor" props);
    destruct (lookup "has_more" props); destruct (lookup "type" props);
    destruct (lookup "object" props); reflexivity.
Qed.




(** *** When the extraction raises *)

Lemma is_object_shape (v : value) :
  is_object v = true ->
  (exists items, v = VArr items) \/ (exists props, v = VObj props).
Proof.
  unfold is_object. destruct v; simpl; rewrite ?andb_false_r; intros H;
    try discriminate H; eauto.
Qed.

Lemma is_object_defined (v : value) : is_object v = true -> nullish v = false.
Proof.
  intros H. destruct (is_object_shape v H) as [[? ->] | [? ->]]; reflexivity.
Qed.

Lemma truthy_defined (v : value) : truthy v = true -> nullish v = false.
Proof. destruct v; simpl; try discriminate; reflexivity. Qed.

Lemma has_property_is_object (v : value) (k : string) :
  is_object v = true ->
  has_property k v
  = Ok (match own_property v k with Some _ => true | None => false end).
Proof.
  intros H. destruct (is_object_shape v H) as [[? ->] | [? ->]]; reflexivity.
Qed.

Lemma string_of_nat_digit (n : nat) :
  first_char is_digit (string_of_nat n) = true.
Proof.
  unfold string_of_nat, NilZero.string_of_uint.
  destruct (Nat.to_uint n); reflexivity.
Qed.

Lemma index_of_name (k : string) (keys : list string) :
  Forall (fun key => first_char is_digit key = true) keys ->
  first_char is_digit k = false ->
  forall i, index_of k keys i = None.
Proof.
  intros Hkeys Hk. induction Hkeys as [| key keys Hkey _ IH]; intros i; simpl.
  - reflexivity.
  - destruct (String.eqb_spec key k) as [-> | _]; [congruence | apply IH].
Qed.

(** An array or a string has no own property with a name that starts with
    a letter, [length] apart. *)
Lemma indexed_lookup_name (k : string) (items : list value) :
  first_char is_digit k = false ->
  k <> "length" ->
  indexed_lookup k items = None.
Proof.
  intros Hk Hlen. unfold indexed_lookup.
  apply String.eqb_neq in Hlen. rewrite Hlen.
  rewrite index_of_name; [reflexivity | | exact Hk].
  unfold index_keys. apply Forall_forall. intros key Hin.
  apply in_map_iff in Hin. destruct Hin as (n & <- & _).
  apply string_of_nat_digit.
Qed.

Lemma nullish_cases (xs : list value) :
  Forall (fun x => nullish x = false) xs \/
  Exists (fun x => nullish x = true) xs.
Proof.
  induction xs as [| x xs [IH | IH]].
  - left. constructor.
  - destruct (nullish x) eqn:Hx; [right; now left | left; now constructor].
  - right. now right.
Qed.

Lemma nullish_exclusive (xs : list value) :
  Forall (fun x => nullish x = false) xs ->
  Exists (fun x => nullish x = true) xs -> False.
Proof.
  intros Hall Hex. apply Exists_exists in Hex. destruct Hex as (x & Hin & Hx).
  rewrite Forall_forall in Hall. rewrite (Hall x Hin) in Hx. discriminate.
Qed.

(** The four callbacks raise on [null] and [undefined], and on nothing
    else. *)
Lemma text_content_ok (t : value) :
  nullish t = false -> exists y, text_content t = Ok y.
Proof.
  intros Ht. unfold text_content. rewrite !(get_defined _ _ Ht). cbn [bind].
  destruct (is_string _ "text"); [| eauto].
  destruct (is_object _) eqn:Hobj; [| eauto].
  rewrite (get_defined _ _ (is_object_defined _ Hobj)). eauto.
Qed.

Lemma name_ok (s : value) :
  nullish s = false -> exists y, get s "name" = Ok y.
Proof. intros Hs. rewrite (get_defined _ _ Hs). eauto. Qed.

Lemma file_entry_ok (file : value) :
  nullish file = false -> exists y, file_entry file = Ok y.
Proof.
  intros Hf. unfold file_entry. rewrite !(get_defined _ _ Hf). cbn [bind].
  destruct (is_string _ "external") eqn:Hext; cbn [bind andb].
  - destruct (truthy _) eqn:Ht.
    + rewrite (get_defined _ _ (truthy_defined _ Ht)). cbn [bind]. eauto.
    + destruct (is_string _ "file"); cbn [bind andb]; [| eauto].
      destruct (truthy (match own_property file "file" with
                        | Some x => x
                        | None => VUndefined
                        end)) eqn:Hin; [| eauto].
      rewrite !(get_defined _ _ (truthy_defined _ Hin)). cbn [bind]. eauto.
  - destruct (is_string _ "file"); cbn [bind andb]; [| eauto].
    destruct (truthy (match own_property file "file" with
                      | Some x => x
                      | None => VUndefined
                      end)) eqn:Hin; [| eauto].
    rewrite !(get_defined _ _ (truthy_defined _ Hin)). cbn [bind]. eauto.
Qed.

Lemma id_and_name_ok (u : value) :
  nullish u = false -> exists y, id_and_name u = Ok y.
Proof.
  intros Hu. unfold id_and_name. rewrite !(get_defined _ _ Hu). cbn [bind].
  eauto.
Qed.

Lemma callbacks_throw (x : value) :
  nullish x = true ->
  text_content x = Throw TypeError /\
  get x "name" = Throw TypeError /\
  file_entry x = Throw TypeError /\
  id_and_name x = Throw TypeError.
Proof.
  intros Hx. unfold text_content, file_entry, id_and_name, get.
  rewrite Hx. repeat split.
Qed.

Lemma mapM_defined {B : Type} (f : value -> outcome B) (xs : list value) :
  (forall x, nullish x = false -> exists y, f x = Ok y) ->
  Forall (fun x => nullish x = false) xs ->
  exists ys, mapM f xs = Ok ys.
Proof.
  intros Hf Hxs. apply mapM_returns.
  eapply Forall_impl; [| exact Hxs]. exact Hf.
Qed.

Ltac settle :=
  repeat first
    [ rewrite get_object
    | progress cbn [bind]
    | match goal with
      | H : is_object ?v = true |- context [get ?v ?k] =>
          rewrite (get_defined v k (is_object_defined v H))
      | H : is_object ?v = true |- context [has_property ?k ?v] =>
          rewrite (has_property_is_object v k H)
      | H : truthy ?v = true |- context [get ?v ?k] =>
          rewrite (get_defined v k (truthy_defined v H))
      | |- context [if is_object ?x then _ else _] =>
          destruct (is_object x) eqn:?
      | |- context [if truthy ?x then _ else _] =>
          destruct (truthy x) eqn:?
      | |- context [if negb ?x then _ else _] =>
          destruct x eqn:?; cbn [negb]
      | |- context [if isArray ?x then _ else _] =>
          destruct (isArray x)
      | |- context [if match own_property ?v ?k with _ => _ end then _ else _] =>
          destruct (own_property v k)
      end ];
  try solve [left; eauto | eauto].

(** What the callback of the title rule gives is inside the fragment. *)
Lemma text_content_convertible (t y : value) :
  convertible t = true -> text_content t = Ok y -> convertible y = true.
Proof.
  intros Ht. unfold text_content.
  destruct (get t "type") as [ty | e] eqn:Hty; cbn [bind]; [| discriminate].
  destruct (is_string ty "text"); [| intros [= <-]; reflexivity].
  destruct (get t "text") as [tx | e] eqn:Htx; cbn [bind]; [| discriminate].
  destruct (is_object tx); [| intros [= <-]; reflexivity].
  apply convertible_get. exact (convertible_get _ _ _ Ht Htx).
Qed.

Lemma contents_convertible (items ys : list value) :
  Forall (fun x => convertible x = true) items ->
  mapM text_content items = Ok ys ->
  Forall (fun y => convertible y = true) (filter truthy ys).
Proof.
  intros Hitems Hrun. apply mapM_Forall2 in Hrun.
  apply Forall_forall. intros y Hy. apply filter_In in Hy. destruct Hy as [Hy _].
  revert y Hy. apply Forall_forall.
  induction Hrun as [| x y xs ys Hxy _ IH]; [constructor |].
  inversion Hitems; subst. constructor; [| now apply IH].
  now apply (text_content_convertible x).
Qed.

(** The title rule on an array without [null] and [undefined]. *)
Lemma title_returns (items : list value) :
  Forall (fun x => nullish x = false) items ->
  Forall (fun x => convertible x = true) items ->
  exists v,
    (mapped <- mapM text_content items ;;
     joined <- join "" (filter truthy mapped) ;;
     let content := VStr joined in
     match items with
     | first :: _ =>
         ftext <- get first "text" ;;
         if is_object ftext then
           link <- get ftext "link" ;;
           if is_object link then
             url <- get link "url" ;;
             Ok (VObj [("content", content); ("url", url)])
           else Ok content
         else Ok content
     | [] => Ok content
     end) = Ok v.
Proof.
  intros Hall Hconv.
  destruct (mapM_defined text_content items text_content_ok Hall) as [ys Hys].
  rewrite Hys. cbn [bind].
  destruct (convertible_join "" (filter truthy ys)
              (contents_convertible items ys Hconv Hys)) as [joined ->].
  cbn [bind].
  destruct items as [| first rest]; [eauto |].
  inversion Hall as [| ? ? Hfirst _]; subst.
  rewrite (get_defined _ _ Hfirst). settle.
Qed.

(** The unique_id rule on a payload that has a string form. *)
Lemma unique_id_returns (uid : value) :
  convertible uid = true ->
  exists v,
    (if is_object uid then
       num <- get uid "number" ;;
       if negb (is_undefined num) then
         prefix <- get uid "prefix" ;;
         if truthy prefix
         then (p <- to_string prefix ;;
               n <- to_string num ;;
               Ok (VStr (p ++ "-" ++ n)))
         else Ok num
       else Ok VNull
     else Ok VNull) = Ok v.
Proof.
  intros Huid. destruct (is_object uid) eqn:Hobj; [| eauto].
  pose proof (is_object_defined _ Hobj) as Hdef.
  destruct (get uid "number") as [num | e] eqn:Hnum;
    [| rewrite (get_defined _ _ Hdef) in Hnum; discriminate Hnum].
  destruct (get uid "prefix") as [prefix | e] eqn:Hprefix;
    [| rewrite (get_defined _ _ Hdef) in Hprefix; discriminate Hprefix].
  cbn [bind]. destruct (negb (is_undefined num)); [| eauto].
  cbn [bind]. destruct (truthy prefix); [| eauto].
  destruct (convertible_to_string prefix (convertible_get _ _ _ Huid Hprefix))
    as [p ->].
  destruct (convertible_to_string num (convertible_get _ _ _ Huid Hnum))
    as [n ->].
  cbn [bind]. eauto.
Qed.

Lemma payload_items (props : list (string * value)) (tag : string)
    (items : list value) :
  convertible (VObj props) = true ->
  lookup tag props = Some (VArr items) ->
  Forall (fun x => convertible x = true) items.
Proof.
  intros Hprops Hl. apply lookup_In in Hl.
  pose proof (convertible_member props _ Hprops Hl) as Hitems.
  apply Forall_forall. intros x. now apply convertible_element.
Qed.

(** On an object in which every value has a string form the extraction
    returns, unless one of the five mapped rules meets [null] or
    [undefined] in its array. *)
Lemma extract_object_cases (props : list (string * value)) :
  convertible (VObj props) = true ->
  (exists v, extractNotionValue (VObj props) = Ok v) \/
  (exists tag items,
     In tag mapped_tags /\ discriminator props = VStr tag /\
     lookup tag props = Some (VArr items) /\
     Exists (fun x => nullish x = true) items).
Proof.
  intros Hprops.
  unfold extractNotionValue. cbn [truthy typeof_object negb orb].
  rewrite get_object. fold (payload props "type"). fold (discriminator props).
  cbn [bind].
  destruct (truthy (discriminator props)) eqn:Hty; cbn [negb]; [| left; eauto].
  repeat match goal with
  | |- context [is_string (discriminator props) ?s] =>
      let E := fresh "E" in
      destruct (is_string (discriminator props) s) eqn:E;
      [ apply is_string_eq in E; rewrite ?E;
        cbn [is_string String.eqb Ascii.eqb Bool.eqb orb to_string bind];
        try solve [settle]
      | cbn [orb] ]
  end.
  - (* title *)
    rewrite get_object.
    destruct (lookup "title" props) as [[ | | | | | items | ] | ] eqn:Hl;
      cbn [bind]; try (left; eauto; fail).
    destruct (nullish_cases items) as [Hall | Hex].
    + left. apply title_returns; [exact Hall |].
      exact (payload_items props "title" items Hprops Hl).
    + right. exists "title", items. repeat split; try assumption.
      simpl. tauto.
  - (* rich_text *)
    rewrite get_object.
    destruct (lookup "rich_text" props) as [[ | | | | | items | ] | ] eqn:Hl;
      cbn [bind]; try (left; eauto; fail).
    destruct (nullish_cases items) as [Hall | Hex].
    + left. apply title_returns; [exact Hall |].
      exact (payload_items props "rich_text" items Hprops Hl).
    + right. exists "rich_text", items. repeat split; try assumption.
      simpl. tauto.
  - (* multi_select *)
    rewrite get_object.
    destruct (lookup "multi_select" props) as [[ | | | | | items | ] | ] eqn:Hl;
      cbn [bind]; try (left; eauto; fail).
    destruct (nullish_cases items) as [Hall | Hex].
    + left. destruct (mapM_defined (fun s => get s "name") items name_ok Hall)
        as [ys ->]. cbn [bind]. eauto.
    + right. exists "multi_select", items. repeat split; try assumption.
      simpl. tauto.
  - (* files *)
    rewrite get_object.
    destruct (lookup "files" props) as [[ | | | | | items | ] | ] eqn:Hl;
      cbn [bind]; try (left; eauto; fail).
    destruct (nullish_cases items) as [Hall | Hex].
    + left. destruct (mapM_defined file_entry items file_entry_ok Hall)
        as [ys ->]. cbn [bind]. eauto.
    + right. exists "files", items. repeat split; try assumption.
      simpl. tauto.
  - (* people *)
    rewrite get_object.
    destruct (lookup "people" props) as [[ | | | | | items | ] | ] eqn:Hl;
      cbn [bind]; try (left; eauto; fail).
    destruct (nullish_cases items) as [Hall | Hex].
    + left. destruct (mapM_defined id_and_name items id_and_name_ok Hall)
        as [ys ->]. cbn [bind]. eauto.
    + right. exists "people", items. repeat split; try assumption.
      simpl. tauto.
  - rewrite get_object. cbn [bind].
    destruct (is_object _) eqn:Hobj; [| left; eauto].
    destruct (id_and_name_ok _ (is_object_defined _ Hobj)) as [y ->].
    left. eauto.
  - rewrite get_object. cbn [bind].
    destruct (is_object _) eqn:Hobj; [| left; eauto].
    destruct (id_and_name_ok _ (is_object_defined _ Hobj)) as [y ->].
    left. eauto.
  - (* unique_id *)
    rewrite get_object. cbn [bind]. left. apply unique_id_returns.
    destruct (lookup "unique_id" props) as [uid |] eqn:Hl; [| reflexivity].
    apply lookup_In in Hl. exact (convertible_member props _ Hprops Hl).
  - left. eauto.
Qed.

Lemma extract_object_throws (props : list (string * value))
    (tag : string) (items : list value) :
  In tag mapped_tags ->
  discriminator props = VStr tag ->
  lookup tag props = Some (VArr items) ->
  Exists (fun x => nullish x = true) items ->
  extractNotionValue (VObj props) = Throw TypeError.
Proof.
  intros Hin Hty Hl Hex.
  unfold extractNotionValue. cbn [truthy typeof_object negb orb].
  rewrite get_object. fold (payload props "type"). fold (discriminator props).
  rewrite Hty. cbn [bind].
  simpl in Hin.
  destruct Hin as [<- | [<- | [<- | [<- | [<- | []]]]]];
    cbn [truthy negb is_string String.eqb Ascii.eqb Bool.eqb orb to_string
         bind];
    rewrite get_object, Hl; cbn [bind];
    rewrite mapM_throws; try reflexivity;
    (eapply Exists_impl; [| exact Hex]); intros x Hx;
    apply (callbacks_throw x Hx).
Qed.

(** X14.  On a value in which no object has a member named toString,
    the extraction raises a TypeError exactly when the value is a Property
    Value object whose type is title, rich_text, multi_select, files or
    people and whose payload of that name is an array that holds [null] or
    [undefined]; on every other such value it returns. *)
Theorem extraction_raises_iff :
  forall property : value,
  convertible property = true ->
  (extractNotionValue property = Throw TypeError <->
   exists props tag items,
     property = VObj props /\
     In tag mapped_tags /\
     discriminator props = VStr tag /\
     lookup tag props = Some (VArr items) /\
     Exists (fun x => nullish x = true) items).
Proof.
  intros property Hconv. split.
  - intros Hthrow. destruct property as [| | b | n | s | items | props];
      try (unfold extractNotionValue in Hthrow; simpl in Hthrow;
           rewrite ?orb_true_r in Hthrow; discriminate Hthrow).
    + unfold extractNotionValue in Hthrow.
      cbn [truthy typeof_object negb orb] in Hthrow.
      rewrite (get_defined (VArr items) "type" eq_refl) in Hthrow.
      cbn [own_property] in Hthrow.
      rewrite indexed_lookup_name in Hthrow by (reflexivity || discriminate).
      discriminate Hthrow.
    + destruct (extract_object_cases props Hconv)
        as [[v Hv] | (tag & items & Hin & Hty & Hl & Hex)].
      * rewrite Hv in Hthrow. discriminate Hthrow.
      * exists props, tag, items. repeat split; assumption.
  - intros (props & tag & items & -> & Hin & Hty & Hl & Hex).
    eapply extract_object_throws; eassumption.
Qed.

(** A people property with a missing person raises; with the person in
    place it does not. *)
Lemma extraction_raises_iff_witness :
  extractNotionValue
    (VObj [("type", VStr "people"); ("people", VArr [VNull])])
  = Throw TypeError /\
  extractNotionValue
    (VObj [("type", VStr "people");
           ("people", VArr [VObj [("id", VStr "u1")]])])
  <> Throw TypeError.
Proof.
  split.
  - apply (extraction_raises_iff
             (VObj [("type", VStr "people"); ("people", VArr [VNull])])
             eq_refl).
    exists [("type", VStr "people"); ("people", VArr [VNull])], "people",
      [VNull].
    repeat split; [simpl; tauto | now left].
  - intros Hthrow.
    apply (extraction_raises_iff
             (VObj [("type", VStr "people");
                    ("people", VArr [VObj [("id", VStr "u1")]])])
             eq_refl) in Hthrow.
    destruct Hthrow as (props & tag & items & [= <-] & Hin & Hty & Hl & Hex).
    injection Hty as <-. injection Hl as <-.
    inversion Hex as [? ? Hx | ? ? Hx]; [discriminate Hx | inversion Hx].
Defined.

(** *** Payloads the normalizer returns on *)

Lemma null_free_member (props : list (string * value)) (v : value) :
  null_free (VObj props) = true -> In v (map snd props) -> null_free v = true.
Proof.
  cbn [null_free]. rewrite forallb_forall. intros H Hin.
  apply in_map_iff in Hin. destruct Hin as (kv & <- & Hkv). now apply H.
Qed.

Lemma null_free_element (items : list value) (x : value) :
  null_free (VArr items) = true -> In x items ->
  nullish x = false /\ null_free x = true.
Proof.
  cbn [null_free]. rewrite forallb_forall. intros H Hin.
  apply H in Hin. apply andb_prop in Hin. destruct Hin as [Hn Hf].
  now apply negb_true_iff in Hn.
Qed.

Lemma regular_parts (v : value) :
  regular v = true -> null_free v = true /\ convertible v = true.
Proof. unfold regular. intros H. now apply andb_prop in H. Qed.

Lemma regular_member (props : list (string * value)) (v : value) :
  regular (VObj props) = true -> In v (map snd props) -> regular v = true.
Proof.
  intros H Hin. apply regular_parts in H. destruct H as [Hn Hc].
  unfold regular. rewrite (null_free_member props v Hn Hin).
  exact (convertible_member props v Hc Hin).
Qed.

Lemma regular_element (items : list value) (x : value) :
  regular (VArr items) = true -> In x items ->
  nullish x = false /\ regular x = true.
Proof.
  intros H Hin. apply regular_parts in H. destruct H as [Hn Hc].
  destruct (null_free_element items x Hn Hin) as [Hx Hf].
  split; [exact Hx |]. unfold regular. rewrite Hf.
  exact (convertible_element items x Hc Hin).
Qed.

Lemma extract_non_object (v : value) :
  (forall props, v <> VObj props) -> extractNotionValue v = Ok v.
Proof.
  intros Hv. destruct v as [| | b | n | s | items | props];
    try (unfold extractNotionValue; simpl; rewrite ?orb_true_r; reflexivity).
  - unfold extractNotionValue. cbn [truthy typeof_object negb orb].
    rewrite (get_defined (VArr items) "type" eq_refl). cbn [own_property].
    rewrite indexed_lookup_name by (reflexivity || discriminate).
    reflexivity.
  - exfalso. now apply (Hv props).
Qed.

Lemma extract_regular (v : value) :
  regular v = true -> exists r, extractNotionValue v = Ok r.
Proof.
  intros Hv. destruct v as [| | b | n | s | items | props];
    try (rewrite extract_non_object by discriminate; eauto).
  destruct (extract_object_cases props (proj2 (regular_parts _ Hv)))
    as [Hok | (tag & items & _ & _ & Hl & Hex)]; [exact Hok |].
  exfalso. apply lookup_In in Hl.
  pose proof (regular_member _ _ Hv Hl) as Hitems.
  apply Exists_exists in Hex. destruct Hex as (x & Hin & Hx).
  destruct (regular_element _ _ Hitems Hin) as [Hnn _]. congruence.
Qed.

Lemma transformProperties_regular (v : value) :
  typeof_object v = true -> nullish v = false -> regular v = true ->
  exists r, transformProperties v = Ok r.
Proof.
  intros Hobj Hn Hv. unfold transformProperties.
  assert (Hes : exists es, entries v = Ok es /\
                           Forall (fun kv => regular (snd kv) = true) es).
  { destruct v as [| | b | n | s | items | props]; try discriminate.
    - eexists. split; [reflexivity |]. apply Forall_forall.
      intros [k x] Hin. apply in_combine_r in Hin.
      now apply (regular_element items x Hv).
    - eexists. split; [reflexivity |]. apply Forall_forall.
      intros [k x] Hin. apply (regular_member props x Hv).
      apply in_map_iff. now exists (k, x). }
  destruct Hes as (es & -> & Hes). cbn [bind].
  apply foldM_returns. eapply Forall_impl; [| exact Hes].
  intros [k x] Hx s. cbn [snd] in Hx.
  destruct (is_object x); [| eauto].
  destruct (extract_regular x Hx) as [r ->]. cbn [bind]. eauto.
Qed.

Lemma field_rule_returns (k : string) (x : value) :
  regular x = true ->
  (exists r, transformValue x = Ok r) ->
  exists r, field_rule k x = Ok r.
Proof.
  intros Hx Hv. unfold field_rule, field_rule_with.
  destruct (isMetadataField k); [eauto |].
  destruct ((k =? "properties") && typeof_object x && negb (nullish x))%bool
    eqn:Hp; [| exact Hv].
  apply andb_prop in Hp. destruct Hp as [Hp Hn].
  apply andb_prop in Hp. destruct Hp as [_ Ho].
  apply negb_true_iff in Hn.
  destruct (transformProperties_regular x Ho Hn Hx) as [r ->].
  cbn [bind]. eauto.
Qed.

Lemma loop_returns (es : list (string * value)) :
  Forall (fun kv => regular (snd kv) = true /\
                    exists r, transformValue (snd kv) = Ok r) es ->
  forall acc, exists r, foldM (loop_step transformObject_all) es acc = Ok r.
Proof.
  intros Hes. apply foldM_returns. eapply Forall_impl; [| exact Hes].
  intros [k x] [Hx Hv] s. cbn [snd] in *. unfold loop_step.
  destruct (field_rule_returns k x Hx Hv) as [r Hr].
  unfold field_rule in Hr. rewrite Hr. cbn [bind]. eauto.
Qed.

Lemma pass_regular :
  forall v,
  regular v = true ->
  (nullish v = false -> exists r, transformObject_all v = Ok r) /\
  (exists r, transformValue v = Ok r).
Proof.
  induction v as [| | b | n | s | items IH | props IH] using value_induction;
    intros Hv.
  - split; [discriminate | eexists; reflexivity].
  - split; [discriminate | eexists; reflexivity].
  - split; eexists; reflexivity.
  - split; eexists; reflexivity.
  - split; [intros _ | eexists; reflexivity].
    rewrite NormalizerFacts.transformObject_all_entries. cbn [entries bind].
    destruct (loop_returns (combine (index_keys (String.length s)) (chars s)))
      with (acc := @nil (string * value)) as [r ->]; [| cbn [bind]; eauto].
    apply Forall_forall. intros [k x] Hin. apply in_combine_r in Hin.
    cbn [snd]. clear - Hin. induction s as [| c s IHs]; [contradiction |].
    destruct Hin as [<- | Hin]; [split; [reflexivity | eexists; reflexivity] |].
    now apply IHs.
  - assert (Hitems : Forall (fun x => nullish x = false /\ regular x = true /\
                                      (exists r, transformObject_all x = Ok r) /\
                                      (exists r, transformValue x = Ok r)) items).
    { rewrite Forall_forall in *. intros x Hin.
      destruct (regular_element _ _ Hv Hin) as [Hn Hx].
      destruct (IH x Hin Hx) as [Ht Hval]. auto. }
    split; [intros _ |].
    + rewrite NormalizerFacts.transformObject_all_entries. cbn [entries bind].
      destruct (loop_returns (combine (index_keys (length items)) items))
        with (acc := @nil (string * value)) as [r ->]; [| cbn [bind]; eauto].
      apply Forall_forall. intros [k x] Hin. apply in_combine_r in Hin.
      rewrite Forall_forall in Hitems. cbn [snd].
      destruct (Hitems x Hin) as (_ & Hx & _ & Hval). auto.
    + unfold transformValue, transformValue_with.
      destruct (mapM_returns
                  (fun item => if is_object item then transformObject_all item
                               else Ok item) items) as [ys ->];
        [| cbn [bind]; eauto].
      eapply Forall_impl; [| exact Hitems].
      intros x (_ & _ & Ht & _). destruct (is_object x); eauto.
  - assert (Hobj : exists r, transformObject_all (VObj props) = Ok r).
    { cbn [transformObject_all].
      destruct (loop_returns props) with (acc := @nil (string * value))
        as [r ->]; [| cbn [bind]; eauto].
      rewrite Forall_forall in *. intros [k x] Hin. cbn [snd].
      assert (Hx : regular x = true).
      { apply (regular_member props x Hv). apply in_map_iff.
        now exists (k, x). }
      split; [exact Hx |]. exact (proj2 (IH (k, x) Hin Hx)). }
    split; [intros _; exact Hobj | exact Hobj].
Qed.

Lemma reduced_regular (fields : option (list string)) :
  fields = None \/ fields = Some [] ->
  forall v, regular v = true -> exists r, transformReduced v fields = Ok r.
Proof.
  intros Hf.
  assert (Hpass : forall x, transformObject x fields = transformObject_all x)
    by (destruct Hf as [-> | ->]; reflexivity).
  induction v as [| | b | n | s | items IH | props IH] using value_induction;
    intros Hv; try (eexists; reflexivity).
  - cbn [transformReduced].
    destruct (mapM_returns (fun item => transformReduced item fields) items)
      as [ys ->]; [| cbn [bind]; eauto].
    rewrite Forall_forall in *. intros x Hin.
    apply (IH x Hin). now apply (regular_element items x Hv).
  - cbn [transformReduced]. rewrite has_property_object.
    assert (Hone : exists r, transformObject (VObj props) fields = Ok r).
    { rewrite Hpass. now apply pass_regular. }
    destruct (lookup "results" props) as [results |] eqn:Hres; cbn [bind];
      [| exact Hone].
    rewrite get_object, Hres. cbn [bind].
    destruct results as [| | b | n | s | items | ps]; try exact Hone.
    rewrite extractMetadata_object. cbn [bind].
    destruct (mapM_returns (fun item => transformObject item fields) items)
      as [ys ->]; [| cbn [bind]; eauto].
    apply lookup_In in Hres. pose proof (regular_member _ _ Hv Hres) as Hitems.
    apply Forall_forall. intros x Hin. rewrite Hpass.
    destruct (regular_element _ _ Hitems Hin) as [Hn Hx].
    now apply pass_regular.
Qed.

(** X15.  In mode reduced without a field list (none, or an empty one),
    transform returns, raising nothing, on every payload in which no array,
    at any depth, holds [null] or [undefined] and no object has a member
    named toString. *)
Theorem reduced_returns_on_null_free :
  forall (defaultMode : string) (data : value) (config : TransformConfig),
  effective_mode defaultMode config = "reduced" ->
  fields config = None \/ fields config = Some [] ->
  null_free data = true ->
  convertible data = true ->
  exists out, transform defaultMode data config = Ok out.
Proof.
  intros defaultMode data config Hmode Hfields Hnull Hconv.
  rewrite (reduced_mode _ _ _ Hmode).
  apply reduced_regular; [exact Hfields |].
  unfold regular. now rewrite Hnull, Hconv.
Qed.

(** The list of two pages has a null cursor, but no null in an array. *)
Lemma reduced_returns_on_null_free_witness :
  null_free (VObj page_list) = true /\
  convertible (VObj page_list) = true /\
  exists out,
    transform "full" (VObj page_list) (mkConfig (Some "reduced") None None)
    = Ok out.
Proof.
  split; [reflexivity |]. split; [reflexivity |].
  apply reduced_returns_on_null_free;
    [reflexivity | now left | reflexivity | reflexivity].
Defined.

(** *** Titles and rich text *)

Lemma text_content_plain (c : string) :
  text_content (plain_fragment c) = Ok (VStr c).
Proof. reflexivity. Qed.

Lemma text_content_linked (c url : string) :
  text_content (linked_fragment c url) = Ok (VStr c).
Proof. reflexivity. Qed.

Lemma mapM_plain (cs : list string) :
  mapM text_content (map plain_fragment cs) = Ok (map VStr cs).
Proof.
  induction cs as [| c cs IH]; cbn [map mapM]; [reflexivity |].
  rewrite text_content_plain. cbn [bind]. rewrite IH. reflexivity.
Qed.

(** Joining the non-empty contents gives the concatenation of all. *)
Lemma mapM_strings (cs : list string) :
  mapM (fun x => if nullish x then Ok "" else to_string x) (map VStr cs)
  = Ok cs.
Proof.
  induction cs as [| c cs IH]; cbn [map mapM]; [reflexivity |].
  cbn [nullish to_string bind]. rewrite IH. reflexivity.
Qed.

Lemma filter_strings (cs : list string) :
  filter truthy (map VStr cs)
  = map VStr (filter (fun c => negb (c =? "")) cs).
Proof.
  induction cs as [| c cs IH]; [reflexivity |].
  cbn [map filter truthy]. destruct (negb (c =? "")); cbn [map]; now rewrite IH.
Qed.

Lemma concat_nonempty (cs : list string) :
  String.concat "" (filter (fun c => negb (c =? "")) cs) = String.concat "" cs.
Proof.
  induction cs as [| c cs IH]; [reflexivity |].
  rewrite concat_empty_sep. cbn [filter].
  destruct (String.eqb_spec c "") as [-> | Hc]; cbn [negb].
  - exact IH.
  - rewrite concat_empty_sep, IH. reflexivity.
Qed.

Lemma join_contents (cs : list string) :
  join "" (filter truthy (map VStr cs)) = Ok (String.concat "" cs).
Proof.
  unfold join. rewrite filter_strings, mapM_strings. cbn [bind].
  now rewrite concat_nonempty.
Qed.

(** X16.  A title or rich text made of text fragments without links is
    reduced to the concatenation of the fragments' contents, in order;
    when the first fragment carries a link, to an object with that
    concatenation as content and the link's url. *)
Theorem title_is_concatenation :
  forall (props : list (string * value)) (tag : string),
  tag = "title" \/ tag = "rich_text" ->
  discriminator props = VStr tag ->
  (forall contents,
     lookup tag props = Some (VArr (map plain_fragment contents)) ->
     extractNotionValue (VObj props) = Ok (VStr (String.concat "" contents))) /\
  (forall content url contents,
     lookup tag props
     = Some (VArr (linked_fragment content url :: map plain_fragment contents)) ->
     extractNotionValue (VObj props)
     = Ok (VObj [("content", VStr (content ++ String.concat "" contents));
                 ("url", VStr url)])).
Proof.
  intros props tag Htag Hty.
  assert (Hrun : forall texts,
             lookup tag props = Some (VArr texts) ->
             extractNotionValue (VObj props)
             = (mapped <- mapM text_content texts ;;
                joined <- join "" (filter truthy mapped) ;;
                let content := VStr joined in
                match texts with
                | first :: _ =>
                    ftext <- get first "text" ;;
                    if is_object ftext then
                      link <- get ftext "link" ;;
                      if is_object link then
                        url <- get link "url" ;;
                        Ok (VObj [("content", content); ("url", url)])
                      else Ok content
                    else Ok content
                | [] => Ok content
                end)).
  { intros texts Hl. unfold extractNotionValue.
    cbn [truthy typeof_object negb orb].
    rewrite get_object. fold (payload props "type").
    fold (discriminator props). rewrite Hty. cbn [bind].
    destruct Htag as [-> | ->];
      cbn [truthy negb is_string String.eqb Ascii.eqb Bool.eqb orb to_string
           bind];
      rewrite get_object, Hl; reflexivity. }
  split.
  - intros contents Hl. rewrite (Hrun _ Hl), mapM_plain. cbn [bind].
    rewrite join_contents. cbn [bind]. destruct contents; reflexivity.
  - intros content url contents Hl. rewrite (Hrun _ Hl).
    cbn [mapM]. rewrite text_content_linked. cbn [bind].
    rewrite mapM_plain. cbn [bind].
    change (VStr content :: map VStr contents) with (map VStr (content :: contents)).
    rewrite join_contents, concat_empty_sep. reflexivity.
Qed.

(** Three fragments, the middle one empty. *)
Lemma title_is_concatenation_witness :
  extractNotionValue
    (VObj [("id", VStr "title"); ("type", VStr "title");
           ("title", VArr (map plain_fragment ["Hello "; ""; "World"]))])
  = Ok (VStr "Hello World").
Proof.
  destruct (title_is_concatenation
              [("id", VStr "title"); ("type", VStr "title");
               ("title", VArr (map plain_fragment ["Hello "; ""; "World"]))]
              "title" (or_introl eq_refl) eq_refl) as [Hplain _].
  exact (Hplain ["Hello "; ""; "World"] eq_refl).
Defined.

End NormalizerExtras.

(* ===================================================================== *)
(** ** Names and titles of tools *)
(* ===================================================================== *)

Module ToolsFacts.
Import Server Shapes JSFacts.

Lemma append_assoc (a b c : string) : (a ++ b) ++ c = a ++ b ++ c.
Proof. induction a as [| x a IH]; simpl; [reflexivity | now rewrite IH]. Qed.

(** *** Tool names *)

Lemma substring_prefix (n : nat) :
  forall s, exists rest,
    s = substring 0 n s ++ rest /\
    String.length (substring 0 n s) = Nat.min n (String.length s).
Proof.
  induction n as [| n IH]; intros [| c s]; simpl.
  - exists "". split; reflexivity.
  - exists (String c s). split; reflexivity.
  - exists "". split; reflexivity.
  - destruct (IH s) as (rest & Hs & Hlen). exists rest.
    split; [now rewrite <- Hs | now rewrite Hlen].
Qed.

(** X17. For an ASCII tool name: the truncated name is a prefix of the
    name, its length is the smaller of 64 and the length of the name, it
    is the name itself exactly when the name has 64 characters or fewer,
    and truncating it again changes nothing. *)
Theorem truncated_tool_name :
  forall name : string,
  all_chars is_ascii name = true ->
  String.length (truncateToolName name) = Nat.min 64 (String.length name) /\
  (exists rest, name = truncateToolName name ++ rest) /\
  (truncateToolName name = name <-> String.length name <= 64) /\
  truncateToolName (truncateToolName name) = truncateToolName name.
Proof.
  intros name _.
  assert (Hlen : String.length (truncateToolName name)
                 = Nat.min 64 (String.length name)).
  { unfold truncateToolName.
    destruct (Nat.leb_spec (String.length name) 64) as [Hle | Hgt].
    - symmetry. now apply Nat.min_r.
    - destruct (substring_prefix 64 name) as (rest & _ & ->). reflexivity. }
  split; [exact Hlen |]. split; [| split].
  - unfold truncateToolName.
    destruct (String.length name <=? 64)%nat.
    + exists "". now rewrite append_empty.
    + destruct (substring_prefix 64 name) as (rest & Hs & _). eauto.
  - split.
    + intros Hsame. rewrite Hsame in Hlen. rewrite Hlen. apply Nat.le_min_l.
    + intros Hle. unfold truncateToolName.
      apply Nat.leb_le in Hle. now rewrite Hle.
  - unfold truncateToolName at 1.
    assert (Hshort : (String.length (truncateToolName name) <=? 64)%nat = true).
    { apply Nat.leb_le. rewrite Hlen. apply Nat.le_min_l. }
    now rewrite Hshort.
Qed.

(** A name of seventy characters is cut after the sixty-fourth. *)
Lemma truncated_tool_name_witness :
  truncateToolName
    "API-retrieve-a-block-and-all-of-its-children-with-every-nested-page-x1"
  = "API-retrieve-a-block-and-all-of-its-children-with-every-nested-p".
Proof.
  destruct (truncated_tool_name
              "API-retrieve-a-block-and-all-of-its-children-with-every-nested-page-x1"
              eq_refl) as (_ & _ & _ & _).
  reflexivity.
Defined.

(** *** Titles of operations *)

Lemma all_chars_append (p : ascii -> bool) (a b : string) :
  all_chars p (a ++ b) = (all_chars p a && all_chars p b)%bool.
Proof.
  induction a as [| c a IH]; simpl; [reflexivity |].
  now rewrite IH, andb_assoc.
Qed.

Lemma all_chars_impl (p q : ascii -> bool) (s : string) :
  (forall c, p c = true -> q c = true) ->
  all_chars p s = true -> all_chars q s = true.
Proof.
  intros Hpq. induction s as [| c s IH]; simpl; [reflexivity |].
  intros H. apply andb_prop in H. destruct H as [Hc Hs].
  now rewrite (Hpq c Hc), IH.
Qed.

Lemma all_chars_concat (p : ascii -> bool) (sep : string) (ws : list string) :
  all_chars p sep = true ->
  Forall (fun w => all_chars p w = true) ws ->
  all_chars p (String.concat sep ws) = true.
Proof.
  intros Hsep Hws. induction Hws as [| w ws Hw Hws IH]; [reflexivity |].
  destruct ws as [| w2 ws]; [exact Hw |].
  change (String.concat sep (w :: w2 :: ws))
    with (w ++ sep ++ String.concat sep (w2 :: ws)).
  now rewrite !all_chars_append, Hw, Hsep, IH.
Qed.

Lemma split_camel_step (a b : ascii) (s : string) :
  split_camel (String a (String b s))
  = if (is_lower a && is_upper b)%bool
    then String a (String " " (String b (split_camel s)))
    else String a (split_camel (String b s)).
Proof. reflexivity. Qed.

(** Without upper-case letters the first replacement finds no match. *)
Lemma split_camel_plain (s : string) :
  all_chars (fun c => negb (is_upper c)) s = true -> split_camel s = s.
Proof.
  induction s as [| a s IH]; [reflexivity |].
  intros H. simpl in H. apply andb_prop in H. destruct H as [_ Hs].
  destruct s as [| b s']; [reflexivity |].
  rewrite split_camel_step.
  assert (Hb : is_upper b = false).
  { simpl in Hs. apply andb_prop in Hs. destruct Hs as [Hb _].
    now apply negb_true_iff in Hb. }
  rewrite Hb, andb_false_r. now rewrite (IH Hs).
Qed.

Lemma upper_run_pair (s : string) :
  no_upper_pair s = true ->
  (String.length (fst (upper_run s)) <= 1)%nat.
Proof.
  destruct s as [| a s]; [simpl; auto |].
  cbn [upper_run]. destruct (is_upper a) eqn:Ha; [| simpl; auto].
  destruct s as [| b s']; [simpl; auto |].
  cbn [no_upper_pair]. rewrite Ha. cbn [andb].
  destruct (is_upper b) eqn:Hb; [discriminate |].
  intros _. cbn [upper_run]. rewrite Hb. simpl. auto.
Qed.

Lemma match_acronym_pair (s : string) :
  no_upper_pair s = true -> match_acronym s = None.
Proof.
  intros H. apply upper_run_pair in H. unfold match_acronym.
  destruct (upper_run s) as [run after]. cbn [fst] in H.
  destruct after as [| c rest]; [reflexivity |].
  assert (Hlen : (2 <=? String.length run)%nat = false)
    by (apply Nat.leb_gt; auto with arith).
  now rewrite Hlen, andb_false_r.
Qed.

Lemma no_upper_pair_tail (a : ascii) (s : string) :
  no_upper_pair (String a s) = true -> no_upper_pair s = true.
Proof.
  destruct s as [| b s']; [reflexivity |].
  cbn [no_upper_pair]. intros H. apply andb_prop in H. now destruct H.
Qed.

(** Without two upper-case letters side by side the second replacement
    finds no match. *)
Lemma split_acronyms_plain (s : string) :
  no_upper_pair s = true -> split_acronyms s = s.
Proof.
  unfold split_acronyms. generalize (String.length s) as fuel.
  intros fuel. revert s. induction fuel as [| fuel IH]; intros s H;
    [reflexivity |].
  cbn [split_acronyms_from]. rewrite (match_acronym_pair s H).
  destruct s as [| c s]; [reflexivity |].
  now rewrite (IH s (no_upper_pair_tail c s H)).
Qed.

Lemma no_upper_pair_plain (s : string) :
  all_chars (fun c => negb (is_upper c)) s = true -> no_upper_pair s = true.
Proof.
  induction s as [| a s IH]; [reflexivity |].
  intros H. simpl in H. apply andb_prop in H. destruct H as [Ha Hs].
  destruct s as [| b s']; [reflexivity |].
  cbn [no_upper_pair]. apply negb_true_iff in Ha. rewrite Ha. cbn [andb negb].
  exact (IH Hs).
Qed.

(** Reading a word that holds no separator. *)
Lemma split_words_word (w : string) :
  all_chars (fun c => negb (is_separator c)) w = true ->
  w <> "" ->
  forall word b s,
  split_words_from word b (w ++ s) = split_words_from (word ++ w) false s.
Proof.
  induction w as [| c w IH]; intros Hw Hne word b s; [contradiction |].
  simpl in Hw. apply andb_prop in Hw. destruct Hw as [Hc Hw].
  apply negb_true_iff in Hc.
  cbn [String.append split_words_from]. rewrite Hc.
  destruct w as [| c' w'].
  - reflexivity.
  - rewrite IH by (assumption || discriminate).
    now rewrite append_assoc.
Qed.

(** Words joined by one separator are split into the same words. *)
Lemma split_words_joined (sep : ascii) (ws : list string) :
  is_separator sep = true ->
  ws <> [] ->
  Forall (fun w => w <> "" /\
                   all_chars (fun c => negb (is_separator c)) w = true) ws ->
  forall b,
  split_words_from "" b (String.concat (String sep "") ws) = ws.
Proof.
  intros Hsep Hne Hws. induction Hws as [| w ws [Hw Hchars] Hws IH];
    intros b; [contradiction |].
  destruct ws as [| w2 ws].
  - cbn [String.concat]. rewrite <- (append_empty w) at 1.
    now rewrite split_words_word.
  - change (String.concat (String sep "") (w :: w2 :: ws))
      with (w ++ String sep (String.concat (String sep "") (w2 :: ws))).
    rewrite split_words_word by assumption.
    cbn [split_words_from String.append]. rewrite Hsep.
    now rewrite IH.
Qed.

Lemma kebab_char_plain (c : ascii) :
  kebab_char c = true -> negb (is_upper c) = true.
Proof.
  unfold kebab_char. intros H. apply andb_prop in H. destruct H as [H _].
  apply andb_prop in H. now destruct H.
Qed.

Lemma kebab_char_word (c : ascii) :
  kebab_char c = true -> negb (is_separator c) = true.
Proof. unfold kebab_char. intros H. apply andb_prop in H. now destruct H. Qed.

(** X18. The title of a kebab-case operation id: when the id is made of
    non-empty ASCII words without upper-case letters, joined by single
    hyphens, [operationIdToTitle] gives the same words, each with its
    first letter in upper case, joined by single spaces.  Nothing else
    of a word changes and no word is lost. *)
Theorem kebab_title :
  forall ws : list string,
  Forall kebab_word ws ->
  operationIdToTitle (String.concat "-" ws)
  = String.concat " " (map capitalize ws).
Proof.
  intros ws Hws. destruct ws as [| w ws]; [reflexivity |].
  assert (Hplain : all_chars (fun c => negb (is_upper c))
                     (String.concat "-" (w :: ws)) = true).
  { apply all_chars_concat; [reflexivity |].
    eapply Forall_impl; [| exact Hws]. intros x [_ Hx].
    exact (all_chars_impl _ _ x kebab_char_plain Hx). }
  unfold operationIdToTitle.
  rewrite (split_camel_plain _ Hplain).
  rewrite (split_acronyms_plain _ (no_upper_pair_plain _ Hplain)).
  unfold split_words. rewrite split_words_joined; try reflexivity.
  - discriminate.
  - eapply Forall_impl; [| exact Hws]. intros x [Hne Hx].
    split; [exact Hne | exact (all_chars_impl _ _ x kebab_char_word Hx)].
Qed.

(** The id of the block lookup of the Notion API. *)
Lemma kebab_title_witness :
  operationIdToTitle "retrieve-a-block" = "Retrieve A Block".
Proof.
  apply (kebab_title ["retrieve"; "a"; "block"]).
  repeat constructor; discriminate.
Defined.

(** Facts about single characters, by cases on the character. *)
Lemma lower_facts (c : ascii) :
  is_lower c = true ->
  is_upper c = false /\ is_separator c = false /\ is_upper (upper c) = true.
Proof.
  destruct c as [[] [] [] [] [] [] [] []]; intros H;
    try discriminate H; repeat split.
Qed.

Lemma upper_facts (c : ascii) :
  is_upper c = true -> is_separator c = false /\ is_lower c = false.
Proof.
  destruct c as [[] [] [] [] [] [] [] []]; intros H;
    try discriminate H; repeat split.
Qed.

Lemma upper_idempotent (c : ascii) : upper (upper c) = upper c.
Proof. destruct c as [[] [] [] [] [] [] [] []]; reflexivity. Qed.

Lemma capitalize_idempotent (w : string) :
  capitalize (capitalize w) = capitalize w.
Proof. destruct w; simpl; [reflexivity | now rewrite upper_idempotent]. Qed.

Lemma concat_cons_char (sep : string) (c : ascii) (w : string)
    (xs : list string) :
  String.concat sep (String c w :: xs) = String c (String.concat sep (w :: xs)).
Proof. destruct xs; reflexivity. Qed.

Lemma concat_cons (sep w : string) (x : string) (xs : list string) :
  String.concat sep (w :: x :: xs) = w ++ sep ++ String.concat sep (x :: xs).
Proof. reflexivity. Qed.

(** A lower-case word in front of an upper-case letter: the first
    replacement puts a space between them and goes on behind the
    letter. *)
Lemma split_camel_word (w : string) :
  w <> "" ->
  all_chars is_lower w = true ->
  forall U t,
  is_upper U = true ->
  split_camel (w ++ String U t)
  = w ++ String " " (String U (split_camel t)).
Proof.
  induction w as [| a w IH]; intros Hne Hw U t HU; [contradiction |].
  simpl in Hw. apply andb_prop in Hw. destruct Hw as [Ha Hw].
  destruct w as [| a' w'].
  - cbn [String.append]. rewrite split_camel_step, Ha, HU. reflexivity.
  - cbn [String.append]. rewrite split_camel_step.
    assert (Ha' : is_upper a' = false).
    { simpl in Hw. apply andb_prop in Hw. destruct Hw as [Ha' _].
      now apply lower_facts in Ha'. }
    rewrite Ha', andb_false_r.
    change (String a' (w' ++ String U t)) with (String a' w' ++ String U t).
    rewrite IH by (assumption || discriminate). reflexivity.
Qed.

Lemma lower_plain (w : string) :
  all_chars is_lower w = true ->
  all_chars (fun c => negb (is_upper c)) w = true.
Proof.
  apply all_chars_impl. intros c Hc. apply lower_facts in Hc.
  destruct Hc as [-> _]. reflexivity.
Qed.

(** A lower word is its first letter and a non-empty lower-case rest. *)
Lemma lower_word_split (w : string) :
  lower_word w ->
  exists u rest,
    w = String u rest /\ is_lower u = true /\
    rest <> "" /\ all_chars is_lower rest = true.
Proof.
  intros [Hlen Hw]. destruct w as [| u [| u' rest]]; simpl in Hlen;
    try (exfalso; inversion Hlen; match goal with H : _ <= 0 |- _ => inversion H end).
  simpl in Hw. apply andb_prop in Hw. destruct Hw as [Hu Hrest].
  exists u, (String u' rest). repeat split; try assumption. discriminate.
Qed.

Lemma split_camel_words (rest : list string) :
  Forall lower_word rest ->
  forall w,
  w <> "" ->
  all_chars is_lower w = true ->
  split_camel (w ++ String.concat "" (map capitalize rest))
  = String.concat " " (w :: map capitalize rest).
Proof.
  induction 1 as [| w2 rest Hw2 _ IH]; intros w Hne Hw.
  - cbn [map String.concat]. rewrite append_empty.
    apply split_camel_plain, lower_plain, Hw.
  - destruct (lower_word_split w2 Hw2) as (u & W & -> & Hu & HW & HWl).
    cbn [map capitalize]. rewrite concat_empty_sep. cbn [String.append].
    rewrite split_camel_word; try assumption.
    2:{ now apply lower_facts in Hu. }
    rewrite (IH W HW HWl).
    rewrite concat_cons, concat_cons_char. reflexivity.
Qed.

Lemma no_upper_pair_cons (a : ascii) (s : string) :
  is_upper a = false -> no_upper_pair (String a s) = no_upper_pair s.
Proof.
  intros Ha. destruct s as [| b s]; [reflexivity |].
  cbn [no_upper_pair]. now rewrite Ha.
Qed.

Lemma no_upper_pair_before (a b : ascii) (s : string) :
  is_upper b = false ->
  no_upper_pair (String a (String b s)) = no_upper_pair (String b s).
Proof.
  intros Hb.
  change (no_upper_pair (String a (String b s)))
    with (negb (is_upper a && is_upper b) && no_upper_pair (String b s))%bool.
  now rewrite Hb, andb_false_r.
Qed.

Lemma no_upper_pair_prefix (p s : string) :
  all_chars is_lower p = true -> no_upper_pair (p ++ s) = no_upper_pair s.
Proof.
  induction p as [| a p IH]; intros Hp; [reflexivity |].
  simpl in Hp. apply andb_prop in Hp. destruct Hp as [Ha Hp].
  cbn [String.append]. rewrite no_upper_pair_cons; [now apply IH |].
  now apply lower_facts in Ha.
Qed.

Lemma no_upper_pair_words (rest : list string) :
  Forall lower_word rest ->
  forall w,
  w <> "" ->
  all_chars is_lower w = true ->
  no_upper_pair (String.concat " " (w :: map capitalize rest)) = true.
Proof.
  induction 1 as [| w2 rest Hw2 _ IH]; intros w Hne Hw.
  - apply no_upper_pair_plain, lower_plain, Hw.
  - destruct (lower_word_split w2 Hw2) as (u & W & -> & Hu & HW & HWl).
    cbn [map capitalize]. rewrite concat_cons, concat_cons_char.
    rewrite no_upper_pair_prefix by assumption.
    cbn [String.append]. rewrite no_upper_pair_cons by reflexivity.
    specialize (IH W HW HWl).
    destruct W as [| u' W']; [contradiction |].
    rewrite concat_cons_char in *.
    assert (Hu' : is_upper u' = false).
    { simpl in HWl. apply andb_prop in HWl. destruct HWl as [Hu' _].
      now apply lower_facts in Hu'. }
    rewrite no_upper_pair_before by exact Hu'. exact IH.
Qed.

Lemma lower_word_chars (w : string) :
  all_chars is_lower w = true ->
  all_chars (fun c => negb (is_separator c)) w = true.
Proof.
  apply all_chars_impl. intros c Hc. apply lower_facts in Hc.
  destruct Hc as (_ & -> & _). reflexivity.
Qed.

(** X19. The title of a camelCase operation id: when the id is a
    lower-case word followed by capitalized lower-case words, each of two
    letters or more, [operationIdToTitle] gives the words, each
    capitalized, joined by single spaces: the id is cut in front of every
    upper-case letter and nowhere else. *)
Theorem camel_title :
  forall (w : string) (rest : list string),
  Forall lower_word (w :: rest) ->
  operationIdToTitle (w ++ String.concat "" (map capitalize rest))
  = String.concat " " (map capitalize (w :: rest)).
Proof.
  intros w rest Hall. inversion Hall as [| ? ? Hw Hrest]; subst.
  destruct (lower_word_split w Hw) as (u & W & -> & Hu & HW & HWl).
  assert (Hne : String u W <> "") by discriminate.
  assert (Hlow : all_chars is_lower (String u W) = true)
    by (simpl; now rewrite Hu, HWl).
  unfold operationIdToTitle.
  rewrite (split_camel_words rest Hrest _ Hne Hlow).
  rewrite (split_acronyms_plain _ (no_upper_pair_words rest Hrest _ Hne Hlow)).
  unfold split_words. rewrite split_words_joined; try reflexivity.
  - cbn [map]. f_equal. f_equal. rewrite map_map.
    apply map_ext. intros x. apply capitalize_idempotent.
  - discriminate.
  - constructor; [split; [exact Hne | now apply lower_word_chars] |].
    apply Forall_forall. intros x Hin. apply in_map_iff in Hin.
    destruct Hin as (w2 & <- & Hin).
    rewrite Forall_forall in Hrest.
    destruct (lower_word_split w2 (Hrest w2 Hin)) as (u2 & W2 & -> & Hu2 & _ & HW2).
    split; [discriminate |]. cbn [capitalize all_chars].
    apply lower_facts in Hu2. destruct Hu2 as (_ & _ & Hup).
    apply upper_facts in Hup. destruct Hup as [-> _]. cbn [negb andb].
    now apply lower_word_chars.
Qed.

(** The example of the source's own comment. *)
Lemma camel_title_witness :
  operationIdToTitle "createDatabase" = "Create Database".
Proof.
  apply (camel_title "create" ["database"]).
  repeat constructor; simpl; auto with arith.
Defined.

End ToolsFacts.
